(** * ION system heaps (drivers/gpu/ion/ion_system_heap.c)

    A shallow embedding of the two ION system heaps -- the page-list heap
    ([vmalloc_ops]) and the physically contiguous heap ([kmalloc_ops]) --
    together with the kernel primitives they call, and the properties of
    the heap operations.

    The driver is built for a 32-bit ARM kernel: [unsigned long] and
    pointers are 32 bits wide, [int] is a 32-bit two's complement integer
    and pages are 4 KiB.  Arithmetic of the C code is written over [Z] with
    the wrap-around spelled out. *)

From Stdlib Require Import ZArith Lia List Bool.
From stdpp Require Import base option list gmap sets.

Open Scope Z_scope.

(** ** Machine integers *)

Definition BITS_PER_LONG : Z := 32.

(** Conversion to [unsigned long]: reduction modulo 2^32. *)
Definition ulong (x : Z) : Z := x mod 2 ^ BITS_PER_LONG.

(** Conversion to [int]: the 32-bit two's complement reading. *)
Definition to_int (x : Z) : Z :=
  let u := x mod 2 ^ 32 in if u <? 2 ^ 31 then u else u - 2 ^ 32.

(** The page constants of the kernel headers (asm/page.h, linux/mm.h),
    which this file of the driver includes: pages of 4096 bytes. *)
Definition PAGE_SHIFT : Z := 12.
Definition PAGE_SIZE : Z := Z.shiftl 1 PAGE_SHIFT.
Definition PAGE_MASK : Z := Z.lnot (PAGE_SIZE - 1).

(** [PAGE_ALIGN(addr)] is [ALIGN(addr, PAGE_SIZE)], that is
    [(addr + PAGE_SIZE - 1) & ~(PAGE_SIZE - 1)] in [unsigned long]. *)
Definition PAGE_ALIGN (addr : Z) : Z :=
  Z.land (ulong (addr + (PAGE_SIZE - 1))) PAGE_MASK.

(** [sizeof(void * )] and [sizeof(struct sg_table)] (three words: [sgl],
    [nents], [orig_nents]). *)
Definition sizeof_ptr : Z := 4.
Definition sizeof_sg_table : Z := 12.

(** Error numbers (asm-generic/errno-base.h); the code returns them negated. *)
Definition ENOMEM : Z := 12.
Definition EFAULT : Z := 14.
Definition EBUSY : Z := 16.
Definition EINVAL : Z := 22.

(** [VM_RESERVED] (linux/mm.h). *)
Definition VM_RESERVED : Z := 524288.

(** [ZERO_SIZE_PTR] is what [kmalloc(0)] returns (linux/slab.h). *)
Definition ZERO_SIZE_PTR : Z := 16.

(** The page count every operation of the page-list heap computes:
    [int n_pages = PAGE_ALIGN(size) / PAGE_SIZE]. *)
Definition n_pages_of (size : Z) : Z := to_int (PAGE_ALIGN size / PAGE_SIZE).

(** The mathematical page count, [ceil(size / PAGE_SIZE)]. *)
Definition page_count (size : Z) : Z := (size + (PAGE_SIZE - 1)) / PAGE_SIZE.

(** ** Kernel objects *)

(** A [kmalloc] block: its length in bytes and its contents read as
    pointer-sized words.  [None] is a word that was never written
    ([kmalloc] does not clear memory, [kzalloc] does). *)
Record block : Type := Block {
  blk_bytes : Z;
  blk_words : list (option Z)
}.

(** One [struct scatterlist] entry as [sg_set_page] fills it. *)
Record scatterlist : Type := Scatterlist {
  sg_page : Z;
  sg_length : Z;
  sg_offset : Z
}.

(** [struct ion_buffer], the fields this file reads or writes. *)
Record ion_buffer : Type := IonBuffer {
  buf_size : Z;        (* buffer->size *)
  buf_priv_virt : Z;   (* buffer->priv_virt *)
  buf_vaddr : Z;       (* buffer->vaddr *)
  buf_sg_table : Z     (* buffer->sg_table *)
}.

Definition set_priv_virt (p : Z) (b : ion_buffer) : ion_buffer :=
  IonBuffer (buf_size b) p (buf_vaddr b) (buf_sg_table b).

(** [struct vm_area_struct]: the range, flags, page offset, and the pages
    inserted so far (user address to [struct page] pointer). *)
Record vm_area_struct : Type := VmArea {
  vm_start : Z;
  vm_end : Z;
  vm_flags : Z;
  vm_pgoff : Z;
  vm_ptes : gmap Z Z
}.

(** ** Kernel state

    - [oracle]: the choices of the allocators, one per call in call order
      (the address or page an allocator wants to hand out; [0] is a failed
      allocation).  A choice that is not usable (already live) also counts
      as a failure, so an allocator never hands out a live object;
    - [kheap]: the live [kmalloc] blocks by base address;
    - [pages_held]: the [struct page] pointers handed out by [alloc_page]
      and not yet freed;
    - [sg_ents]: the live scatterlist entry tables by address;
    - [kpt]: the kernel page table as [vmalloc_to_page] walks it, from
      virtual page number to [struct page] pointer. *)
Record kstate : Type := KState {
  oracle : list Z;
  kheap : gmap Z block;
  pages_held : gset Z;
  sg_ents : gmap Z (list scatterlist);
  kpt : gmap Z Z
}.

Definition set_oracle (o : list Z) (s : kstate) : kstate :=
  KState o (kheap s) (pages_held s) (sg_ents s) (kpt s).
Definition set_kheap (h : gmap Z block) (s : kstate) : kstate :=
  KState (oracle s) h (pages_held s) (sg_ents s) (kpt s).
Definition set_pages_held (p : gset Z) (s : kstate) : kstate :=
  KState (oracle s) (kheap s) p (sg_ents s) (kpt s).
Definition set_sg_ents (e : gmap Z (list scatterlist)) (s : kstate) : kstate :=
  KState (oracle s) (kheap s) (pages_held s) e (kpt s).
Definition set_kpt (t : gmap Z Z) (s : kstate) : kstate :=
  KState (oracle s) (kheap s) (pages_held s) (sg_ents s) t.

(** ** The monad of kernel code

    A call either returns a value and a new state, or the kernel faults
    ([Oops]): a NULL or out-of-bounds access, a read of a word that was
    never written, or a free of an object that is not live. *)
Inductive outcome (A : Type) : Type :=
  | Done (a : A) (s : kstate)
  | Oops.
Arguments Done {A} a s.
Arguments Oops {A}.

Definition kernel (A : Type) : Type := kstate -> outcome A.

Definition kret {A} (a : A) : kernel A := fun s => Done a s.
Definition kbind {A B} (m : kernel A) (k : A -> kernel B) : kernel B :=
  fun s => match m s with Done a s' => k a s' | Oops => Oops end.

Notation "'let*' x ':=' m 'in' k" := (kbind m (fun x => k))
  (at level 10, x pattern, m at level 100, k at level 200).
Notation "m ';;' k" := (kbind m (fun _ => k))
  (at level 100, k at level 200, right associativity).

(** ** Kernel primitives

    The functions below are the kernel's, not this file's.  They are
    modelled as the environment the heap code runs in: a memory pool that
    a script of choices drives, so that each allocation can succeed or fail
    at will, and that keeps account of what is live.  Every function
    states in its comment what it keeps of the kernel's behaviour. *)

(** The next choice of the allocators ([0] when there is none). *)
Definition next_choice : kernel Z := fun s =>
  match oracle s with
  | [] => Done 0 s
  | a :: o => Done a (set_oracle o s)
  end.

(** [ERR_PTR(error)] is the error number cast to a pointer, and [IS_ERR]
    recognises the top [MAX_ERRNO] addresses (linux/err.h). *)
Definition MAX_ERRNO : Z := 4095.
Definition ERR_PTR (error : Z) : Z := ulong error.
Definition IS_ERR (ptr : Z) : bool := ulong (- MAX_ERRNO) <=? ptr.

(** What an allocator may hand out: an address above [ZERO_SIZE_PTR] and
    below the error pointers. *)
Definition is_pointer (a : Z) : bool :=
  (ZERO_SIZE_PTR <? a) && (a <? ulong (- MAX_ERRNO)).

(** [kmalloc(size, gfp)] and [kzalloc(size, gfp)]: a request of zero bytes
    returns [ZERO_SIZE_PTR]; otherwise the allocator's choice is returned
    and becomes a live block, or the call returns NULL. *)
Definition kmalloc_block (zeroed : bool) (size : Z) : block :=
  Block size (replicate (Z.to_nat (size / sizeof_ptr))
                        (if zeroed then Some 0 else None)).

Definition kmalloc_gen (zeroed : bool) (size : Z) : kernel Z :=
  if size =? 0 then kret ZERO_SIZE_PTR else
  let* a := next_choice in
  fun s =>
    if is_pointer a && bool_decide (kheap s !! a = None)
    then Done a (set_kheap (<[a := kmalloc_block zeroed size]> (kheap s)) s)
    else Done 0 s.

Definition kmalloc (size : Z) : kernel Z := kmalloc_gen false size.
Definition kzalloc (size : Z) : kernel Z := kmalloc_gen true size.

(** [kfree(p)]: nothing for NULL and [ZERO_SIZE_PTR]; releases a live block;
    anything else is a fault. *)
Definition kfree (p : Z) : kernel unit := fun s =>
  if p <=? ZERO_SIZE_PTR then Done tt s
  else match kheap s !! p with
       | Some _ => Done tt (set_kheap (delete p (kheap s)) s)
       | None => Oops
       end.

(** [alloc_page(gfp)]: the allocator's choice becomes a held page, or the
    call returns NULL. *)
Definition alloc_page : kernel Z :=
  let* p := next_choice in
  fun s =>
    if is_pointer p && bool_decide (p ∉ pages_held s)
    then Done p (set_pages_held ({[p]} ∪ pages_held s) s)
    else Done 0 s.

(** [__free_page(page)]: releases a held page; anything else is a fault. *)
Definition __free_page (p : Z) : kernel unit := fun s =>
  if bool_decide (p ∈ pages_held s)
  then Done tt (set_pages_held (pages_held s ∖ {[p]}) s)
  else Oops.

(** [base[i]] read as a pointer: the block must be live at [base], the index
    in range and the word written. *)
Definition load_word (base i : Z) : kernel Z := fun s =>
  if i <? 0 then Oops else
  match kheap s !! base with
  | Some b => match blk_words b !! Z.to_nat i with
              | Some (Some v) => Done v s
              | _ => Oops
              end
  | None => Oops
  end.

(** [base[i] = v]. *)
Definition store_word (base i v : Z) : kernel unit := fun s =>
  if i <? 0 then Oops else
  match kheap s !! base with
  | Some b =>
      if bool_decide (Z.to_nat i < length (blk_words b))%nat
      then Done tt (set_kheap
             (<[base := Block (blk_bytes b)
                              (<[Z.to_nat i := Some v]> (blk_words b))]>
                (kheap s)) s)
      else Oops
  | None => Oops
  end.

(** ** The page-list heap: allocate and free *)

(** The loop of [ion_system_heap_allocate],
    [for (i = 0; i < n_pages; i++)], with [k] iterations left.  The result
    is [None] when the loop runs to its end and [Some i] when it leaves by
    [goto out] at index [i]. *)
Fixpoint allocate_loop (k : nat) (page_list i : Z) : kernel (option Z) :=
  match k with
  | O => kret None
  | S k' =>
      let* p := alloc_page in
      store_word page_list i p ;;
      let* v := load_word page_list i in
      if v =? 0 then kret (Some i)
      else allocate_loop k' page_list (i + 1)
  end.

(** The loop after [out:], [for (; i >= 0; i--) __free_page(page_list[i])],
    entered with [i = k - 1]. *)
Fixpoint allocate_unwind (k : nat) (page_list : Z) : kernel unit :=
  match k with
  | O => kret tt
  | S k' =>
      let* p := load_word page_list (Z.of_nat k') in
      __free_page p ;;
      allocate_unwind k' page_list
  end.

Definition ion_system_heap_allocate (buffer : ion_buffer)
    (size align flags : Z) : kernel (Z * ion_buffer) :=
  let n_pages := n_pages_of size in
  let* page_list := kmalloc (ulong (n_pages * sizeof_ptr)) in
  let* r := allocate_loop (Z.to_nat n_pages) page_list 0 in
  match r with
  | None => kret (0, set_priv_virt page_list buffer)
  | Some i =>
      (* failed on i, so go to i-1 *)
      let i := i - 1 in
      allocate_unwind (Z.to_nat (i + 1)) page_list ;;
      kfree page_list ;;
      kret (- ENOMEM, buffer)
  end.

(** [ion_system_heap_free]: [for (i = 0; i < n_pages; i++)
    __free_page(page_list[i])] with [k] iterations left, then [kfree]. *)
Fixpoint free_loop (k : nat) (page_list i : Z) : kernel unit :=
  match k with
  | O => kret tt
  | S k' =>
      let* p := load_word page_list i in
      __free_page p ;;
      free_loop k' page_list (i + 1)
  end.

Definition ion_system_heap_free (buffer : ion_buffer) : kernel unit :=
  let n_pages := n_pages_of (buf_size buffer) in
  let page_list := buf_priv_virt buffer in
  free_loop (Z.to_nat n_pages) page_list 0 ;;
  kfree page_list.

(** ** Scatterlists *)

(** [sg_kmalloc(nents, gfp)], the allocation of an entry table: the
    allocator's choice becomes a live, cleared table of [nents] entries, or
    the call returns NULL. *)
Definition sg_kmalloc (nents : Z) : kernel Z :=
  let* sg := next_choice in
  fun s =>
    if is_pointer sg && bool_decide (sg_ents s !! sg = None)
    then Done sg
           (set_sg_ents (<[sg := replicate (Z.to_nat nents) (Scatterlist 0 0 0)]>
                           (sg_ents s)) s)
    else Done 0 s.

(** [sg_alloc_table(table, nents, gfp)]: clears [*table]; a table of no
    entries is refused with [-EINVAL]; otherwise the entry table is
    allocated and [table->sgl], [table->nents] and [table->orig_nents] are
    set, or the call returns [-ENOMEM] and leaves nothing allocated. *)
Definition sg_alloc_table (table nents : Z) : kernel Z :=
  store_word table 0 0 ;;
  store_word table 1 0 ;;
  store_word table 2 0 ;;
  if nents =? 0 then kret (- EINVAL) else
  let* sg := sg_kmalloc nents in
  if sg =? 0 then kret (- ENOMEM)
  else
    store_word table 0 sg ;;
    store_word table 1 nents ;;
    store_word table 2 nents ;;
    kret 0.

(** [sg_free_table(table)]: releases the entry table and clears
    [table->sgl]; nothing when [table->sgl] is NULL. *)
Definition sg_free_table (table : Z) : kernel unit :=
  let* sgl := load_word table 0 in
  if sgl =? 0 then kret tt else
  (fun s => match sg_ents s !! sgl with
            | Some _ => Done tt (set_sg_ents (delete sgl (sg_ents s)) s)
            | None => Oops
            end) ;;
  store_word table 0 0.

(** [sg_set_page(sg, page, len, offset)] on entry [i] of the table [sgl]. *)
Definition sg_set_page (sgl i page len offset : Z) : kernel unit := fun s =>
  if i <? 0 then Oops else
  match sg_ents s !! sgl with
  | Some l =>
      if bool_decide (Z.to_nat i < length l)%nat
      then Done tt (set_sg_ents
             (<[sgl := <[Z.to_nat i := Scatterlist page len offset]> l]>
                (sg_ents s)) s)
      else Oops
  | None => Oops
  end.

(** [vmalloc_to_page(vaddr)]: the walk of the kernel page table; NULL when
    the address has no entry. *)
Definition vmalloc_to_page (vaddr : Z) : kernel Z := fun s =>
  Done (default 0 (kpt s !! Z.shiftr vaddr PAGE_SHIFT)) s.

(** ** The page-list heap: device mapping *)

(** The [for_each_sg(table->sgl, sg, table->nents, i)] loop of
    [ion_system_heap_map_dma] with [k] entries left.  The result is [0]
    when the loop runs to its end and [ret] when it leaves by [goto err1]. *)
Fixpoint map_dma_loop (k : nat) (sgl i vaddr : Z) : kernel Z :=
  match k with
  | O => kret 0
  | S k' =>
      let* page := vmalloc_to_page vaddr in
      if page =? 0 then kret (- ENOMEM)
      else
        sg_set_page sgl i page PAGE_SIZE 0 ;;
        map_dma_loop k' sgl (i + 1) (ulong (vaddr + PAGE_SIZE))
  end.

Definition ion_system_heap_map_dma (buffer : ion_buffer) : kernel Z :=
  let npages := n_pages_of (buf_size buffer) in
  let vaddr := buf_priv_virt buffer in
  let* table := kzalloc sizeof_sg_table in
  if table =? 0 then kret (ERR_PTR (- ENOMEM)) else
  let* ret := sg_alloc_table table (ulong npages) in
  if negb (ret =? 0) then
    (* err0 *)
    kfree table ;;
    kret (ERR_PTR ret)
  else
    let* sgl := load_word table 0 in
    let* nents := load_word table 1 in
    let* ret := map_dma_loop (Z.to_nat nents) sgl 0 vaddr in
    if negb (ret =? 0) then
      (* err1 *)
      sg_free_table table ;;
      (* err0 *)
      kfree table ;;
      kret (ERR_PTR ret)
    else kret table.

Definition ion_system_heap_unmap_dma (buffer : ion_buffer) : kernel unit :=
  (if negb (buf_sg_table buffer =? 0)
   then sg_free_table (buf_sg_table buffer)
   else kret tt) ;;
  kfree (buf_sg_table buffer).

(** ** Kernel mappings *)

(** [pages[0 .. k-1]] read from memory, from index [i] on. *)
Fixpoint load_words (k : nat) (pages i : Z) : kernel (list Z) :=
  match k with
  | O => kret []
  | S k' =>
      let* p := load_word pages i in
      let* ps := load_words k' pages (i + 1) in
      kret (p :: ps)
  end.

(** The page-table entries of [ps] from virtual page number [vpn] on. *)
Fixpoint install_pages (ps : list Z) (vpn : Z) (t : gmap Z Z) : gmap Z Z :=
  match ps with
  | [] => t
  | p :: ps' => <[vpn := p]> (install_pages ps' (vpn + 1) t)
  end.

Fixpoint remove_pages (k : nat) (vpn : Z) (t : gmap Z Z) : gmap Z Z :=
  match k with
  | O => t
  | S k' => delete vpn (remove_pages k' (vpn + 1) t)
  end.

Fixpoint range_unmapped (k : nat) (vpn : Z) (t : gmap Z Z) : bool :=
  match k with
  | O => true
  | S k' => bool_decide (t !! vpn = None) && range_unmapped k' (vpn + 1) t
  end.

(** [vm_map_ram(pages, count, node, prot)]: maps the [count] pages whose
    pointers are stored at [pages] at consecutive kernel virtual addresses
    and returns the base address, the allocator's choice; NULL when the
    range is not available or one of the page pointers is NULL. *)
Definition vm_map_ram (pages count : Z) : kernel Z :=
  let* ps := load_words (Z.to_nat count) pages 0 in
  let* a := next_choice in
  fun s =>
    if is_pointer a && (a mod PAGE_SIZE =? 0)
       && range_unmapped (length ps) (Z.shiftr a PAGE_SHIFT) (kpt s)
       && forallb (fun p => negb (p =? 0)) ps
    then Done a (set_kpt (install_pages ps (Z.shiftr a PAGE_SHIFT) (kpt s)) s)
    else Done 0 s.

(** [vm_unmap_ram(mem, count)]. *)
Definition vm_unmap_ram (mem count : Z) : kernel unit := fun s =>
  Done tt (set_kpt (remove_pages (Z.to_nat count) (Z.shiftr mem PAGE_SHIFT)
                                 (kpt s)) s).

Definition ion_system_heap_map_kernel (buffer : ion_buffer) : kernel Z :=
  let n_pages := n_pages_of (buf_size buffer) in
  let page_list := buf_priv_virt buffer in
  vm_map_ram page_list (ulong n_pages).

Definition ion_system_heap_unmap_kernel (buffer : ion_buffer) : kernel unit :=
  let n_pages := n_pages_of (buf_size buffer) in
  vm_unmap_ram (buf_vaddr buffer) (ulong n_pages).

(** ** Process mappings *)

Definition set_vm_flags (f : Z) (vma : vm_area_struct) : vm_area_struct :=
  VmArea (vm_start vma) (vm_end vma) f (vm_pgoff vma) (vm_ptes vma).
Definition set_vm_ptes (t : gmap Z Z) (vma : vm_area_struct) : vm_area_struct :=
  VmArea (vm_start vma) (vm_end vma) (vm_flags vma) (vm_pgoff vma) t.

(** [vm_insert_page(vma, addr, page)]: [-EFAULT] for an address outside the
    area, [-EBUSY] when the page of [addr] is already mapped, otherwise the
    page is entered at the user page of [addr]. *)
Definition vm_insert_page (vma : vm_area_struct) (addr page : Z)
    : Z * vm_area_struct :=
  if (addr <? vm_start vma) || (vm_end vma <=? addr) then (- EFAULT, vma)
  else match vm_ptes vma !! Z.shiftr addr PAGE_SHIFT with
       | Some _ => (- EBUSY, vma)
       | None =>
           (0, set_vm_ptes (<[Z.shiftr addr PAGE_SHIFT := page]> (vm_ptes vma))
                           vma)
       end.

(** The [do { ... } while (usize > 0)] loop of [ion_system_heap_map_user].
    The loop has no bound of its own, so the model takes [fuel]: [None] is
    a run that needs more.  [i] is passed on as it is: the loop never
    changes it.  The result is the value returned from inside the loop
    ([Some ret]) or [None] when the loop ends by its test. *)
Fixpoint map_user_loop (fuel : nat) (vma : vm_area_struct)
    (uaddr usize page_list i : Z)
    : kernel (option (option Z * vm_area_struct)) :=
  match fuel with
  | O => kret None
  | S fuel' =>
      let* page := load_word page_list i in
      let '(ret, vma) := vm_insert_page vma uaddr page in
      if negb (ret =? 0) then kret (Some (Some ret, vma))
      else
        let uaddr := ulong (uaddr + PAGE_SIZE) in
        let usize := ulong (usize - PAGE_SIZE) in
        if usize >? 0
        then map_user_loop fuel' vma uaddr usize page_list i
        else kret (Some (None, vma))
  end.

Definition ion_system_heap_map_user (fuel : nat) (buffer : ion_buffer)
    (vma : vm_area_struct) : kernel (option (Z * vm_area_struct)) :=
  let uaddr := vm_start vma in
  let usize := ulong (vm_end vma - vm_start vma) in
  let n_pages := n_pages_of (buf_size buffer) in
  let page_list := buf_priv_virt buffer in
  if usize >? ulong (Z.shiftl n_pages PAGE_SHIFT)
  then kret (Some (- EINVAL, vma))
  else
    let i := 0 in
    let* r := map_user_loop fuel vma uaddr usize page_list i in
    match r with
    | None => kret None
    | Some (Some ret, vma) => kret (Some (ret, vma))
    | Some (None, vma) =>
        kret (Some (0, set_vm_flags (Z.lor (vm_flags vma) VM_RESERVED) vma))
    end.

(** ** The contiguous heap *)

Definition ion_system_contig_heap_allocate (buffer : ion_buffer)
    (len align flags : Z) : kernel (Z * ion_buffer) :=
  let* p := kzalloc len in
  let buffer := set_priv_virt p buffer in
  if p =? 0 then kret (- ENOMEM, buffer)
  else kret (0, buffer).

Definition ion_system_contig_heap_free (buffer : ion_buffer) : kernel unit :=
  kfree (buf_priv_virt buffer).

Section Platform.

(** The address translations of the platform (asm/memory.h): from a
    lowmem kernel address to its [struct page] and to its physical
    address. *)
Variable virt_to_page : Z -> Z.
Variable virt_to_phys : Z -> Z.

(** [remap_pfn_range(vma, addr, pfn, size, prot)] (mm/memory.c). *)
Variable remap_pfn_range : vm_area_struct -> Z -> Z -> Z -> Z * vm_area_struct.

Definition __phys_to_pfn (paddr : Z) : Z := Z.shiftr paddr PAGE_SHIFT.

Definition ion_system_contig_heap_phys (buffer : ion_buffer)
    : kernel (Z * (Z * Z)) :=
  kret (0, (virt_to_phys (buf_priv_virt buffer), buf_size buffer)).

Definition ion_system_contig_heap_map_dma (buffer : ion_buffer) : kernel Z :=
  let* table := kzalloc sizeof_sg_table in
  if table =? 0 then kret (ERR_PTR (- ENOMEM)) else
  let* ret := sg_alloc_table table 1 in
  if negb (ret =? 0) then
    kfree table ;;
    kret (ERR_PTR ret)
  else
    let* sgl := load_word table 0 in
    sg_set_page sgl 0 (virt_to_page (buf_priv_virt buffer)) (buf_size buffer) 0 ;;
    kret table.

Definition ion_system_contig_heap_map_user (buffer : ion_buffer)
    (vma : vm_area_struct) : Z * vm_area_struct :=
  let pfn := __phys_to_pfn (virt_to_phys (buf_priv_virt buffer)) in
  remap_pfn_range vma (vm_start vma) (ulong (pfn + vm_pgoff vma))
                  (ulong (vm_end vma - vm_start vma)).

(** The operation tables ([map_user] and [phys] apart, whose types differ
    between the heaps).  The contiguous heap takes [unmap_dma],
    [map_kernel] and [unmap_kernel] from the page-list heap. *)
Record ion_heap_ops : Type := IonHeapOps {
  ops_allocate : ion_buffer -> Z -> Z -> Z -> kernel (Z * ion_buffer);
  ops_free : ion_buffer -> kernel unit;
  ops_map_dma : ion_buffer -> kernel Z;
  ops_unmap_dma : ion_buffer -> kernel unit;
  ops_map_kernel : ion_buffer -> kernel Z;
  ops_unmap_kernel : ion_buffer -> kernel unit
}.

Definition vmalloc_ops : ion_heap_ops := {|
  ops_allocate := ion_system_heap_allocate;
  ops_free := ion_system_heap_free;
  ops_map_dma := ion_system_heap_map_dma;
  ops_unmap_dma := ion_system_heap_unmap_dma;
  ops_map_kernel := ion_system_heap_map_kernel;
  ops_unmap_kernel := ion_system_heap_unmap_kernel
|}.

Definition kmalloc_ops : ion_heap_ops := {|
  ops_allocate := ion_system_contig_heap_allocate;
  ops_free := ion_system_contig_heap_free;
  ops_map_dma := ion_system_contig_heap_map_dma;
  ops_unmap_dma := ion_system_heap_unmap_dma;
  ops_map_kernel := ion_system_heap_map_kernel;
  ops_unmap_kernel := ion_system_heap_unmap_kernel
|}.

End Platform.

(** ** Vocabulary of the statements *)

(** A choice that cannot be handed out, or no choice at all. *)
Definition page_refused (P : gset Z) (tail : list Z) : Prop :=
  match tail with
  | [] => True
  | f :: _ => is_pointer f = false \/ f ∈ P
  end.

(** [ps] are pages the allocator hands out next: usable, distinct and not
    held. *)
Definition pages_fresh (P : gset Z) (ps : list Z) : Prop :=
  NoDup ps /\ Forall (fun p => is_pointer p = true /\ p ∉ P) ps.

(** A choice [kmalloc] cannot hand out, or no choice at all. *)
Definition kmalloc_refused (h : gmap Z block) (tail : list Z) : Prop :=
  match tail with
  | [] => True
  | a :: _ => is_pointer a = false \/ is_Some (h !! a)
  end.

(** Two states hold the same resources. *)
Definition same_resources (s s' : kstate) : Prop :=
  kheap s' = kheap s /\ pages_held s' = pages_held s /\
  sg_ents s' = sg_ents s /\ kpt s' = kpt s.

(** A choice [sg_alloc_table] cannot take for its entries, or no choice. *)
Definition sg_refused (e : gmap Z (list scatterlist)) (tail : list Z) : Prop :=
  match tail with
  | [] => True
  | a :: _ => is_pointer a = false \/ is_Some (e !! a)
  end.

(** The state a successful device mapping leaves: the description [r] and
    its entry table are new live objects, nothing else changes. *)
Definition mapped_dma (s : kstate) (r : Z) (s' : kstate) : Prop :=
  exists sgl l o',
    is_pointer r = true /\ kheap s !! r = None /\
    is_pointer sgl = true /\ sg_ents s !! sgl = None /\
    s' = KState o'
           (<[r := Block sizeof_sg_table
                     [Some sgl; Some (Z.of_nat (length l)); Some (Z.of_nat (length l))]]>
              (kheap s))
           (pages_held s) (<[sgl := l]> (sg_ents s)) (kpt s).

(** The allocation of the description structure is refused: the first
    choice is one [kzalloc] cannot hand out. *)
Definition description_refused (s : kstate) : Prop :=
  kmalloc_refused (kheap s) (oracle s).

(** The description structure is obtained and the allocation of its entry
    table is refused. *)
Definition entry_table_refused (s : kstate) : Prop :=
  exists a tail, oracle s = a :: tail /\ is_pointer a = true /\
    kheap s !! a = None /\ sg_refused (sg_ents s) tail.

(** The caller's [buffer->sg_table = table] and [buffer->size = len]. *)
Definition set_sg_table (p : Z) (b : ion_buffer) : ion_buffer :=
  IonBuffer (buf_size b) (buf_priv_virt b) (buf_vaddr b) p.

(** The pages of a page-list buffer: the words of the slot array at
    [buffer->priv_virt]. *)
Definition backing_pages (s : kstate) (b : ion_buffer) : option (list Z) :=
  match kheap s !! buf_priv_virt b with
  | Some blk => mapM id (blk_words blk)
  | None => None
  end.

Definition set_size (n : Z) (b : ion_buffer) : ion_buffer :=
  IonBuffer n (buf_priv_virt b) (buf_vaddr b) (buf_sg_table b).

(** The entries of the scatterlist a description points to. *)
Definition sg_entries (s : kstate) (table : Z) : option (list scatterlist) :=
  match kheap s !! table with
  | Some (Block _ (Some sgl :: _)) => sg_ents s !! sgl
  | _ => None
  end.

(** The length of the destination range as the code computes it. *)
Definition range_length (vma : vm_area_struct) : Z :=
  ulong (vm_end vma - vm_start vma).

(** ** Further vocabulary *)

(** The caller's [buffer->vaddr = vaddr]. *)
Definition set_vaddr (p : Z) (b : ion_buffer) : ion_buffer :=
  IonBuffer (buf_size b) (buf_priv_virt b) p (buf_sg_table b).

(** The page [vmalloc_to_page] finds at the [j]-th step of the walk of
    [ion_system_heap_map_dma] from [vaddr]. *)
Definition dma_page (t : gmap Z Z) (vaddr : Z) (j : nat) : Z :=
  default 0 (t !! Z.shiftr (ulong (vaddr + Z.of_nat j * PAGE_SIZE)) PAGE_SHIFT).

(** The first [n] steps of that walk all find a page. *)
Definition dma_walk_ok (t : gmap Z Z) (vaddr : Z) (n : nat) : bool :=
  forallb (fun j => negb (dma_page t vaddr j =? 0)) (seq 0 n).

(** The entries the walk writes. *)
Definition dma_entries (t : gmap Z Z) (vaddr : Z) (i n : nat)
    : list scatterlist :=
  map (fun j => Scatterlist (dma_page t vaddr j) PAGE_SIZE 0) (seq i n).

(** The user pages [vpn], [vpn + 1], ... entered one after the other, all
    with the same [page]. *)
Fixpoint enter_pages (m : nat) (vpn page : Z) (t : gmap Z Z) : gmap Z Z :=
  match m with
  | O => t
  | S m' => enter_pages m' (vpn + 1) page (<[vpn := page]> t)
  end.

(** ** The heap constructors *)

Section HeapObjects.

(** The layout of [struct ion_heap] (ion_priv.h): its size in bytes and
    the word indices of the fields [type] and [ops]; the addresses of the
    two operation tables; and the two tags of [enum ion_heap_type]
    (linux/ion.h). *)
Variable sizeof_ion_heap : Z.
Variable heap_type_idx heap_ops_idx : Z.
Variable addr_vmalloc_ops addr_kmalloc_ops : Z.
Variable ION_HEAP_TYPE_SYSTEM ION_HEAP_TYPE_SYSTEM_CONTIG : Z.

Definition ion_system_heap_create : kernel Z :=
  let* heap := kzalloc sizeof_ion_heap in
  if heap =? 0 then kret (ERR_PTR (- ENOMEM)) else
  store_word heap heap_ops_idx addr_vmalloc_ops ;;
  store_word heap heap_type_idx ION_HEAP_TYPE_SYSTEM ;;
  kret heap.

Definition ion_system_heap_destroy (heap : Z) : kernel unit :=
  kfree heap.

Definition ion_system_contig_heap_create : kernel Z :=
  let* heap := kzalloc sizeof_ion_heap in
  if heap =? 0 then kret (ERR_PTR (- ENOMEM)) else
  store_word heap heap_ops_idx addr_kmalloc_ops ;;
  store_word heap heap_type_idx ION_HEAP_TYPE_SYSTEM_CONTIG ;;
  kret heap.

Definition ion_system_contig_heap_destroy (heap : Z) : kernel unit :=
  kfree heap.

End HeapObjects.

(** [heap->type] and [heap->ops] of a live heap descriptor. *)
Definition heap_field (s : kstate) (heap idx : Z) : option Z :=
  match kheap s !! heap with
  | Some b => default None (blk_words b !! Z.to_nat idx)
  | None => None
  end.

(** * Properties *)

(** ** Running the monad *)

Lemma kbind_done {A B} (m : kernel A) (k : A -> kernel B) s a s' :
  m s = Done a s' -> kbind m k s = k a s'.
Proof. unfold kbind. intros ->. reflexivity. Qed.

Ltac kstep H := rewrite (kbind_done _ _ _ _ _ H); cbv beta.

(** ** Page arithmetic *)

Lemma PAGE_SIZE_eq : PAGE_SIZE = 4096.
Proof. reflexivity. Qed.

Lemma PAGE_ALIGN_eq (size : Z) :
  PAGE_ALIGN size = (size + 4095) mod 2 ^ 32 / 4096 * 4096.
Proof.
  unfold PAGE_ALIGN, PAGE_MASK, ulong, BITS_PER_LONG.
  rewrite PAGE_SIZE_eq.
  change (4096 - 1) with (Z.ones 12).
  rewrite <- Z.ldiff_land, Z.ldiff_ones_r by lia.
  rewrite Z.shiftr_div_pow2, Z.shiftl_mul_pow2 by lia.
  reflexivity.
Qed.

Lemma n_pages_of_eq (size : Z) :
  n_pages_of size = (size + 4095) mod 2 ^ 32 / 4096.
Proof.
  unfold n_pages_of. rewrite PAGE_ALIGN_eq, PAGE_SIZE_eq.
  rewrite Z.div_mul by lia.
  unfold to_int.
  assert (H := Z.mod_pos_bound (size + 4095) (2 ^ 32) ltac:(lia)).
  assert (0 <= (size + 4095) mod 2 ^ 32 / 4096 < 2 ^ 20).
  { split; [apply Z.div_pos; lia|].
    apply Z.div_lt_upper_bound; lia. }
  rewrite Z.mod_small by lia.
  destruct (Z.ltb_spec ((size + 4095) mod 2 ^ 32 / 4096) (2 ^ 31)); lia.
Qed.

Lemma n_pages_of_bounds (size : Z) : 0 <= n_pages_of size < 2 ^ 20.
Proof.
  rewrite n_pages_of_eq.
  assert (H := Z.mod_pos_bound (size + 4095) (2 ^ 32) ltac:(lia)).
  split; [apply Z.div_pos; lia|].
  apply Z.div_lt_upper_bound; lia.
Qed.

(** A 32-bit quotient by the page size stays below 2^20, whatever is
    divided: no value of [PAGE_ALIGN(size)] gives the page count of a size
    in the last page of the address space. *)
Lemma page_quotient_below_last_page (x : Z) :
  0 <= x < 2 ^ BITS_PER_LONG ->
  to_int (x / PAGE_SIZE) < page_count (2 ^ BITS_PER_LONG - 1).
Proof.
  unfold BITS_PER_LONG, page_count. rewrite PAGE_SIZE_eq. intros Hx.
  change ((2 ^ 32 - 1 + (4096 - 1)) / 4096) with 1048576.
  assert (0 <= x / 4096 < 2 ^ 20).
  { split; [apply Z.div_pos; lia|]. apply Z.div_lt_upper_bound; lia. }
  unfold to_int. rewrite Z.mod_small by lia.
  destruct (Z.ltb_spec (x / 4096) (2 ^ 31)); lia.
Qed.

(** Below the last page of the address space the code's count is the
    mathematical one. *)
Lemma n_pages_of_page_count (size : Z) :
  0 <= size <= 2 ^ 32 - PAGE_SIZE -> n_pages_of size = page_count size.
Proof.
  rewrite PAGE_SIZE_eq. intros H.
  rewrite n_pages_of_eq. unfold page_count. rewrite PAGE_SIZE_eq.
  rewrite Z.mod_small by lia. reflexivity.
Qed.

(** The bound of [ion_system_heap_map_user], [n_pages << PAGE_SHIFT]
    converted to [unsigned long], does not wrap. *)
Lemma n_pages_shift (size : Z) :
  ulong (Z.shiftl (n_pages_of size) PAGE_SHIFT) = n_pages_of size * PAGE_SIZE.
Proof.
  assert (Hb := n_pages_of_bounds size).
  unfold PAGE_SHIFT. rewrite Z.shiftl_mul_pow2, PAGE_SIZE_eq by lia.
  change (2 ^ 12) with 4096. unfold ulong, BITS_PER_LONG.
  apply Z.mod_small. lia.
Qed.

(** ** Steps of the primitives *)

Lemma is_pointer_nonzero (p : Z) : is_pointer p = true -> (p =? 0) = false.
Proof.
  unfold is_pointer, ZERO_SIZE_PTR. intros H.
  apply andb_true_iff in H as [H _]. apply Z.ltb_lt in H.
  apply Z.eqb_neq. lia.
Qed.

Lemma is_pointer_above (p : Z) : is_pointer p = true -> (p <=? ZERO_SIZE_PTR) = false.
Proof.
  unfold is_pointer. intros H.
  apply andb_true_iff in H as [H _]. apply Z.ltb_lt in H.
  apply Z.leb_gt. lia.
Qed.

Lemma alloc_page_ok p o h P e t :
  is_pointer p = true -> p ∉ P ->
  alloc_page (KState (p :: o) h P e t) = Done p (KState o h ({[p]} ∪ P) e t).
Proof.
  intros Hp Hn. unfold alloc_page, kbind, next_choice; simpl.
  rewrite Hp, bool_decide_eq_true_2 by done. reflexivity.
Qed.

Lemma alloc_page_refused tail h P e t :
  page_refused P tail ->
  alloc_page (KState tail h P e t) = Done 0 (KState (tl tail) h P e t).
Proof.
  unfold alloc_page, kbind, next_choice. destruct tail as [|f o]; simpl.
  - reflexivity.
  - intros [Hf | Hf].
    + rewrite Hf. reflexivity.
    + rewrite bool_decide_eq_false_2 by (intros Hn; exact (Hn Hf)).
      rewrite andb_false_r. reflexivity.
Qed.

Lemma store_word_ok a i v o h P e t bytes (w1 w2 : list (option Z)) x :
  i = Z.of_nat (length w1) ->
  store_word a i v (KState o (<[a := Block bytes (w1 ++ x :: w2)]> h) P e t)
  = Done tt (KState o (<[a := Block bytes (w1 ++ Some v :: w2)]> h) P e t).
Proof.
  intros ->. unfold store_word; simpl.
  destruct (Z.ltb_spec (Z.of_nat (length w1)) 0); [lia|].
  rewrite lookup_insert_eq; simpl.
  rewrite Nat2Z.id.
  rewrite bool_decide_eq_true_2 by (rewrite length_app; simpl; lia).
  unfold set_kheap; simpl. rewrite insert_insert_eq.
  rewrite insert_app_r_alt, Nat.sub_diag by lia. reflexivity.
Qed.

Lemma load_word_ok a i v o h P e t bytes (w1 w2 : list (option Z)) :
  i = Z.of_nat (length w1) ->
  load_word a i (KState o (<[a := Block bytes (w1 ++ Some v :: w2)]> h) P e t)
  = Done v (KState o (<[a := Block bytes (w1 ++ Some v :: w2)]> h) P e t).
Proof.
  intros ->. unfold load_word; simpl.
  destruct (Z.ltb_spec (Z.of_nat (length w1)) 0); [lia|].
  rewrite lookup_insert_eq; simpl.
  rewrite Nat2Z.id, list_lookup_middle by reflexivity. reflexivity.
Qed.

Lemma free_page_ok p o h P e t :
  p ∉ P ->
  __free_page p (KState o h ({[p]} ∪ P) e t) = Done tt (KState o h P e t).
Proof.
  intros Hn. unfold __free_page; simpl.
  rewrite bool_decide_eq_true_2 by set_solver.
  unfold set_pages_held; simpl.
  replace (({[p]} ∪ P) ∖ {[p]}) with P by set_solver. reflexivity.
Qed.

(** ** The allocation loop and its unwinding *)

Lemma allocate_loop_run ps2 : forall ps1 m tail h P e t a bytes,
  pages_fresh P ps2 ->
  allocate_loop (length ps2 + m) a (Z.of_nat (length ps1))
    (KState (ps2 ++ tail)
       (<[a := Block bytes (map Some ps1 ++ replicate (length ps2 + m) None)]> h)
       P e t)
  = allocate_loop m a (Z.of_nat (length (ps1 ++ ps2)))
      (KState tail
         (<[a := Block bytes (map Some (ps1 ++ ps2) ++ replicate m None)]> h)
         (list_to_set ps2 ∪ P) e t).
Proof.
  induction ps2 as [|p ps2 IH]; intros ps1 m tail h P e t a bytes [Hnd Hall].
  - cbn [length Nat.add app]. rewrite app_nil_r.
    rewrite list_to_set_nil, (left_id_L ∅ (∪)). reflexivity.
  - apply NoDup_cons in Hnd as [Hp Hnd].
    apply Forall_cons in Hall as [[Hptr HpP] Hall].
    cbn [length Nat.add app allocate_loop replicate].
    unfold kbind at 1. rewrite alloc_page_ok by done.
    unfold kbind at 1. rewrite (store_word_ok _ _ _ _ _ _ _ _ _ (map Some ps1))
      by (rewrite length_map; reflexivity).
    unfold kbind at 1. rewrite load_word_ok by (rewrite length_map; reflexivity).
    rewrite is_pointer_nonzero by done.
    replace (Z.of_nat (length ps1) + 1) with (Z.of_nat (length (ps1 ++ [p])))
      by (rewrite length_app; simpl; lia).
    replace (map Some ps1 ++ Some p :: replicate (length ps2 + m) None)
      with (map Some (ps1 ++ [p]) ++ replicate (length ps2 + m) None)
      by (rewrite map_app, <- app_assoc; reflexivity).
    rewrite IH.
    + rewrite <- app_assoc. cbn [app].
      rewrite list_to_set_cons.
      replace (list_to_set ps2 ∪ ({[p]} ∪ P)) with ({[p]} ∪ list_to_set ps2 ∪ P)
        by set_solver.
      reflexivity.
    + split; [done|].
      apply Forall_forall. intros q Hq.
      rewrite Forall_forall in Hall. destruct (Hall q Hq) as [Hq1 Hq2].
      split; [done|]. set_solver.
Qed.

Lemma allocate_unwind_ok ps : forall (w : list (option Z)) o h P e t a bytes,
  NoDup ps -> (forall p, p ∈ ps -> p ∉ P) ->
  allocate_unwind (length ps) a
    (KState o (<[a := Block bytes (map Some ps ++ w)]> h) (list_to_set ps ∪ P) e t)
  = Done tt (KState o (<[a := Block bytes (map Some ps ++ w)]> h) P e t).
Proof.
  induction ps as [|p ps IH] using rev_ind; intros w o h P e t a bytes Hnd Hdis.
  - cbn [length allocate_unwind map app]. unfold kret.
    rewrite list_to_set_nil, (left_id_L ∅ (∪)). reflexivity.
  - apply NoDup_app in Hnd as (Hnd & Hp & _).
    rewrite length_app, Nat.add_comm. cbn [length Nat.add allocate_unwind].
    rewrite map_app, <- app_assoc. cbn [map app].
    unfold kbind at 1. rewrite load_word_ok by (rewrite length_map; reflexivity).
    replace (list_to_set (ps ++ [p]) ∪ P) with ({[p]} ∪ (list_to_set ps ∪ P))
      by set_solver.
    unfold kbind at 1. rewrite free_page_ok.
    + apply IH; [done|]. intros q Hq. apply Hdis. set_solver.
    + assert (p ∉ P) by (apply Hdis; set_solver).
      assert (p ∉ ps) by (intros Hin; apply (Hp p Hin); set_solver).
      set_solver.
Qed.

Lemma kmalloc_ok zeroed size a o h P e t :
  size <> 0 -> is_pointer a = true -> h !! a = None ->
  kmalloc_gen zeroed size (KState (a :: o) h P e t)
  = Done a (KState o (<[a := kmalloc_block zeroed size]> h) P e t).
Proof.
  intros Hs Ha Hh. unfold kmalloc_gen.
  destruct (Z.eqb_spec size 0); [done|].
  unfold kbind, next_choice; simpl.
  rewrite Ha, bool_decide_eq_true_2 by done. reflexivity.
Qed.

Lemma kfree_ok a b o h P e t :
  is_pointer a = true -> h !! a = None ->
  kfree a (KState o (<[a := b]> h) P e t) = Done tt (KState o h P e t).
Proof.
  intros Ha Hh. unfold kfree; simpl.
  rewrite is_pointer_above, lookup_insert_eq by done.
  unfold set_kheap; simpl. rewrite delete_insert_id by done. reflexivity.
Qed.

(** The slot array [kmalloc(n_pages * sizeof(void * ))] asks for. *)
Lemma slot_array_block (size : Z) :
  0 < n_pages_of size ->
  ulong (n_pages_of size * sizeof_ptr) <> 0 /\
  kmalloc_block false (ulong (n_pages_of size * sizeof_ptr))
  = Block (n_pages_of size * 4) (replicate (Z.to_nat (n_pages_of size)) None).
Proof.
  intros Hn. assert (Hb := n_pages_of_bounds size).
  unfold ulong, BITS_PER_LONG, sizeof_ptr, kmalloc_block.
  rewrite Z.mod_small by lia. split; [lia|].
  unfold sizeof_ptr. rewrite Z.div_mul by lia. reflexivity.
Qed.

(** ** Failure of a page acquisition *)

(** C2: when the slot array was obtained (the allocator's first choice [a]
    is usable), the pages [ps] of the indices [0 .. i-1] were acquired and
    the acquisition at index [i = length ps < n_pages] is refused,
    [ion_system_heap_allocate] returns [-ENOMEM], leaves the buffer as it
    was, and ends in the state it started from, the consumed choices apart:
    the pages [0 .. i-1] and the slot array are released and no page stays
    held. *)
Theorem allocate_page_failure_unwinds
    (s : kstate) (buffer : ion_buffer) (size align flags : Z)
    (a : Z) (ps tail : list Z) :
  oracle s = a :: ps ++ tail ->
  is_pointer a = true -> kheap s !! a = None ->
  pages_fresh (pages_held s) ps ->
  page_refused (list_to_set ps ∪ pages_held s) tail ->
  0 <= Z.of_nat (length ps) < n_pages_of size ->
  ion_system_heap_allocate buffer size align flags s
  = Done (- ENOMEM, buffer) (set_oracle (tl tail) s).
Proof.
  destruct s as [o h P e t]; simpl.
  intros -> Ha Hh Hfresh Href Hi.
  destruct (slot_array_block size) as [Hnz Hblk]; [lia|].
  unfold ion_system_heap_allocate.
  unfold kbind at 1. unfold kmalloc. rewrite kmalloc_ok, Hblk by done.
  set (n := n_pages_of size) in *.
  assert (Hk : exists m, Z.to_nat n = (length ps + S m)%nat).
  { exists (Z.to_nat n - length ps - 1)%nat. lia. }
  destruct Hk as [m ->].
  unfold kbind at 1.
  rewrite (allocate_loop_run ps [] (S m)) by done.
  cbn [app length Nat.add map allocate_loop].
  unfold kbind at 1. rewrite alloc_page_refused by done.
  cbn [replicate].
  unfold kbind at 1.
  rewrite store_word_ok by (rewrite length_map; reflexivity).
  unfold kbind at 1.
  rewrite load_word_ok by (rewrite length_map; reflexivity).
  cbn [Z.eqb kret].
  replace (Z.to_nat (Z.of_nat (length ps) - 1 + 1)) with (length ps) by lia.
  unfold kbind at 1. destruct Hfresh as [Hnd Hall].
  rewrite allocate_unwind_ok.
  - unfold kbind. rewrite kfree_ok by done. reflexivity.
  - done.
  - intros p Hp. rewrite Forall_forall in Hall. apply (Hall p Hp).
Qed.

Lemma allocate_page_failure_unwinds_witness :
  ion_system_heap_allocate (IonBuffer 0 0 0 0) 12288 0 0
    (KState [3221225472; 3238002688; 3238002720; 0] ∅ ∅ ∅ ∅)
  = Done (- ENOMEM, IonBuffer 0 0 0 0) (KState [] ∅ ∅ ∅ ∅).
Proof.
  apply (allocate_page_failure_unwinds
           (KState [3221225472; 3238002688; 3238002720; 0] ∅ ∅ ∅ ∅)
           (IonBuffer 0 0 0 0) 12288 0 0
           3221225472 [3238002688; 3238002720] [0]).
  - reflexivity.
  - reflexivity.
  - reflexivity.
  - split; [compute_done|]. repeat constructor; set_solver.
  - left. reflexivity.
  - vm_compute. split; [discriminate | reflexivity].
Defined.

(** ** Failure of the slot array acquisition *)

Lemma kmalloc_fail zeroed size tail h P e t :
  size <> 0 -> kmalloc_refused h tail ->
  kmalloc_gen zeroed size (KState tail h P e t) = Done 0 (KState (tl tail) h P e t).
Proof.
  intros Hs Href. unfold kmalloc_gen.
  destruct (Z.eqb_spec size 0); [done|].
  unfold kbind, next_choice. destruct tail as [|a o]; simpl.
  - reflexivity.
  - destruct Href as [Ha | Ha].
    + rewrite Ha. reflexivity.
    + rewrite bool_decide_eq_false_2, andb_false_r; [reflexivity|].
      intros Hn. rewrite Hn in Ha. by destruct Ha.
Qed.

Lemma alloc_page_total (s : kstate) :
  exists p s', alloc_page s = Done p s' /\ kheap s' = kheap s.
Proof.
  destruct s as [o h P e t]. unfold alloc_page, kbind, next_choice; simpl.
  destruct o as [|p o]; simpl.
  - eauto.
  - destruct (is_pointer p && bool_decide (p ∉ P)); eauto.
Qed.

Lemma allocate_faults_on_null
    (s : kstate) (buffer : ion_buffer) (size align flags : Z) :
  kmalloc_refused (kheap s) (oracle s) ->
  kheap s !! 0 = None ->
  0 < n_pages_of size ->
  ion_system_heap_allocate buffer size align flags s = Oops.
Proof.
  destruct s as [o h P e t]; simpl. intros Href Hnull Hn.
  destruct (slot_array_block size) as [Hnz _]; [lia|].
  unfold ion_system_heap_allocate.
  unfold kbind at 1. unfold kmalloc. rewrite kmalloc_fail by done.
  destruct (Z.to_nat (n_pages_of size)) as [|k] eqn:Hk; [lia|].
  unfold kbind at 1. cbn [allocate_loop].
  unfold kbind at 1.
  destruct (alloc_page_total (KState (tl o) h P e t)) as (p & s' & -> & Hh).
  unfold kbind at 1. unfold store_word.
  simpl in Hh. rewrite Hh. simpl. rewrite Hnull. reflexivity.
Qed.

(** C5: [ion_system_heap_allocate] does not test the result of [kmalloc].
    When the slot array acquisition fails and at least one page is asked
    for, the first iteration stores the page pointer through the NULL
    [page_list], and the call faults instead of returning [-ENOMEM]. *)
Theorem allocate_slot_array_failure_faults
    (s : kstate) (buffer : ion_buffer) (size align flags : Z) :
  kmalloc_refused (kheap s) (oracle s) ->
  kheap s !! 0 = None ->
  0 < n_pages_of size ->
  ion_system_heap_allocate buffer size align flags s = Oops.
Proof. apply allocate_faults_on_null. Qed.

Lemma allocate_slot_array_failure_faults_witness :
  ion_system_heap_allocate (IonBuffer 0 0 0 0) 4096 0 0
    (KState [0; 3238002688] ∅ ∅ ∅ ∅) = Oops.
Proof.
  apply (allocate_slot_array_failure_faults
           (KState [0; 3238002688] ∅ ∅ ∅ ∅) (IonBuffer 0 0 0 0) 4096 0 0).
  - left. reflexivity.
  - reflexivity.
  - reflexivity.
Defined.

(** ** Process mappings of the page-list heap *)

(** C6: a destination range longer than [page_count * PAGE_SIZE] is refused
    with [-EINVAL] before the loop is entered: the area and the kernel
    state are returned as they were, whatever the fuel. *)
Theorem map_user_range_too_long
    (fuel : nat) (s : kstate) (buffer : ion_buffer) (vma : vm_area_struct) :
  0 <= buf_size buffer < 2 ^ BITS_PER_LONG ->
  page_count (buf_size buffer) * PAGE_SIZE < range_length vma ->
  ion_system_heap_map_user fuel buffer vma s = Done (Some (- EINVAL, vma)) s.
Proof.
  unfold BITS_PER_LONG, range_length. intros Hsz Hlen.
  unfold ion_system_heap_map_user.
  assert (Hb := n_pages_of_bounds (buf_size buffer)).
  assert (Hu : 0 <= ulong (vm_end vma - vm_start vma) < 2 ^ 32)
    by (apply Z.mod_pos_bound; reflexivity).
  assert (Hle : n_pages_of (buf_size buffer) * 4096
                <= ulong (vm_end vma - vm_start vma)).
  { destruct (Z_le_gt_dec (buf_size buffer) (2 ^ 32 - PAGE_SIZE)) as [Hs | Hs].
    - rewrite n_pages_of_page_count by lia.
      rewrite PAGE_SIZE_eq in Hlen. lia.
    - rewrite PAGE_SIZE_eq in *. unfold page_count in Hlen.
      rewrite PAGE_SIZE_eq in Hlen.
      assert (2 ^ 20 <= (buf_size buffer + (4096 - 1)) / 4096)
        by (apply Z.div_le_lower_bound; lia).
      lia. }
  assert (Hne : n_pages_of (buf_size buffer) * 4096
                <> ulong (vm_end vma - vm_start vma)).
  { intros Heq.
    destruct (Z_le_gt_dec (buf_size buffer) (2 ^ 32 - PAGE_SIZE)) as [Hs | Hs].
    - rewrite n_pages_of_page_count in Heq by lia.
      rewrite PAGE_SIZE_eq in Hlen. lia.
    - rewrite PAGE_SIZE_eq in *. unfold page_count in Hlen.
      rewrite PAGE_SIZE_eq in Hlen.
      assert (2 ^ 20 <= (buf_size buffer + (4096 - 1)) / 4096)
        by (apply Z.div_le_lower_bound; lia).
      lia. }
  unfold PAGE_SHIFT. rewrite Z.shiftl_mul_pow2 by lia.
  change (2 ^ 12) with 4096.
  unfold ulong at 2. unfold BITS_PER_LONG. rewrite Z.mod_small by lia.
  destruct (Z.gtb_spec (ulong (vm_end vma - vm_start vma))
              (n_pages_of (buf_size buffer) * 4096)); [reflexivity | lia].
Qed.

Lemma map_user_range_too_long_witness :
  ion_system_heap_map_user 0 (IonBuffer 8192 3221225472 0 0)
    (VmArea 1073741824 1073754112 0 0 ∅) (KState [] ∅ ∅ ∅ ∅)
  = Done (Some (- EINVAL, VmArea 1073741824 1073754112 0 0 ∅))
         (KState [] ∅ ∅ ∅ ∅).
Proof.
  apply (map_user_range_too_long 0 (KState [] ∅ ∅ ∅ ∅)
           (IonBuffer 8192 3221225472 0 0)
           (VmArea 1073741824 1073754112 0 0 ∅)).
  - simpl. unfold BITS_PER_LONG. lia.
  - vm_compute. reflexivity.
Defined.

(** ** Device mappings: the error paths *)

Lemma is_pointer_not_err (a : Z) : is_pointer a = true -> IS_ERR a = false.
Proof.
  unfold is_pointer, IS_ERR. intros H.
  apply andb_true_iff in H as [_ H]. apply Z.ltb_lt in H.
  apply Z.leb_gt. exact H.
Qed.

Lemma map_dma_loop_spec k : forall i vaddr (l : list scatterlist) o h P e t sgl,
  (i + k <= length l)%nat ->
  exists ret l',
    map_dma_loop k sgl (Z.of_nat i) vaddr (KState o h P (<[sgl := l]> e) t)
    = Done ret (KState o h P (<[sgl := l']> e) t)
    /\ length l' = length l /\ (ret = 0 \/ ret = - ENOMEM).
Proof.
  induction k as [|k IH]; intros i vaddr l o h P e t sgl Hlen.
  - exists 0, l. cbn. auto.
  - cbn [map_dma_loop]. unfold kbind at 1, vmalloc_to_page at 1.
    cbn [kpt].
    destruct (default 0 (t !! Z.shiftr vaddr PAGE_SHIFT) =? 0).
    + exists (- ENOMEM), l. cbn. auto.
    + unfold kbind at 1, sg_set_page at 1. cbn [sg_ents].
      destruct (Z.ltb_spec (Z.of_nat i) 0); [lia|].
      rewrite lookup_insert_eq, Nat2Z.id.
      rewrite bool_decide_eq_true_2 by lia.
      unfold set_sg_ents; cbn. rewrite insert_insert_eq.
      replace (Z.of_nat i + 1) with (Z.of_nat (S i)) by lia.
      edestruct (IH (S i)) as (ret & l' & -> & Hl' & Hret).
      { rewrite length_insert. lia. }
      exists ret, l'. rewrite Hl', length_insert. auto.
Qed.

Lemma sg_table_store a o h P e t w0 w1 w2 v0 v1 v2 {A} (k : kernel A) :
  (store_word a 0 v0 ;; store_word a 1 v1 ;; store_word a 2 v2 ;; k)
    (KState o (<[a := Block sizeof_sg_table [w0; w1; w2]]> h) P e t)
  = k (KState o (<[a := Block sizeof_sg_table [Some v0; Some v1; Some v2]]> h)
                P e t).
Proof.
  unfold kbind.
  rewrite (store_word_ok a 0 v0 o h P e t _ [] [w1; w2] w0) by reflexivity.
  cbn [app].
  rewrite (store_word_ok a 1 v1 o h P e t _ [Some v0] [w2] w1) by reflexivity.
  cbn [app].
  rewrite (store_word_ok a 2 v2 o h P e t _ [Some v0; Some v1] [] w2)
    by reflexivity.
  reflexivity.
Qed.

Lemma kbind_next_choice {A} (k : Z -> kernel A) o h P e t :
  kbind next_choice k (KState o h P e t) = k (hd 0 o) (KState (tl o) h P e t).
Proof. unfold kbind, next_choice. destruct o; reflexivity. Qed.

Lemma sg_kmalloc_spec nents o h P e t :
  (sg_kmalloc nents (KState o h P e t) = Done 0 (KState (tl o) h P e t)
   /\ sg_refused e o)
  \/
  (exists sgl o', o = sgl :: o' /\ is_pointer sgl = true /\ e !! sgl = None /\
     sg_kmalloc nents (KState o h P e t)
     = Done sgl (KState o' h P
         (<[sgl := replicate (Z.to_nat nents) (Scatterlist 0 0 0)]> e) t)).
Proof.
  unfold sg_kmalloc. rewrite kbind_next_choice. cbn [sg_ents].
  destruct o as [|sgl o']; cbn [hd tl].
  - left. done.
  - destruct (is_pointer sgl) eqn:Hptr; cbn [andb].
    + case_bool_decide as Hfree.
      * right. exists sgl, o'. done.
      * left. split; [done|]. right. destruct (e !! sgl); [eauto | done].
    + left. split; [done|]. by left.
Qed.

(** What [sg_alloc_table] does on a freshly allocated [struct sg_table]. *)
Lemma sg_alloc_table_spec a nents o h P e t w0 w1 w2 :
  (exists ret, ret <> 0 /\
     sg_alloc_table a nents
       (KState o (<[a := Block sizeof_sg_table [w0; w1; w2]]> h) P e t)
     = Done ret
         (KState (if nents =? 0 then o else tl o)
            (<[a := Block sizeof_sg_table [Some 0; Some 0; Some 0]]> h) P e t)
     /\ (nents = 0 /\ ret = - EINVAL \/
         nents <> 0 /\ ret = - ENOMEM /\ sg_refused e o))
  \/
  (exists sgl o', o = sgl :: o' /\ is_pointer sgl = true /\ e !! sgl = None /\
     nents <> 0 /\
     sg_alloc_table a nents
       (KState o (<[a := Block sizeof_sg_table [w0; w1; w2]]> h) P e t)
     = Done 0
         (KState o'
            (<[a := Block sizeof_sg_table [Some sgl; Some nents; Some nents]]> h)
            P (<[sgl := replicate (Z.to_nat nents) (Scatterlist 0 0 0)]> e) t)).
Proof.
  unfold sg_alloc_table. rewrite sg_table_store.
  destruct (Z.eqb_spec nents 0) as [-> | Hne].
  - left. exists (- EINVAL). split; [discriminate|]. split; [reflexivity|].
    left. done.
  - destruct (sg_kmalloc_spec nents o
                (<[a := Block sizeof_sg_table [Some 0; Some 0; Some 0]]> h) P e t)
      as [[Hrun Href] | (sgl & o' & -> & Hptr & Hfree & Hrun)];
      rewrite (kbind_done _ _ _ _ _ Hrun).
    + left. exists (- ENOMEM). split; [discriminate|]. split; [reflexivity|].
      right. done.
    + right. exists sgl, o'. repeat split; auto.
      rewrite is_pointer_nonzero by done.
      rewrite sg_table_store. reflexivity.
Qed.

Lemma kzalloc_spec size o h P e t :
  size <> 0 ->
  (kzalloc size (KState o h P e t) = Done 0 (KState (tl o) h P e t)
   /\ kmalloc_refused h o)
  \/
  (exists a o', o = a :: o' /\ is_pointer a = true /\ h !! a = None /\
     kzalloc size (KState o h P e t)
     = Done a (KState o' (<[a := kmalloc_block true size]> h) P e t)).
Proof.
  intros Hs. destruct o as [|a o'].
  - left. split; [|done]. unfold kzalloc. by rewrite kmalloc_fail.
  - destruct (is_pointer a) eqn:Hptr.
    + destruct (h !! a) eqn:Hh.
      * left. assert (kmalloc_refused h (a :: o')) by (right; eauto).
        split; [|done]. unfold kzalloc. by rewrite kmalloc_fail.
      * right. exists a, o'. repeat split; auto.
        unfold kzalloc. by rewrite kmalloc_ok.
    + left. assert (kmalloc_refused h (a :: o')) by (by left).
      split; [|done]. unfold kzalloc. by rewrite kmalloc_fail.
Qed.

Lemma sg_free_table_ok a sgl l o h P e t w1 w2 :
  is_pointer sgl = true -> e !! sgl = None ->
  sg_free_table a
    (KState o (<[a := Block sizeof_sg_table [Some sgl; w1; w2]]> h) P
            (<[sgl := l]> e) t)
  = Done tt (KState o (<[a := Block sizeof_sg_table [Some 0; w1; w2]]> h) P e t).
Proof.
  intros Hptr He. unfold sg_free_table.
  kstep (load_word_ok a 0 sgl o h P (<[sgl := l]> e) t sizeof_sg_table
           [] [w1; w2] eq_refl).
  rewrite is_pointer_nonzero by done.
  erewrite kbind_done.
  - apply (store_word_ok a 0 0 o h P e t _ [] [w1; w2]). reflexivity.
  - cbn [sg_ents]. rewrite lookup_insert_eq.
    unfold set_sg_ents; cbn [oracle kheap pages_held sg_ents kpt app].
    rewrite delete_insert_id by done. reflexivity.
Qed.

(** The error paths of [ion_system_heap_map_dma]. *)
Lemma map_dma_spec (buffer : ion_buffer) (s : kstate) :
  exists r s',
    ion_system_heap_map_dma buffer s = Done r s' /\
    (IS_ERR r = true -> same_resources s s') /\
    (kmalloc_refused (kheap s) (oracle s) -> r = ERR_PTR (- ENOMEM)) /\
    (forall a tail, oracle s = a :: tail -> is_pointer a = true ->
       kheap s !! a = None -> sg_refused (sg_ents s) tail -> IS_ERR r = true) /\
    (IS_ERR r = false -> mapped_dma s r s').
Proof.
  destruct s as [o h P e t]. cbn [kheap oracle sg_ents].
  unfold ion_system_heap_map_dma.
  assert (Hb := n_pages_of_bounds (buf_size buffer)).
  set (n := n_pages_of (buf_size buffer)) in *.
  assert (Hn : ulong n = n) by (apply Z.mod_small; unfold BITS_PER_LONG; lia).
  rewrite Hn.
  destruct (kzalloc_spec sizeof_sg_table o h P e t) as
    [[Hrun Href] | (a & o' & -> & Hptr & Hh & Hrun)]; [done| |]; kstep Hrun.
  - cbn [Z.eqb]. eexists _, _. split; [reflexivity|].
    split; [intros _; by repeat split|]. split; [done|]. split; [|done].
    intros a tail -> Ha Hh _. destruct Href as [Href | Href]; [congruence|].
    rewrite Hh in Href. by destruct Href.
  - rewrite is_pointer_nonzero by done. unfold kmalloc_block.
    change (replicate _ _) with [Some 0; Some 0; Some 0].
    assert (Hnot : kmalloc_refused h (a :: o') -> False).
    { intros [Href | Href]; [congruence|]. rewrite Hh in Href. by destruct Href. }
    destruct (sg_alloc_table_spec a n o' h P e t (Some 0) (Some 0) (Some 0)) as
      [(ret & Hret & Hrun' & Hwhy) | (sgl & o'' & -> & Hsgl & He & Hne & Hrun')];
      kstep Hrun'.
    + apply Z.eqb_neq in Hret. rewrite Hret. cbn [negb].
      erewrite kbind_done by (by apply kfree_ok). unfold kret.
      assert (Herr : IS_ERR (ERR_PTR ret) = true)
        by (destruct Hwhy as [[_ ->] | (_ & -> & _)]; reflexivity).
      eexists _, _. split; [reflexivity|].
      split; [intros _; by repeat split|]. split; [by intros ?%Hnot|].
      split; [done | congruence].
    + cbn [Z.eqb negb].
      kstep (load_word_ok a 0 sgl o'' h P
               (<[sgl := replicate (Z.to_nat n) (Scatterlist 0 0 0)]> e) t
               sizeof_sg_table [] [Some n; Some n] eq_refl).
      kstep (load_word_ok a 1 n o'' h P
               (<[sgl := replicate (Z.to_nat n) (Scatterlist 0 0 0)]> e) t
               sizeof_sg_table [Some sgl] [Some n] eq_refl).
      cbn [app].
      destruct (map_dma_loop_spec (Z.to_nat n) 0 (buf_priv_virt buffer)
                  (replicate (Z.to_nat n) (Scatterlist 0 0 0))
                  o'' (<[a := Block sizeof_sg_table [Some sgl; Some n; Some n]]> h)
                  P e t sgl)
        as (ret & l' & Hloop & Hlen & Hret).
      { rewrite length_replicate. lia. }
      change (Z.of_nat 0) with 0 in Hloop. kstep Hloop.
      destruct Hret as [-> | ->].
      * cbn [Z.eqb negb]. unfold kret. eexists _, _. split; [reflexivity|].
        split; [rewrite is_pointer_not_err by done; discriminate|].
        split; [by intros ?%Hnot|]. split.
        -- intros a' tail [= <- <-] _ _ [Href | Href]; [congruence|].
           rewrite He in Href. by destruct Href.
        -- intros _. exists sgl, l', o''. cbn [kheap sg_ents pages_held kpt].
           rewrite Hlen, length_replicate, Z2Nat.id by lia.
           repeat split; auto.
      * change (negb (- ENOMEM =? 0)) with true. cbv iota.
        erewrite kbind_done by (by apply sg_free_table_ok).
        erewrite kbind_done by (by apply kfree_ok). unfold kret.
        eexists _, _. split; [reflexivity|].
        split; [intros _; by repeat split|]. split; [by intros ?%Hnot|].
        split; [done | discriminate].
Qed.

Section PlatformProofs.
Variable virt_to_page : Z -> Z.

Lemma contig_map_dma_spec (buffer : ion_buffer) (s : kstate) :
  exists r s',
    ion_system_contig_heap_map_dma virt_to_page buffer s = Done r s' /\
    (IS_ERR r = true -> same_resources s s') /\
    (kmalloc_refused (kheap s) (oracle s) -> r = ERR_PTR (- ENOMEM)) /\
    (forall a tail, oracle s = a :: tail -> is_pointer a = true ->
       kheap s !! a = None -> sg_refused (sg_ents s) tail -> IS_ERR r = true).
Proof.
  destruct s as [o h P e t]. cbn [kheap oracle sg_ents].
  unfold ion_system_contig_heap_map_dma.
  destruct (kzalloc_spec sizeof_sg_table o h P e t) as
    [[Hrun Href] | (a & o' & -> & Hptr & Hh & Hrun)]; [done| |]; kstep Hrun.
  - cbn [Z.eqb]. eexists _, _. split; [reflexivity|].
    split; [intros _; by repeat split|]. split; [done|].
    intros a tail -> Ha Hh _. destruct Href as [Href | Href]; [congruence|].
    rewrite Hh in Href. by destruct Href.
  - rewrite is_pointer_nonzero by done. unfold kmalloc_block.
    change (replicate _ _) with [Some 0; Some 0; Some 0].
    assert (Hnot : kmalloc_refused h (a :: o') -> False).
    { intros [Href | Href]; [congruence|]. rewrite Hh in Href. by destruct Href. }
    destruct (sg_alloc_table_spec a 1 o' h P e t (Some 0) (Some 0) (Some 0)) as
      [(ret & Hret & Hrun' & Hwhy) | (sgl & o'' & -> & Hsgl & He & Hne & Hrun')];
      kstep Hrun'.
    + apply Z.eqb_neq in Hret. rewrite Hret. cbn [negb].
      erewrite kbind_done by (by apply kfree_ok). unfold kret.
      assert (Herr : IS_ERR (ERR_PTR ret) = true)
        by (destruct Hwhy as [[_ ->] | (_ & -> & _)]; reflexivity).
      eexists _, _. split; [reflexivity|].
      split; [intros _; by repeat split|]. split; [by intros ?%Hnot | done].
    + cbn [Z.eqb negb].
      kstep (load_word_ok a 0 sgl o'' h P
               (<[sgl := replicate (Z.to_nat 1) (Scatterlist 0 0 0)]> e) t
               sizeof_sg_table [] [Some 1; Some 1] eq_refl).
      unfold kbind, sg_set_page; cbn. rewrite lookup_insert_eq; cbn.
      unfold kret. eexists _, _. split; [reflexivity|].
      split; [rewrite is_pointer_not_err by done; discriminate|].
      split; [by intros ?%Hnot|].
      intros a' tail [= <- <-] _ _ [Href | Href]; [congruence|].
      rewrite He in Href. by destruct Href.
Qed.
End PlatformProofs.

(** C7: for both heaps, [map_dma] always returns; when the allocation of
    the description structure or of its entry table is refused it returns
    an error pointer; and whenever it returns an error pointer the state
    holds the resources it held before the call: the entry table (if it
    was obtained) and the description structure were released. *)
Theorem map_dma_failure_unwinds (virt_to_page : Z -> Z) (ops : ion_heap_ops)
    (buffer : ion_buffer) (s : kstate) :
  ops = vmalloc_ops \/ ops = kmalloc_ops virt_to_page ->
  exists r s',
    ops_map_dma ops buffer s = Done r s' /\
    (description_refused s \/ entry_table_refused s -> IS_ERR r = true) /\
    (IS_ERR r = true -> same_resources s s').
Proof.
  intros [-> | ->]; cbn [ops_map_dma vmalloc_ops kmalloc_ops].
  - destruct (map_dma_spec buffer s) as (r & s' & Hrun & Hsame & Hd & He & _).
    exists r, s'. split; [done|]. split; [|done].
    intros [H | (a & tail & Ho & Ha & Hh & Hr)].
    + rewrite (Hd H). reflexivity.
    + eauto.
  - destruct (contig_map_dma_spec virt_to_page buffer s)
      as (r & s' & Hrun & Hsame & Hd & He).
    exists r, s'. split; [done|]. split; [|done].
    intros [H | (a & tail & Ho & Ha & Hh & Hr)].
    + rewrite (Hd H). reflexivity.
    + eauto.
Qed.

Lemma map_dma_failure_unwinds_witness :
  exists r s',
    ops_map_dma vmalloc_ops (IonBuffer 8192 3221225472 0 0)
      (KState [3222274048; 0] ∅ ∅ ∅ ∅) = Done r s' /\
    (description_refused (KState [3222274048; 0] ∅ ∅ ∅ ∅) \/
     entry_table_refused (KState [3222274048; 0] ∅ ∅ ∅ ∅) -> IS_ERR r = true) /\
    (IS_ERR r = true -> same_resources (KState [3222274048; 0] ∅ ∅ ∅ ∅) s').
Proof.
  apply (map_dma_failure_unwinds (fun a => a) vmalloc_ops).
  left. reflexivity.
Defined.

(** C9 (as amended): after a successful [map_dma], [unmap_dma] on the
    buffer that records the returned description releases the entry table
    and then the description structure, leaving the resources held before
    the mapping.  A NULL [buffer->sg_table] is guarded: the call is then a
    no-op.  A stale pointer is not: a second [unmap_dma] faults. *)
Theorem unmap_dma_releases_and_guards_null
    (buffer : ion_buffer) (s : kstate) :
  (buf_sg_table buffer = 0 ->
   ion_system_heap_unmap_dma buffer s = Done tt s) /\
  (forall r s1,
     ion_system_heap_map_dma buffer s = Done r s1 -> IS_ERR r = false ->
     exists s2,
       ion_system_heap_unmap_dma (set_sg_table r buffer) s1 = Done tt s2 /\
       same_resources s s2 /\
       ion_system_heap_unmap_dma (set_sg_table r buffer) s2 = Oops).
Proof.
  split; [intros H; unfold ion_system_heap_unmap_dma; rewrite H; reflexivity|].
  - intros r s1 Hrun Herr.
    destruct (map_dma_spec buffer s) as (r' & s1' & Hrun' & _ & _ & _ & Hok).
    rewrite Hrun in Hrun'. injection Hrun' as <- <-.
    destruct (Hok Herr) as (sgl & l & o' & Hr & Hh & Hsgl & He & ->).
    destruct s as [o h P e t]. cbn [kheap sg_ents pages_held kpt] in *.
    unfold ion_system_heap_unmap_dma. cbn [set_sg_table buf_sg_table].
    rewrite is_pointer_nonzero by done. cbn [negb].
    erewrite kbind_done by (by apply sg_free_table_ok).
    rewrite kfree_ok by done.
    eexists. split; [reflexivity|]. split; [by repeat split|].
    unfold kbind, sg_free_table, kbind, load_word; cbn.
    rewrite Hh. reflexivity.
Qed.

Lemma unmap_dma_releases_and_guards_null_witness :
  ion_system_heap_unmap_dma (IonBuffer 4096 3221225472 0 0)
    (KState [3222274048; 3223322624] ∅ ∅ ∅ {[786432 := 3238002688]})
  = Done tt (KState [3222274048; 3223322624] ∅ ∅ ∅ {[786432 := 3238002688]})
  /\
  exists s2,
    ion_system_heap_unmap_dma
      (set_sg_table 3222274048 (IonBuffer 4096 3221225472 0 0))
      (KState [] {[3222274048 := Block 12 [Some 3223322624; Some 1; Some 1]]} ∅
              {[3223322624 := [Scatterlist 3238002688 4096 0]]}
              {[786432 := 3238002688]})
    = Done tt s2 /\
    same_resources
      (KState [3222274048; 3223322624] ∅ ∅ ∅ {[786432 := 3238002688]}) s2 /\
    ion_system_heap_unmap_dma
      (set_sg_table 3222274048 (IonBuffer 4096 3221225472 0 0)) s2 = Oops.
Proof.
  destruct (unmap_dma_releases_and_guards_null
              (IonBuffer 4096 3221225472 0 0)
              (KState [3222274048; 3223322624] ∅ ∅ ∅ {[786432 := 3238002688]}))
    as [Hnull Hlive].
  split.
  - apply Hnull. reflexivity.
  - apply Hlive.
    + vm_compute. reflexivity.
    + reflexivity.
Defined.

(** C9, the claim as stated fails: a buffer that never had a device view
    (a NULL [buffer->sg_table]) is detected by the guard of [unmap_dma],
    and the call returns without touching the state. *)
Lemma unmap_dma_null_is_noop :
  ion_system_heap_unmap_dma (IonBuffer 4096 3221225472 0 0)
    (KState [] {[3221225472 := Block 4 [Some 3238002688]]}
            {[3238002688]} ∅ ∅)
  = Done tt (KState [] {[3221225472 := Block 4 [Some 3238002688]]}
                    {[3238002688]} ∅ ∅).
Proof. reflexivity. Qed.

Lemma mapM_id_Some (ps : list Z) : mapM id (map Some ps) = Some ps.
Proof.
  induction ps as [|p ps IH]; [reflexivity|].
  cbn. rewrite IH. reflexivity.
Qed.

Lemma allocate_loop_success k : forall ps1 o h P e t a bytes s',
  allocate_loop k a (Z.of_nat (length ps1))
    (KState o (<[a := Block bytes (map Some ps1 ++ replicate k None)]> h) P e t)
  = Done None s' ->
  exists ps2 tail,
    o = ps2 ++ tail /\ length ps2 = k /\ pages_fresh P ps2 /\
    s' = KState tail (<[a := Block bytes (map Some (ps1 ++ ps2))]> h)
                (list_to_set ps2 ∪ P) e t.
Proof.
  induction k as [|k IH]; intros ps1 o h P e t a bytes s' Hrun.
  - cbn in Hrun. injection Hrun as <-. exists [], o.
    rewrite !app_nil_r, list_to_set_nil, (left_id_L ∅ (∪)).
    repeat split; auto using NoDup_nil_2.
  - cbn [allocate_loop replicate] in Hrun.
    assert (Hcase : page_refused P o \/
              exists p o', o = p :: o' /\ is_pointer p = true /\ p ∉ P).
    { destruct o as [|p o']; [left; exact I|].
      destruct (is_pointer p) eqn:Hp; [|left; left; done].
      destruct (decide (p ∈ P)); [left; right; done|].
      right. eauto. }
    destruct Hcase as [Href | (p & o' & -> & Hp & HpP)].
    + rewrite (kbind_done _ _ _ _ _ (alloc_page_refused _ _ _ _ _ Href)) in Hrun.
      erewrite kbind_done in Hrun
        by (apply store_word_ok; rewrite length_map; reflexivity).
      erewrite kbind_done in Hrun
        by (apply load_word_ok; rewrite length_map; reflexivity).
      discriminate.
    + rewrite (kbind_done _ _ _ _ _ (alloc_page_ok _ _ _ _ _ _ Hp HpP)) in Hrun.
      erewrite kbind_done in Hrun
        by (apply store_word_ok; rewrite length_map; reflexivity).
      erewrite kbind_done in Hrun
        by (apply load_word_ok; rewrite length_map; reflexivity).
      rewrite is_pointer_nonzero in Hrun by done.
      replace (Z.of_nat (length ps1) + 1) with (Z.of_nat (length (ps1 ++ [p])))
        in Hrun by (rewrite length_app; simpl; lia).
      replace (map Some ps1 ++ Some p :: replicate k None)
        with (map Some (ps1 ++ [p]) ++ replicate k None) in Hrun
        by (rewrite map_app, <- app_assoc; reflexivity).
      apply IH in Hrun as (ps2 & tail & -> & Hlen & [Hnd Hall] & ->).
      exists (p :: ps2), tail. rewrite <- app_assoc. cbn [app length].
      rewrite Forall_forall in Hall.
      split; [done|]. split; [lia|]. split.
      * split.
        -- apply NoDup_cons. split; [|done].
           intros Hin. destruct (Hall p Hin) as [_ Hn]. set_solver.
        -- apply Forall_cons. split; [done|].
           apply Forall_forall. intros q Hq.
           destruct (Hall q Hq) as [Hq1 Hq2]. split; [done | set_solver].
      * rewrite list_to_set_cons.
        replace (list_to_set ps2 ∪ ({[p]} ∪ P))
          with ({[p]} ∪ list_to_set ps2 ∪ P) by set_solver.
        reflexivity.
Qed.

Lemma free_loop_ok ps2 : forall ps1 o h P e t a bytes,
  NoDup ps2 -> (forall p, p ∈ ps2 -> p ∉ P) ->
  free_loop (length ps2) a (Z.of_nat (length ps1))
    (KState o (<[a := Block bytes (map Some (ps1 ++ ps2))]> h)
            (list_to_set ps2 ∪ P) e t)
  = Done tt (KState o (<[a := Block bytes (map Some (ps1 ++ ps2))]> h) P e t).
Proof.
  induction ps2 as [|p ps2 IH]; intros ps1 o h P e t a bytes Hnd Hdis.
  - cbn [length free_loop]. unfold kret.
    rewrite list_to_set_nil, (left_id_L ∅ (∪)). reflexivity.
  - apply NoDup_cons in Hnd as [Hp Hnd].
    cbn [length free_loop]. rewrite map_app. cbn [map].
    erewrite kbind_done
      by (apply load_word_ok; rewrite length_map; reflexivity).
    rewrite list_to_set_cons.
    replace ({[p]} ∪ list_to_set ps2 ∪ P) with ({[p]} ∪ (list_to_set ps2 ∪ P))
      by set_solver.
    erewrite kbind_done.
    2:{ apply free_page_ok. assert (p ∉ P) by (apply Hdis; set_solver).
        set_solver. }
    replace (Z.of_nat (length ps1) + 1) with (Z.of_nat (length (ps1 ++ [p])))
      by (rewrite length_app; simpl; lia).
    replace (map Some ps1 ++ Some p :: map Some ps2)
      with (map Some ((ps1 ++ [p]) ++ ps2))
      by (rewrite <- app_assoc, map_app; reflexivity).
    apply IH; [done|]. intros q Hq. apply Hdis. set_solver.
Qed.

Lemma kmalloc_gen_spec zeroed size o h P e t :
  size <> 0 ->
  (kmalloc_gen zeroed size (KState o h P e t) = Done 0 (KState (tl o) h P e t)
   /\ kmalloc_refused h o)
  \/
  (exists a o', o = a :: o' /\ is_pointer a = true /\ h !! a = None /\
     kmalloc_gen zeroed size (KState o h P e t)
     = Done a (KState o' (<[a := kmalloc_block zeroed size]> h) P e t)).
Proof.
  intros Hs. destruct o as [|a o'].
  - left. split; [|done]. by rewrite kmalloc_fail.
  - destruct (is_pointer a) eqn:Hptr.
    + destruct (h !! a) eqn:Hh.
      * left. assert (kmalloc_refused h (a :: o')) by (right; eauto).
        split; [|done]. by rewrite kmalloc_fail.
      * right. exists a, o'. repeat split; auto. by rewrite kmalloc_ok.
    + left. assert (kmalloc_refused h (a :: o')) by (by left).
      split; [|done]. by rewrite kmalloc_fail.
Qed.

(** A successful [ion_system_heap_allocate]: the slot array is a new block
    that holds exactly [n_pages] new pages. *)
Lemma allocate_success (s : kstate) (buffer : ion_buffer)
    (size align flags : Z) (b' : ion_buffer) (s' : kstate) :
  0 < n_pages_of size -> kheap s !! 0 = None ->
  ion_system_heap_allocate buffer size align flags s = Done (0, b') s' ->
  exists a ps tail,
    oracle s = a :: ps ++ tail /\ is_pointer a = true /\ kheap s !! a = None /\
    Z.of_nat (length ps) = n_pages_of size /\ pages_fresh (pages_held s) ps /\
    b' = set_priv_virt a buffer /\
    s' = KState tail
           (<[a := Block (n_pages_of size * 4) (map Some ps)]> (kheap s))
           (list_to_set ps ∪ pages_held s) (sg_ents s) (kpt s).
Proof.
  intros Hn Hnull Hrun.
  destruct s as [o h P e t]. cbn [kheap oracle pages_held sg_ents kpt] in *.
  destruct (slot_array_block size) as [Hnz Hblk]; [lia|].
  destruct (kmalloc_gen_spec false (ulong (n_pages_of size * sizeof_ptr))
              o h P e t Hnz) as [[_ Href] | (a & o' & -> & Ha & Hh & Hk)].
  { rewrite (allocate_faults_on_null (KState o h P e t)) in Hrun by done.
    discriminate. }
  unfold ion_system_heap_allocate, kmalloc in Hrun.
  rewrite (kbind_done _ _ _ _ _ Hk), Hblk in Hrun.
  unfold kbind at 1 in Hrun.
  destruct (allocate_loop _ a 0 _) as [[i|] s1|] eqn:Hloop.
  - unfold kbind, kret in Hrun.
    destruct (allocate_unwind _ _ _) as [[] s2|]; [|discriminate].
    destruct (kfree a s2) as [[] s3|]; discriminate.
  - injection Hrun as <- <-.
    apply (allocate_loop_success _ []) in Hloop
      as (ps & tail & -> & Hlen & Hfresh & ->).
    exists a, ps, tail. cbn [app]. repeat split; auto; try apply Hfresh. lia.
  - discriminate.
Qed.

Lemma contig_allocate_success (s : kstate) (buffer : ion_buffer)
    (len align flags : Z) (b' : ion_buffer) (s' : kstate) :
  len <> 0 ->
  ion_system_contig_heap_allocate buffer len align flags s = Done (0, b') s' ->
  exists a o',
    oracle s = a :: o' /\ is_pointer a = true /\ kheap s !! a = None /\
    b' = set_priv_virt a buffer /\
    s' = KState o' (<[a := kmalloc_block true len]> (kheap s))
           (pages_held s) (sg_ents s) (kpt s).
Proof.
  intros Hlen Hrun. destruct s as [o h P e t].
  cbn [kheap oracle pages_held sg_ents kpt].
  unfold ion_system_contig_heap_allocate, kzalloc in Hrun.
  destruct (kmalloc_gen_spec true len o h P e t Hlen)
    as [[Hk _] | (a & o' & -> & Ha & Hh & Hk)];
    rewrite (kbind_done _ _ _ _ _ Hk) in Hrun.
  - discriminate.
  - rewrite is_pointer_nonzero in Hrun by done.
    injection Hrun as <- <-. exists a, o'. done.
Qed.

(** The sizes on which the page count is the ceiling: for a size of at
    least one byte and at most [2^32 - PAGE_SIZE], a successful page-list
    [allocate] leaves a backing list of exactly [ceil(size / PAGE_SIZE)]
    pages, all new; [free] on that buffer releases exactly these pages and
    the list, and the kernel mapping and unmapping ask for the same count.
    For every size of at least one byte a successful contiguous [allocate]
    leaves a new block of exactly [size] bytes. *)
Theorem allocate_backing_size
    (s : kstate) (buffer : ion_buffer) (size align flags : Z) :
  kheap s !! 0 = None ->
  (0 < size <= 2 ^ 32 - PAGE_SIZE ->
   forall b' s',
     ion_system_heap_allocate buffer size align flags s = Done (0, b') s' ->
     exists ps,
       backing_pages s' b' = Some ps /\
       Z.of_nat (length ps) = page_count size /\
       pages_fresh (pages_held s) ps /\
       pages_held s' = list_to_set ps ∪ pages_held s /\
       (exists s'', ion_system_heap_free (set_size size b') s' = Done tt s'' /\
                    same_resources s s'') /\
       ion_system_heap_map_kernel (set_size size b')
       = vm_map_ram (buf_priv_virt b') (page_count size) /\
       ion_system_heap_unmap_kernel (set_size size b')
       = vm_unmap_ram (buf_vaddr b') (page_count size))
  /\
  (0 < size ->
   forall b' s',
     ion_system_contig_heap_allocate buffer size align flags s
     = Done (0, b') s' ->
     exists blk,
       kheap s !! buf_priv_virt b' = None /\
       kheap s' !! buf_priv_virt b' = Some blk /\ blk_bytes blk = size).
Proof.
  intros Hnull. split.
  - intros Hsize b' s' Hrun.
    assert (Hn : n_pages_of size = page_count size)
      by (apply n_pages_of_page_count; lia).
    assert (Hpos : 0 < n_pages_of size).
    { rewrite Hn. unfold page_count. rewrite PAGE_SIZE_eq in *.
      apply Z.div_str_pos. lia. }
    assert (Hb := n_pages_of_bounds size).
    apply allocate_success in Hrun
      as (a & ps & tail & Ho & Ha & Hh & Hlen & Hfresh & -> & ->); try done.
    destruct s as [o h P e t]. cbn [kheap oracle pages_held sg_ents kpt] in *.
    exists ps. split.
    { unfold backing_pages. cbn [buf_priv_virt set_priv_virt kheap].
      rewrite lookup_insert_eq. apply mapM_id_Some. }
    split; [lia|]. split; [done|]. split; [done|]. split; [|split].
    + unfold ion_system_heap_free.
      cbn [buf_size set_size buf_priv_virt set_priv_virt].
      rewrite <- Hlen, Nat2Z.id. destruct Hfresh as [Hnd Hall].
      erewrite kbind_done.
      2:{ apply (free_loop_ok ps []); [done|].
          intros p Hp. rewrite Forall_forall in Hall. apply (Hall p Hp). }
      rewrite kfree_ok by done.
      eexists. split; [reflexivity|]. by repeat split.
    + unfold ion_system_heap_map_kernel.
      cbn [buf_size set_size buf_priv_virt set_priv_virt].
      rewrite <- Hn. unfold ulong, BITS_PER_LONG.
      rewrite Z.mod_small by lia. reflexivity.
    + unfold ion_system_heap_unmap_kernel.
      cbn [buf_size set_size buf_vaddr set_priv_virt].
      rewrite <- Hn. unfold ulong, BITS_PER_LONG.
      rewrite Z.mod_small by lia. reflexivity.
  - intros Hsize b' s' Hrun.
    apply contig_allocate_success in Hrun
      as (a & o' & Ho & Ha & Hh & -> & ->); [|lia].
    exists (kmalloc_block true size).
    cbn [buf_priv_virt set_priv_virt kheap].
    rewrite lookup_insert_eq. done.
Qed.

Lemma allocate_backing_size_witness :
  (exists ps,
     backing_pages
       (KState [] {[3221225472 := Block 8 [Some 3238002688; Some 3238002720]]}
               {[3238002688; 3238002720]} ∅ ∅)
       (IonBuffer 0 3221225472 0 0) = Some ps /\
     Z.of_nat (length ps) = page_count 8192)
  /\
  (exists blk,
     kheap (KState [3238002688; 3238002720]
              {[3221225472 := kmalloc_block true 8192]} ∅ ∅ ∅)
       !! 3221225472 = Some blk /\ blk_bytes blk = 8192).
Proof.
  assert (Hnull : kheap (KState [3221225472; 3238002688; 3238002720] ∅ ∅ ∅ ∅)
                    !! 0 = None) by (vm_compute; reflexivity).
  destruct (allocate_backing_size
              (KState [3221225472; 3238002688; 3238002720] ∅ ∅ ∅ ∅)
              (IonBuffer 0 0 0 0) 8192 0 0 Hnull) as [Hlist Hcontig].
  split.
  - destruct (Hlist ltac:(rewrite PAGE_SIZE_eq; lia)
                (IonBuffer 0 3221225472 0 0)
                (KState [] {[3221225472 :=
                               Block 8 [Some 3238002688; Some 3238002720]]}
                        {[3238002688; 3238002720]} ∅ ∅))
      as (ps & Hps & Hlen & _).
    + vm_compute. reflexivity.
    + exists ps. split; [exact Hps | exact Hlen].
  - destruct (Hcontig ltac:(lia) (IonBuffer 0 3221225472 0 0)
                (KState [3238002688; 3238002720]
                   {[3221225472 := kmalloc_block true 8192]} ∅ ∅ ∅))
      as (blk & _ & Hblk & Hbytes).
    + vm_compute. reflexivity.
    + exists blk. split; [exact Hblk | exact Hbytes].
Defined.

(** C8: the page count of [allocate] is not checked for overflow.  For
    the size [2^32 - 1], in the last page of the address space,
    [ceil(size / PAGE_SIZE)] is 2^20, but [PAGE_ALIGN(size)] wraps to zero
    in [unsigned long]: [n_pages] is 0, [kmalloc(0)] hands out
    [ZERO_SIZE_PTR], the loop does not run, and [allocate] returns 0
    without taking a single page and without a backing list. *)
Lemma allocate_wraps_to_no_pages :
  page_count 4294967295 = 1048576 /\
  n_pages_of 4294967295 = 0 /\
  ion_system_heap_allocate (IonBuffer 0 0 0 0) 4294967295 0 0
    (KState [3221225472; 3238002688; 3238002720] ∅ ∅ ∅ ∅)
  = Done (0, IonBuffer 0 ZERO_SIZE_PTR 0 0)
         (KState [3221225472; 3238002688; 3238002720] ∅ ∅ ∅ ∅) /\
  backing_pages (KState [3221225472; 3238002688; 3238002720] ∅ ∅ ∅ ∅)
                (IonBuffer 0 ZERO_SIZE_PTR 0 0) = None.
Proof.
  split; [reflexivity|]. split; [vm_compute; reflexivity|].
  split; [vm_compute; reflexivity | reflexivity].
Qed.

(** C3: [ion_system_heap_map_dma] walks the kernel page table from the
    address of the slot array, [buffer->priv_virt], and never reads the
    slots.  On a two-page buffer whose backing list is [p0; p1], with page
    table entries [q0; q1] for the two pages from the slot array's address
    on, the mapping succeeds and its entries reference [q0] and [q1], not
    [p0] and [p1]; with no page table entry there it fails with [-ENOMEM]. *)
Theorem map_dma_walks_slot_array_address :
  let p0 := 3238002688 in let p1 := 3238002720 in
  let q0 := 3238035456 in let q1 := 3238035488 in
  let s0 := KState [3221225472; p0; p1; 3222274048; 3223322624] ∅ ∅ ∅
                   {[786432 := q0; 786433 := q1]} in
  exists b s1 table s2,
    ion_system_heap_allocate (IonBuffer 0 0 0 0) 8192 0 0 s0 = Done (0, b) s1 /\
    backing_pages s1 b = Some [p0; p1] /\
    ion_system_heap_map_dma (set_size 8192 b) s1 = Done table s2 /\
    IS_ERR table = false /\
    sg_entries s2 table
    = Some [Scatterlist q0 PAGE_SIZE 0; Scatterlist q1 PAGE_SIZE 0] /\
    ion_system_heap_map_dma (set_size 8192 b) (set_kpt ∅ s1)
    = Done (ERR_PTR (- ENOMEM)) (set_oracle [] (set_kpt ∅ s1)).
Proof.
  intros p0 p1 q0 q1 s0.
  eexists _, _, _, _.
  split; [vm_compute; reflexivity|].
  split; [vm_compute; reflexivity|].
  split; [vm_compute; reflexivity|].
  split; [vm_compute; reflexivity|].
  split; vm_compute; reflexivity.
Qed.

Lemma load_word_lookup a i v s b :
  kheap s !! a = Some b -> 0 <= i ->
  blk_words b !! Z.to_nat i = Some (Some v) ->
  load_word a i s = Done v s.
Proof.
  intros Hb Hi Hw. unfold load_word.
  destruct (Z.ltb_spec i 0); [lia|]. rewrite Hb, Hw. reflexivity.
Qed.

Lemma load_words_zeroed k : forall i a s b,
  kheap s !! a = Some b ->
  (forall j, (j < i + k)%nat -> blk_words b !! j = Some (Some 0)) ->
  load_words k a (Z.of_nat i) s = Done (replicate k 0) s.
Proof.
  induction k as [|k IH]; intros i a s b Hb Hw; [reflexivity|].
  cbn [load_words replicate].
  erewrite kbind_done.
  2:{ eapply load_word_lookup; [exact Hb | lia|].
      rewrite Nat2Z.id. apply Hw. lia. }
  replace (Z.of_nat i + 1) with (Z.of_nat (S i)) by lia.
  erewrite kbind_done; [reflexivity|].
  eapply IH; [exact Hb|]. intros j Hj. apply Hw. lia.
Qed.

(** C4: the contiguous heap takes [map_kernel] from the page-list heap,
    which reads [buffer->priv_virt] as an array of page pointers.  On a
    contiguous buffer that array is the zeroed block itself, so the page
    pointers handed to [vm_map_ram] are all NULL: the call returns NULL
    and maps nothing, instead of mapping the pages of the block. *)
Theorem contig_map_kernel_maps_nothing
    (virt_to_page : Z -> Z) (s : kstate) (buffer : ion_buffer)
    (len align flags : Z) (b' : ion_buffer) (s' : kstate) :
  4 <= len <= 2 ^ 32 - PAGE_SIZE ->
  ops_allocate (kmalloc_ops virt_to_page) buffer len align flags s
  = Done (0, b') s' ->
  ops_map_kernel (kmalloc_ops virt_to_page) (set_size len b') s'
  = Done 0 (set_oracle (tl (oracle s')) s').
Proof.
  cbn [ops_allocate ops_map_kernel kmalloc_ops]. intros Hlen Hrun.
  apply contig_allocate_success in Hrun
    as (a & o' & Ho & Ha & Hh & -> & ->); [|lia].
  unfold ion_system_heap_map_kernel.
  cbn [buf_size set_size buf_priv_virt set_priv_virt].
  assert (Hn : n_pages_of len = page_count len)
    by (apply n_pages_of_page_count; lia).
  assert (Hb := n_pages_of_bounds len).
  unfold ulong, BITS_PER_LONG. rewrite Z.mod_small by lia.
  rewrite PAGE_SIZE_eq in Hlen.
  assert (Hpos : 0 < n_pages_of len).
  { rewrite Hn. unfold page_count. rewrite PAGE_SIZE_eq.
    apply Z.div_str_pos. lia. }
  assert (Hfit : n_pages_of len <= len / 4).
  { rewrite Hn. unfold page_count. rewrite PAGE_SIZE_eq.
    destruct (Z_le_gt_dec len 4096).
    - assert ((len + (4096 - 1)) / 4096 <= 1)
        by (apply Z.lt_succ_r, Z.div_lt_upper_bound; lia).
      assert (1 <= len / 4) by (apply Z.div_le_lower_bound; lia). lia.
    - apply Z.div_le_lower_bound; [lia|].
      assert (4096 * ((len + (4096 - 1)) / 4096) <= len + (4096 - 1))
        by (apply Z.mul_div_le; lia).
      lia. }
  unfold vm_map_ram.
  erewrite kbind_done.
  2:{ apply (load_words_zeroed _ 0 a _ (kmalloc_block true len)).
      - cbn [kheap]. apply lookup_insert_eq.
      - intros j Hj. unfold kmalloc_block, sizeof_ptr. cbn [blk_words].
        apply lookup_replicate_2. lia. }
  rewrite kbind_next_choice. cbn [oracle tl set_oracle kheap pages_held sg_ents kpt].
  destruct (Z.to_nat (n_pages_of len)) as [|k] eqn:Hk; [lia|].
  cbn [replicate forallb Z.eqb negb andb]. rewrite andb_false_r. reflexivity.
Qed.

Lemma contig_map_kernel_maps_nothing_witness :
  ops_map_kernel (kmalloc_ops (fun a => a))
    (set_size 8192 (IonBuffer 0 3221225472 0 0))
    (KState [3758096384] {[3221225472 := kmalloc_block true 8192]} ∅ ∅ ∅)
  = Done 0 (KState [] {[3221225472 := kmalloc_block true 8192]} ∅ ∅ ∅).
Proof.
  apply (contig_map_kernel_maps_nothing (fun a => a)
           (KState [3221225472; 3758096384] ∅ ∅ ∅ ∅) (IonBuffer 0 0 0 0)
           8192 0 0).
  - rewrite PAGE_SIZE_eq. lia.
  - vm_compute. reflexivity.
Defined.

(** ** Process mappings: what the loop inserts *)

Lemma vm_insert_page_range vma addr page :
  vm_start (vm_insert_page vma addr page).2 = vm_start vma /\
  vm_end (vm_insert_page vma addr page).2 = vm_end vma.
Proof.
  unfold vm_insert_page.
  destruct ((addr <? vm_start vma) || (vm_end vma <=? addr)); [done|].
  destruct (vm_ptes vma !! Z.shiftr addr PAGE_SHIFT); done.
Qed.

Lemma vm_insert_page_ptes vma addr page k v :
  vm_ptes (vm_insert_page vma addr page).2 !! k = Some v ->
  vm_ptes vma !! k = Some v \/ v = page.
Proof.
  unfold vm_insert_page.
  destruct ((addr <? vm_start vma) || (vm_end vma <=? addr)); [by left|].
  destruct (vm_ptes vma !! Z.shiftr addr PAGE_SHIFT) eqn:Hl; [by left|].
  cbn [snd set_vm_ptes vm_ptes].
  destruct (decide (k = Z.shiftr addr PAGE_SHIFT)) as [-> | Hne].
  - rewrite lookup_insert_eq. intros [= ->]. by right.
  - rewrite lookup_insert_ne by done. by left.
Qed.

Lemma vm_insert_page_outside vma addr page :
  addr < vm_start vma \/ vm_end vma <= addr ->
  vm_insert_page vma addr page = (- EFAULT, vma).
Proof.
  intros H. unfold vm_insert_page.
  destruct (Z.ltb_spec addr (vm_start vma)); [reflexivity|].
  destruct (Z.leb_spec (vm_end vma) addr); [reflexivity | lia].
Qed.

Lemma vm_insert_page_result vma addr page :
  (vm_insert_page vma addr page).1 = 0 \/
  (vm_insert_page vma addr page).1 = - EFAULT \/
  (vm_insert_page vma addr page).1 = - EBUSY.
Proof.
  unfold vm_insert_page.
  destruct ((addr <? vm_start vma) || (vm_end vma <=? addr)); [auto|].
  destruct (vm_ptes vma !! Z.shiftr addr PAGE_SHIFT); auto.
Qed.

(** Every page the loop enters is the one word [page_list[i]]: the index
    is never advanced. *)
Lemma map_user_loop_pages fuel : forall vma uaddr usize page_list i s p r s',
  load_word page_list i s = Done p s ->
  map_user_loop fuel vma uaddr usize page_list i s = Done r s' ->
  s' = s /\
  match r with
  | None => True
  | Some (_, vma') =>
      forall k v, vm_ptes vma' !! k = Some v ->
                  vm_ptes vma !! k = Some v \/ v = p
  end.
Proof.
  induction fuel as [|fuel IH]; intros vma uaddr usize page_list i s p r s' Hp Hrun.
  - cbn in Hrun. injection Hrun as <- <-. done.
  - cbn [map_user_loop] in Hrun.
    rewrite (kbind_done _ _ _ _ _ Hp) in Hrun.
    assert (Hptes := vm_insert_page_ptes vma uaddr p).
    destruct (vm_insert_page vma uaddr p) as [ret vma1]. cbn [snd] in Hptes.
    destruct (negb (ret =? 0)).
    + injection Hrun as <- <-. done.
    + destruct (ulong (usize - PAGE_SIZE) >? 0).
      * apply (IH _ _ _ _ _ _ p) in Hrun as [-> Hr]; [|done].
        split; [done|]. destruct r as [[ret' vma']|]; [|done].
        intros k v Hk. destruct (Hr k v Hk) as [H1 | H1]; [|by right].
        by apply Hptes.
      * injection Hrun as <- <-. done.
Qed.

(** C1: the loop of [ion_system_heap_map_user] never advances [i], so every
    page it enters is [page_list[0]]: whatever the range, after the call
    each entry of the area is one that was there before or maps backing
    page 0.  The page at offset [k * PAGE_SIZE] is backing page [k] only
    for [k = 0]. *)
Theorem map_user_inserts_first_page_only
    (fuel : nat) (buffer : ion_buffer) (vma : vm_area_struct) (s : kstate)
    (p0 r : Z) (vma' : vm_area_struct) (s' : kstate) :
  load_word (buf_priv_virt buffer) 0 s = Done p0 s ->
  ion_system_heap_map_user fuel buffer vma s = Done (Some (r, vma')) s' ->
  s' = s /\
  forall k v, vm_ptes vma' !! k = Some v -> vm_ptes vma !! k = Some v \/ v = p0.
Proof.
  intros Hp Hrun. unfold ion_system_heap_map_user in Hrun.
  destruct (_ >? _).
  - injection Hrun as <- <- <-. split; [done|]. by left.
  - unfold kbind in Hrun.
    destruct (map_user_loop _ _ _ _ _ _ _) as [r1 s1|] eqn:Hloop; [|discriminate].
    apply (map_user_loop_pages _ _ _ _ _ _ _ p0) in Hloop as [-> Hr]; [|done].
    destruct r1 as [[[ret|] vma1]|]; [| |discriminate].
    + injection Hrun as <- <- <-. done.
    + injection Hrun as <- <- <-. done.
Qed.

(** The failing input of C1: a three-page buffer mapped over a three-page
    range.  The call succeeds and the three user pages all map backing
    page 0. *)
Lemma map_user_inserts_first_page_only_witness :
  let p0 := 3238002688 in let p1 := 3238002720 in let p2 := 3238002752 in
  let s1 := KState [] {[3221225472 := Block 12 [Some p0; Some p1; Some p2]]}
                   {[p0; p1; p2]} ∅ ∅ in
  ion_system_heap_map_user 3 (IonBuffer 12288 3221225472 0 0)
    (VmArea 1073741824 1073754112 0 0 ∅) s1
  = Done (Some (0, VmArea 1073741824 1073754112 VM_RESERVED 0
                     {[262144 := p0; 262145 := p0; 262146 := p0]})) s1
  /\
  forall k v,
    ({[262144 := p0; 262145 := p0; 262146 := p0]} : gmap Z Z) !! k = Some v ->
    (∅ : gmap Z Z) !! k = Some v \/ v = p0.
Proof.
  intros p0 p1 p2 s1.
  assert (Hrun :
    ion_system_heap_map_user 3 (IonBuffer 12288 3221225472 0 0)
      (VmArea 1073741824 1073754112 0 0 ∅) s1
    = Done (Some (0, VmArea 1073741824 1073754112 VM_RESERVED 0
                       {[262144 := p0; 262145 := p0; 262146 := p0]})) s1)
    by (vm_compute; reflexivity).
  assert (Hload : load_word (buf_priv_virt (IonBuffer 12288 3221225472 0 0)) 0 s1
                  = Done p0 s1) by (vm_compute; reflexivity).
  split; [exact Hrun|].
  exact (proj2 (map_user_inserts_first_page_only 3
                  (IonBuffer 12288 3221225472 0 0)
                  (VmArea 1073741824 1073754112 0 0 ∅) s1 p0 0
                  (VmArea 1073741824 1073754112 VM_RESERVED 0
                          {[262144 := p0; 262145 := p0; 262146 := p0]}) s1
                  Hload Hrun)).
Defined.

(** ** Process mappings: ranges that are not whole pages *)

Lemma ulong_range (x : Z) : 0 <= ulong x < 2 ^ 32.
Proof. apply Z.mod_pos_bound. reflexivity. Qed.

(** A remaining length that is not a multiple of the page size stays so
    after [usize -= PAGE_SIZE], wrap-around included, and so is never 0. *)
Lemma usize_step_not_multiple (usize : Z) :
  usize mod PAGE_SIZE <> 0 ->
  ulong (usize - PAGE_SIZE) mod PAGE_SIZE <> 0 /\
  (ulong (usize - PAGE_SIZE) >? 0) = true.
Proof.
  rewrite PAGE_SIZE_eq. unfold ulong, BITS_PER_LONG. intros H.
  assert (Hm : ((usize - 4096) mod 2 ^ 32) mod 4096 = usize mod 4096).
  { rewrite Z.mod_mod_divide by (exists 1048576; reflexivity).
    replace (usize - 4096) with (usize + (-1) * 4096) by lia.
    apply Z.mod_add. lia. }
  split; [rewrite Hm; exact H|].
  assert (Hr := Z.mod_pos_bound (usize - 4096) (2 ^ 32) ltac:(lia)).
  destruct (Z.eq_dec ((usize - 4096) mod 2 ^ 32) 0) as [H0 | H0].
  - rewrite H0 in Hm. rewrite <- Hm in H. done.
  - apply Z.gtb_lt. lia.
Qed.

Lemma map_user_loop_never_completes fuel :
  forall vma uaddr usize page_list i s vma' s',
  usize mod PAGE_SIZE <> 0 ->
  map_user_loop fuel vma uaddr usize page_list i s <> Done (Some (None, vma')) s'.
Proof.
  induction fuel as [|fuel IH]; intros vma uaddr usize page_list i s vma' s' Hm.
  - discriminate.
  - cbn [map_user_loop]. unfold kbind.
    destruct (load_word page_list i s) as [p s1|]; [|discriminate].
    destruct (vm_insert_page vma uaddr p) as [ret vma1].
    destruct (negb (ret =? 0)); [discriminate|].
    destruct (usize_step_not_multiple usize Hm) as [Hm' ->].
    by apply IH.
Qed.

Lemma map_user_loop_nonzero fuel :
  forall vma uaddr usize page_list i s ret vma' s',
  map_user_loop fuel vma uaddr usize page_list i s
  = Done (Some (Some ret, vma')) s' -> ret <> 0.
Proof.
  induction fuel as [|fuel IH]; intros vma uaddr usize page_list i s ret vma' s'.
  - discriminate.
  - cbn [map_user_loop]. unfold kbind.
    destruct (load_word page_list i s) as [p s1|]; [|discriminate].
    destruct (vm_insert_page vma uaddr p) as [ret1 vma1].
    destruct (Z.eqb_spec ret1 0) as [-> | Hne]; cbn [negb].
    + destruct (_ >? _); [apply IH | discriminate].
    + intros [= <- _ _]. done.
Qed.

(** From the [j]-th page on, with the range ending inside page [q], the
    loop returns within [q + 2 - j] iterations: an insertion fails at the
    latest at the first address past the end of the range. *)
Lemma map_user_loop_returns m : forall j vma uaddr usize page_list i s p q,
  load_word page_list i s = Done p s ->
  usize mod PAGE_SIZE <> 0 ->
  0 <= vm_start vma -> vm_end vma <= 2 ^ 32 - PAGE_SIZE ->
  vm_start vma + q * PAGE_SIZE < vm_end vma <= vm_start vma + (q + 1) * PAGE_SIZE ->
  0 <= j -> j + Z.of_nat m = q + 1 ->
  uaddr = ulong (vm_start vma + j * PAGE_SIZE) ->
  exists ret vma',
    (ret = - EFAULT \/ ret = - EBUSY) /\
    map_user_loop (S m) vma uaddr usize page_list i s
    = Done (Some (Some ret, vma')) s.
Proof.
  induction m as [|m IH];
    intros j vma uaddr usize page_list i s p q Hp Hm Hs He Hq Hj Hjm ->;
    cbn [map_user_loop]; rewrite (kbind_done _ _ _ _ _ Hp);
    rewrite PAGE_SIZE_eq in Hq, He.
  - rewrite vm_insert_page_outside.
    + cbn. eauto.
    + assert (j = q + 1) by lia. subst j.
      unfold ulong, BITS_PER_LONG. rewrite PAGE_SIZE_eq.
      rewrite Z.mod_small by lia. lia.
  - assert (Hrange := vm_insert_page_range vma
                        (ulong (vm_start vma + j * PAGE_SIZE)) p).
    assert (Hret := vm_insert_page_result vma
                      (ulong (vm_start vma + j * PAGE_SIZE)) p).
    destruct (vm_insert_page vma _ p) as [ret vma1]. cbn [fst snd] in *.
    destruct Hrange as [Hs1 He1].
    destruct Hret as [-> | Hret]; [|destruct Hret as [-> | ->]; cbn; eauto].
    cbn [Z.eqb negb].
    destruct (usize_step_not_multiple usize Hm) as [Hm' ->].
    apply (IH (j + 1) vma1 _ _ _ _ _ p q); rewrite ?Hs1, ?He1, ?PAGE_SIZE_eq;
      try done; try lia.
    unfold ulong, BITS_PER_LONG.
    rewrite Z.add_mod_idemp_l by lia. f_equal. lia.
Qed.

(** A remaining length of [m + 1] whole pages is used up in [m + 1]
    iterations. *)
Lemma map_user_loop_whole_pages m : forall vma uaddr usize page_list i s p,
  load_word page_list i s = Done p s ->
  usize = Z.of_nat (S m) * PAGE_SIZE -> usize < 2 ^ 32 ->
  exists r vma',
    map_user_loop (S m) vma uaddr usize page_list i s = Done (Some (r, vma')) s.
Proof.
  induction m as [|m IH]; intros vma uaddr usize page_list i s p Hp Hu Hlt;
    cbn [map_user_loop]; rewrite (kbind_done _ _ _ _ _ Hp);
    destruct (vm_insert_page vma uaddr p) as [ret vma1];
    (destruct (negb (ret =? 0)); [eauto|]);
    rewrite PAGE_SIZE_eq in *; unfold ulong, BITS_PER_LONG;
    rewrite Z.mod_small by lia.
  - subst usize. cbn. eauto.
  - destruct (Z.gtb_spec (usize - 4096) 0); [|lia].
    apply (IH _ _ _ _ _ _ p); [done | lia | lia].
Qed.

(** The loop reads no word but [page_list[i]]: when that word can be read
    the loop does not fault, however long it runs. *)
Lemma map_user_loop_never_faults fuel :
  forall vma uaddr usize page_list i s p,
  load_word page_list i s = Done p s ->
  map_user_loop fuel vma uaddr usize page_list i s <> Oops.
Proof.
  induction fuel as [|fuel IH]; intros vma uaddr usize page_list i s p Hp.
  - discriminate.
  - cbn [map_user_loop]. rewrite (kbind_done _ _ _ _ _ Hp).
    destruct (vm_insert_page vma uaddr p) as [ret vma1].
    destruct (negb (ret =? 0)); [discriminate|].
    destruct (_ >? _); [|discriminate]. by eapply IH.
Qed.

(** The loop of [map_user] as it is written, on a range that passes the
    length check.  The loop bounds its work by the length only when
    the length is a positive multiple of [PAGE_SIZE]: [q] whole pages take
    at most [q] iterations.  The body of the loop runs before the test of
    the remaining length: for a range of length zero the call still
    attempts one insertion, at the base of the range, and returns what
    that attempt returns.  For a length that is not a multiple of
    [PAGE_SIZE] the remaining length wraps past zero instead of reaching
    it, so the call never returns 0: the loop goes on past the end of the
    range and ends only when an insertion fails, which for an area below
    the last page of the address space happens within
    [length / PAGE_SIZE + 2] iterations. *)
Theorem map_user_unbounded_for_partial_pages
    (buffer : ion_buffer) (vma : vm_area_struct) (s : kstate) (p0 : Z) :
  load_word (buf_priv_virt buffer) 0 s = Done p0 s ->
  range_length vma <= n_pages_of (buf_size buffer) * PAGE_SIZE ->
  (forall q, 1 <= q -> range_length vma = q * PAGE_SIZE ->
   exists r vma',
     ion_system_heap_map_user (Z.to_nat q) buffer vma s
     = Done (Some (r, vma')) s)
  /\
  (vm_end vma = vm_start vma ->
   forall fuel,
     ion_system_heap_map_user (S fuel) buffer vma s
     = Done (Some (vm_insert_page vma (vm_start vma) p0)) s /\
     vm_insert_page vma (vm_start vma) p0 = (- EFAULT, vma))
  /\
  (range_length vma mod PAGE_SIZE <> 0 ->
   (forall u, 0 < u < PAGE_SIZE ->
      ulong (u - PAGE_SIZE) = 2 ^ 32 - PAGE_SIZE + u) /\
   (forall fuel vma' s',
      ion_system_heap_map_user fuel buffer vma s <> Done (Some (0, vma')) s') /\
   (0 <= vm_start vma -> vm_start vma <= vm_end vma ->
    vm_end vma <= 2 ^ 32 - PAGE_SIZE ->
    exists ret vma',
      (ret = - EFAULT \/ ret = - EBUSY) /\
      ion_system_heap_map_user
        (Z.to_nat (range_length vma / PAGE_SIZE) + 2) buffer vma s
      = Done (Some (ret, vma')) s)).
Proof.
  intros Hp Hfit. rewrite <- n_pages_shift in Hfit.
  assert (Hcheck : (range_length vma
                    >? ulong (Z.shiftl (n_pages_of (buf_size buffer)) PAGE_SHIFT))
                   = false).
  { destruct (Z.gtb_spec (range_length vma)
                (ulong (Z.shiftl (n_pages_of (buf_size buffer)) PAGE_SHIFT)));
      [lia | reflexivity]. }
  split; [|split].
  - intros q Hq Hlen.
    assert (Hu := ulong_range (vm_end vma - vm_start vma)).
    fold (range_length vma) in Hu.
    destruct (map_user_loop_whole_pages (Z.to_nat q - 1) vma (vm_start vma)
                (range_length vma) (buf_priv_virt buffer) 0 s p0)
      as (r & vma' & Hloop);
      [done | rewrite Hlen; f_equal; lia | lia |].
    replace (S (Z.to_nat q - 1)) with (Z.to_nat q) in Hloop by lia.
    unfold ion_system_heap_map_user. fold (range_length vma).
    rewrite Hcheck, (kbind_done _ _ _ _ _ Hloop).
    destruct r as [ret|]; eauto.
  - intros Hz fuel.
    assert (Hins : vm_insert_page vma (vm_start vma) p0 = (- EFAULT, vma))
      by (apply vm_insert_page_outside; lia).
    split; [|exact Hins].
    unfold ion_system_heap_map_user. fold (range_length vma).
    rewrite Hcheck. cbn [map_user_loop].
    unfold kbind at 1. unfold kbind at 1. rewrite Hp, Hins. reflexivity.
  - intros Hm. split; [|split].
    + intros u Hu. rewrite PAGE_SIZE_eq in *. unfold ulong, BITS_PER_LONG.
      replace (u - 4096) with (2 ^ 32 - 4096 + u + (-1) * 2 ^ 32) by lia.
      rewrite Z.mod_add by lia. apply Z.mod_small. lia.
    + intros fuel vma' s' Hrun.
      unfold ion_system_heap_map_user in Hrun. fold (range_length vma) in Hrun.
      rewrite Hcheck in Hrun. unfold kbind in Hrun.
      destruct (map_user_loop _ _ _ _ _ _ _) as [r1 s1|] eqn:Hloop;
        [|discriminate].
      destruct r1 as [[[ret|] vma1]|]; [| |discriminate].
      * assert (ret <> 0).
        { intros ->. 
          apply (map_user_loop_nonzero _ _ _ _ _ _ _ _ _ _ Hloop). reflexivity. }
        injection Hrun as -> _ _. done.
      * by apply map_user_loop_never_completes in Hloop.
    + intros Hs Hse He.
      assert (Hlen : range_length vma = vm_end vma - vm_start vma).
      { unfold range_length, ulong, BITS_PER_LONG. rewrite PAGE_SIZE_eq in He.
        apply Z.mod_small. lia. }
      set (q := range_length vma / PAGE_SIZE).
      assert (Hq : range_length vma = PAGE_SIZE * q + range_length vma mod PAGE_SIZE)
        by (apply Z.div_mod; rewrite PAGE_SIZE_eq; lia).
      assert (Hr := Z.mod_pos_bound (range_length vma) PAGE_SIZE
                      ltac:(rewrite PAGE_SIZE_eq; lia)).
      assert (Hq0 : 0 <= q) by (apply Z.div_pos; rewrite ?PAGE_SIZE_eq; lia).
      destruct (map_user_loop_returns (Z.to_nat q + 1) 0 vma (vm_start vma)
                  (range_length vma) (buf_priv_virt buffer) 0 s p0 q)
        as (ret & vma' & Hret & Hloop); try done; try lia.
      { unfold ulong, BITS_PER_LONG. rewrite PAGE_SIZE_eq in *.
        rewrite Z.mod_small by lia. lia. }
      exists ret, vma'. split; [done|].
      unfold ion_system_heap_map_user. fold (range_length vma).
      rewrite Hcheck.
      replace (Z.to_nat q + 2)%nat with (S (Z.to_nat q + 1)) by lia.
      rewrite (kbind_done _ _ _ _ _ Hloop). reflexivity.
Qed.

Lemma map_user_unbounded_for_partial_pages_witness :
  let p0 := 3238002688 in
  let s1 := KState [] {[3221225472 := Block 4 [Some p0]]} {[p0]} ∅ ∅ in
  let buffer := IonBuffer 4096 3221225472 0 0 in
  (exists r vma',
     ion_system_heap_map_user (Z.to_nat 1) buffer
       (VmArea 1073741824 1073745920 0 0 ∅) s1
     = Done (Some (r, vma')) s1)
  /\
  (forall fuel,
     ion_system_heap_map_user (S fuel) buffer
       (VmArea 1073741824 1073741824 0 0 ∅) s1
     = Done (Some (vm_insert_page (VmArea 1073741824 1073741824 0 0 ∅)
                     1073741824 p0)) s1 /\
     vm_insert_page (VmArea 1073741824 1073741824 0 0 ∅) 1073741824 p0
     = (- EFAULT, VmArea 1073741824 1073741824 0 0 ∅))
  /\
  exists ret vma',
    (ret = - EFAULT \/ ret = - EBUSY) /\
    ion_system_heap_map_user
      (Z.to_nat (range_length (VmArea 1073741824 1073741825 0 0 ∅) / PAGE_SIZE)
       + 2) buffer (VmArea 1073741824 1073741825 0 0 ∅) s1
    = Done (Some (ret, vma')) s1.
Proof.
  intros p0 s1 buffer.
  assert (Hload : load_word (buf_priv_virt buffer) 0 s1 = Done p0 s1)
    by (vm_compute; reflexivity).
  split; [|split].
  - apply (map_user_unbounded_for_partial_pages buffer
             (VmArea 1073741824 1073745920 0 0 ∅) s1 p0 Hload).
    + vm_compute. discriminate.
    + lia.
    + reflexivity.
  - apply (map_user_unbounded_for_partial_pages buffer
             (VmArea 1073741824 1073741824 0 0 ∅) s1 p0 Hload).
    + vm_compute. discriminate.
    + reflexivity.
  - apply (map_user_unbounded_for_partial_pages buffer
             (VmArea 1073741824 1073741825 0 0 ∅) s1 p0 Hload).
    + vm_compute. discriminate.
    + vm_compute. discriminate.
    + vm_compute. discriminate.
    + vm_compute. discriminate.
    + vm_compute. discriminate.
Defined.


(** * Further properties *)

(** ** The page-list heap: allocation and release *)

Lemma allocate_run_success
    (s : kstate) (buffer : ion_buffer) (size align flags : Z)
    (a : Z) (ps tail : list Z) :
  oracle s = a :: ps ++ tail ->
  is_pointer a = true -> kheap s !! a = None ->
  pages_fresh (pages_held s) ps ->
  0 < n_pages_of size -> Z.of_nat (length ps) = n_pages_of size ->
  ion_system_heap_allocate buffer size align flags s
  = Done (0, set_priv_virt a buffer)
      (KState tail
         (<[a := Block (n_pages_of size * 4) (map Some ps)]> (kheap s))
         (list_to_set ps ∪ pages_held s) (sg_ents s) (kpt s)).
Proof.
  destruct s as [o h P e t]; cbn [oracle kheap pages_held sg_ents kpt].
  intros -> Ha Hh Hfresh Hn Hlen.
  destruct (slot_array_block size) as [Hnz Hblk]; [lia|].
  unfold ion_system_heap_allocate, kmalloc.
  rewrite (kbind_done _ _ _ _ _ (kmalloc_ok false _ a _ h P e t Hnz Ha Hh)).
  rewrite Hblk, <- Hlen, Nat2Z.id.
  replace (length ps) with (length ps + 0)%nat by lia.
  erewrite kbind_done.
  2:{ rewrite (allocate_loop_run ps [] 0) by done. reflexivity. }
  cbn [app]. rewrite app_nil_r. reflexivity.
Qed.

(** X1: with memory on offer -- a usable slot array and [n_pages] new
    pages -- [ion_system_heap_allocate] returns 0, records the slot array
    in [buffer->priv_virt], stores the pages in the order they were handed
    out, and consumes exactly these choices. *)
Theorem allocate_succeeds
    (s : kstate) (buffer : ion_buffer) (size align flags : Z)
    (a : Z) (ps tail : list Z) :
  oracle s = a :: ps ++ tail ->
  is_pointer a = true -> kheap s !! a = None ->
  pages_fresh (pages_held s) ps ->
  0 < n_pages_of size -> Z.of_nat (length ps) = n_pages_of size ->
  ion_system_heap_allocate buffer size align flags s
  = Done (0, set_priv_virt a buffer)
      (KState tail
         (<[a := Block (n_pages_of size * 4) (map Some ps)]> (kheap s))
         (list_to_set ps ∪ pages_held s) (sg_ents s) (kpt s)).
Proof. apply allocate_run_success. Qed.

Lemma allocate_succeeds_witness :
  ion_system_heap_allocate (IonBuffer 0 0 0 0) 8192 0 0
    (KState [3221225472; 3238002688; 3238002720; 7] ∅ ∅ ∅ ∅)
  = Done (0, IonBuffer 0 3221225472 0 0)
      (KState [7]
         {[3221225472 := Block 8 [Some 3238002688; Some 3238002720]]}
         {[3238002688; 3238002720]} ∅ ∅).
Proof.
  assert (H := allocate_succeeds
                 (KState [3221225472; 3238002688; 3238002720; 7] ∅ ∅ ∅ ∅)
                 (IonBuffer 0 0 0 0) 8192 0 0
                 3221225472 [3238002688; 3238002720] [7]).
  rewrite H.
  - vm_compute. reflexivity.
  - reflexivity.
  - reflexivity.
  - reflexivity.
  - split; [compute_done|]. repeat constructor; set_solver.
  - reflexivity.
  - reflexivity.
Defined.

(** X2: [ion_system_heap_free] is not idempotent.  On the buffer of a
    successful allocation of at least one page the first [free] returns,
    with the resources held before the allocation; a second [free] of the
    same buffer reads the released slot array and faults. *)
Theorem free_twice_faults
    (s : kstate) (buffer : ion_buffer) (size align flags : Z)
    (b' : ion_buffer) (s' : kstate) :
  0 < n_pages_of size -> kheap s !! 0 = None ->
  ion_system_heap_allocate buffer size align flags s = Done (0, b') s' ->
  exists s'',
    ion_system_heap_free (set_size size b') s' = Done tt s'' /\
    same_resources s s'' /\
    ion_system_heap_free (set_size size b') s'' = Oops.
Proof.
  intros Hn Hnull Hrun.
  apply allocate_success in Hrun
    as (a & ps & tail & Ho & Ha & Hh & Hlen & [Hnd Hall] & -> & ->); try done.
  destruct s as [o h P e t]. cbn [kheap oracle pages_held sg_ents kpt] in *.
  unfold ion_system_heap_free.
  cbn [buf_size set_size buf_priv_virt set_priv_virt].
  rewrite <- Hlen, Nat2Z.id.
  erewrite kbind_done.
  2:{ apply (free_loop_ok ps []); [done|].
      intros p Hp. rewrite Forall_forall in Hall. apply (Hall p Hp). }
  rewrite kfree_ok by done.
  eexists. split; [reflexivity|]. split; [by repeat split|].
  destruct (length ps) as [|k] eqn:Hk; [lia|].
  cbn [free_loop]. unfold kbind, load_word; cbn. rewrite Hh. reflexivity.
Qed.

Lemma free_twice_faults_witness :
  exists s'',
    ion_system_heap_free (set_size 8192 (IonBuffer 0 3221225472 0 0))
      (KState [] {[3221225472 := Block 8 [Some 3238002688; Some 3238002720]]}
              {[3238002688; 3238002720]} ∅ ∅) = Done tt s'' /\
    same_resources (KState [3221225472; 3238002688; 3238002720] ∅ ∅ ∅ ∅) s'' /\
    ion_system_heap_free (set_size 8192 (IonBuffer 0 3221225472 0 0)) s'' = Oops.
Proof.
  apply (free_twice_faults
           (KState [3221225472; 3238002688; 3238002720] ∅ ∅ ∅ ∅)
           (IonBuffer 0 0 0 0) 8192 0 0).
  - reflexivity.
  - reflexivity.
  - vm_compute. reflexivity.
Defined.

(** X3: a size whose page count is zero -- zero itself, or a size in the
    last page of the address space, where [PAGE_ALIGN] wraps -- is not
    refused: [allocate] returns 0 with [ZERO_SIZE_PTR] as the page list and
    takes nothing from the allocators, and [free] of that buffer releases
    nothing and returns. *)
Theorem allocate_no_pages
    (s : kstate) (buffer : ion_buffer) (size align flags : Z) :
  size = 0 \/ 2 ^ 32 - PAGE_SIZE < size < 2 ^ 32 ->
  ion_system_heap_allocate buffer size align flags s
  = Done (0, set_priv_virt ZERO_SIZE_PTR buffer) s /\
  ion_system_heap_free (set_size size (set_priv_virt ZERO_SIZE_PTR buffer)) s
  = Done tt s.
Proof.
  intros Hsize.
  assert (Hn : n_pages_of size = 0).
  { rewrite n_pages_of_eq. rewrite PAGE_SIZE_eq in Hsize.
    destruct Hsize as [-> | Hsize]; [reflexivity|].
    replace (size + 4095) with (size + 4095 - 2 ^ 32 + 1 * 2 ^ 32) by lia.
    rewrite Z.mod_add by lia. rewrite Z.mod_small by lia.
    apply Z.div_small. lia. }
  unfold ion_system_heap_allocate, ion_system_heap_free.
  cbn [buf_size set_size buf_priv_virt set_priv_virt]. rewrite Hn.
  split; reflexivity.
Qed.

Lemma allocate_no_pages_witness :
  ion_system_heap_allocate (IonBuffer 0 0 0 0) 4294963201 0 0
    (KState [3221225472] ∅ ∅ ∅ ∅)
  = Done (0, set_priv_virt ZERO_SIZE_PTR (IonBuffer 0 0 0 0))
         (KState [3221225472] ∅ ∅ ∅ ∅) /\
  ion_system_heap_free
    (set_size 4294963201 (set_priv_virt ZERO_SIZE_PTR (IonBuffer 0 0 0 0)))
    (KState [3221225472] ∅ ∅ ∅ ∅)
  = Done tt (KState [3221225472] ∅ ∅ ∅ ∅).
Proof.
  apply (allocate_no_pages (KState [3221225472] ∅ ∅ ∅ ∅) (IonBuffer 0 0 0 0)
           4294963201 0 0).
  right. rewrite PAGE_SIZE_eq. lia.
Defined.

(** ** The page-list heap: the walk of the device mapping *)

Lemma sg_set_page_ok sgl i page len offset (l : list scatterlist) o h P e t :
  (i < length l)%nat ->
  sg_set_page sgl (Z.of_nat i) page len offset
    (KState o h P (<[sgl := l]> e) t)
  = Done tt (KState o h P
               (<[sgl := <[i := Scatterlist page len offset]> l]> e) t).
Proof.
  intros Hi. unfold sg_set_page. cbn [sg_ents].
  destruct (Z.ltb_spec (Z.of_nat i) 0); [lia|].
  rewrite lookup_insert_eq, Nat2Z.id, bool_decide_eq_true_2 by done.
  unfold set_sg_ents; cbn. rewrite insert_insert_eq. reflexivity.
Qed.

Lemma dma_vaddr_step vaddr i :
  ulong (ulong (vaddr + Z.of_nat i * PAGE_SIZE) + PAGE_SIZE)
  = ulong (vaddr + Z.of_nat (S i) * PAGE_SIZE).
Proof.
  unfold ulong, BITS_PER_LONG. rewrite Z.add_mod_idemp_l by lia.
  f_equal. lia.
Qed.

(** The loop from entry [i] on, [k] entries left: it fills the entries
    [i .. i+k-1] when every step of the walk finds a page. *)
Lemma map_dma_loop_walk k : forall i vaddr (l : list scatterlist) o h P e t sgl,
  (i + k <= length l)%nat ->
  forallb (fun j => negb (dma_page t vaddr j =? 0)) (seq i k) = true ->
  map_dma_loop k sgl (Z.of_nat i) (ulong (vaddr + Z.of_nat i * PAGE_SIZE))
    (KState o h P (<[sgl := l]> e) t)
  = Done 0 (KState o h P
              (<[sgl := take i l ++ dma_entries t vaddr i k
                             ++ drop (i + k) l]> e) t).
Proof.
  induction k as [|k IH]; intros i vaddr l o h P e t sgl Hlen Hall.
  - cbn [map_dma_loop dma_entries seq map]. unfold kret. cbn [app].
    rewrite Nat.add_0_r, take_drop. reflexivity.
  - cbn [seq forallb] in Hall. apply andb_true_iff in Hall as [Hpage Hall].
    apply negb_true_iff in Hpage.
    cbn [map_dma_loop].
    unfold kbind at 1, vmalloc_to_page at 1. cbn [kpt].
    fold (dma_page t vaddr i). rewrite Hpage.
    rewrite (kbind_done _ _ _ _ _
               (sg_set_page_ok sgl i _ PAGE_SIZE 0 l o h P e t ltac:(lia))).
    replace (Z.of_nat i + 1) with (Z.of_nat (S i)) by lia.
    rewrite dma_vaddr_step.
    rewrite IH by (rewrite ?length_insert; done || lia).
    f_equal. f_equal. f_equal.
    unfold dma_entries. cbn [seq map].
    rewrite (take_S_r _ _ (Scatterlist (dma_page t vaddr i) PAGE_SIZE 0))
      by (apply list_lookup_insert_eq; lia).
    rewrite take_insert_ge by lia.
    rewrite drop_insert_lt by lia.
    rewrite <- app_assoc. cbn [app].
    replace (S i + k)%nat with (i + S k)%nat by lia. reflexivity.
Qed.

(** It stops with [-ENOMEM] at the first step that finds none. *)
Lemma map_dma_loop_stops k : forall i vaddr (l : list scatterlist) o h P e t sgl,
  (i + k <= length l)%nat ->
  forallb (fun j => negb (dma_page t vaddr j =? 0)) (seq i k) = false ->
  exists l',
    map_dma_loop k sgl (Z.of_nat i) (ulong (vaddr + Z.of_nat i * PAGE_SIZE))
      (KState o h P (<[sgl := l]> e) t)
    = Done (- ENOMEM) (KState o h P (<[sgl := l']> e) t).
Proof.
  induction k as [|k IH]; intros i vaddr l o h P e t sgl Hlen Hall.
  - discriminate.
  - cbn [seq forallb] in Hall. cbn [map_dma_loop].
    unfold kbind at 1, vmalloc_to_page at 1. cbn [kpt].
    fold (dma_page t vaddr i).
    destruct (dma_page t vaddr i =? 0) eqn:Hpage.
    + exists l. reflexivity.
    + cbn [negb andb] in Hall.
      rewrite (kbind_done _ _ _ _ _
                 (sg_set_page_ok sgl i _ PAGE_SIZE 0 l o h P e t ltac:(lia))).
      replace (Z.of_nat i + 1) with (Z.of_nat (S i)) by lia.
      rewrite dma_vaddr_step.
      apply IH; [rewrite length_insert; lia | done].
Qed.

(** The two allocations of [map_dma] succeed: the description at [a], the
    entry table at [sg]. *)
Lemma map_dma_allocated (buffer : ion_buffer) a sg tail h P e t :
  is_pointer a = true -> h !! a = None ->
  is_pointer sg = true -> e !! sg = None ->
  0 < n_pages_of (buf_size buffer) ->
  ion_system_heap_map_dma buffer (KState (a :: sg :: tail) h P e t)
  = (let* ret :=
       map_dma_loop (Z.to_nat (n_pages_of (buf_size buffer))) sg 0
         (buf_priv_virt buffer) in
     if negb (ret =? 0)
     then sg_free_table a ;; kfree a ;; kret (ERR_PTR ret)
     else kret a)
      (KState tail
         (<[a := Block sizeof_sg_table
                   [Some sg; Some (n_pages_of (buf_size buffer));
                    Some (n_pages_of (buf_size buffer))]]> h)
         P (<[sg := replicate (Z.to_nat (n_pages_of (buf_size buffer)))
                              (Scatterlist 0 0 0)]> e) t).
Proof.
  intros Ha Hh Hsg He Hn.
  assert (Hb := n_pages_of_bounds (buf_size buffer)).
  unfold ion_system_heap_map_dma.
  set (n := n_pages_of (buf_size buffer)) in *.
  assert (Hu : ulong n = n) by (apply Z.mod_small; unfold BITS_PER_LONG; lia).
  rewrite Hu. unfold kzalloc.
  rewrite (kbind_done _ _ _ _ _
             (kmalloc_ok true sizeof_sg_table a _ h P e t ltac:(done) Ha Hh)).
  rewrite is_pointer_nonzero by done. unfold kmalloc_block.
  change (replicate _ (if true then Some 0 else None))
    with [Some 0; Some 0; Some 0].
  destruct (sg_alloc_table_spec a n (sg :: tail) h P e t
              (Some 0) (Some 0) (Some 0)) as
    [(ret & _ & _ & [[Hz _] | (_ & _ & [Hr | Hr])])
    | (sgl & o'' & [= <- <-] & _ & _ & _ & Hrun)].
  - lia.
  - congruence.
  - rewrite He in Hr. by destruct Hr.
  - rewrite (kbind_done _ _ _ _ _ Hrun). cbn [Z.eqb negb].
    rewrite (kbind_done _ _ _ _ _
               (load_word_ok a 0 sg tail h P _ t sizeof_sg_table
                  [] [Some n; Some n] eq_refl)).
    rewrite (kbind_done _ _ _ _ _
               (load_word_ok a 1 n tail h P _ t sizeof_sg_table
                  [Some sg] [Some n] eq_refl)).
    reflexivity.
Qed.

(** X4: when the description and its entry table are obtained and every
    step of the walk from [buffer->priv_virt] finds a page,
    [ion_system_heap_map_dma] returns the description, whose table has
    [n_pages] entries: entry [j] holds the page found [j] pages after
    [priv_virt], with length [PAGE_SIZE] and offset 0.  Nothing else
    changes. *)
Theorem map_dma_entries
    (s : kstate) (buffer : ion_buffer) (a sg : Z) (tail : list Z) :
  oracle s = a :: sg :: tail ->
  is_pointer a = true -> kheap s !! a = None ->
  is_pointer sg = true -> sg_ents s !! sg = None ->
  0 < n_pages_of (buf_size buffer) ->
  0 <= buf_priv_virt buffer < 2 ^ BITS_PER_LONG ->
  dma_walk_ok (kpt s) (buf_priv_virt buffer)
              (Z.to_nat (n_pages_of (buf_size buffer))) = true ->
  exists s',
    ion_system_heap_map_dma buffer s = Done a s' /\
    sg_entries s' a
    = Some (dma_entries (kpt s) (buf_priv_virt buffer) 0
                        (Z.to_nat (n_pages_of (buf_size buffer)))) /\
    oracle s' = tail /\ pages_held s' = pages_held s /\ kpt s' = kpt s /\
    kheap s' = <[a := Block sizeof_sg_table
                        [Some sg; Some (n_pages_of (buf_size buffer));
                         Some (n_pages_of (buf_size buffer))]]> (kheap s) /\
    delete sg (sg_ents s') = sg_ents s.
Proof.
  destruct s as [o h P e t]; cbn [oracle kheap pages_held sg_ents kpt].
  intros -> Ha Hh Hsg He Hn Hv Hwalk.
  rewrite (map_dma_allocated buffer a sg tail h P e t) by done.
  assert (Hloop := map_dma_loop_walk
                     (Z.to_nat (n_pages_of (buf_size buffer))) 0
                     (buf_priv_virt buffer)
                     (replicate (Z.to_nat (n_pages_of (buf_size buffer)))
                                (Scatterlist 0 0 0))
                     tail
                     (<[a := Block sizeof_sg_table
                               [Some sg; Some (n_pages_of (buf_size buffer));
                                Some (n_pages_of (buf_size buffer))]]> h)
                     P e t sg
                     ltac:(rewrite length_replicate; lia) Hwalk).
  change (Z.of_nat 0) with 0 in Hloop.
  replace (ulong (buf_priv_virt buffer + 0 * PAGE_SIZE))
    with (buf_priv_virt buffer) in Hloop
    by (unfold ulong, BITS_PER_LONG in *; rewrite Z.mod_small; lia).
  rewrite (kbind_done _ _ _ _ _ Hloop).
  cbn [Z.eqb negb]. unfold kret. eexists. split; [reflexivity|].
  cbn [oracle kheap pages_held sg_ents kpt].
  split.
  - unfold sg_entries. cbn [kheap sg_ents]. rewrite lookup_insert_eq.
    rewrite lookup_insert_eq. cbn [take app Nat.add].
    rewrite drop_ge by (rewrite length_replicate; lia).
    rewrite app_nil_r. reflexivity.
  - repeat split; auto. by rewrite delete_insert_id.
Qed.

(** X5: when a step of the walk finds no page, [map_dma] fails with
    [ERR_PTR(-ENOMEM)] although both allocations succeeded, and releases
    the entry table and the description. *)
Theorem map_dma_walk_failure
    (s : kstate) (buffer : ion_buffer) (a sg : Z) (tail : list Z) :
  oracle s = a :: sg :: tail ->
  is_pointer a = true -> kheap s !! a = None ->
  is_pointer sg = true -> sg_ents s !! sg = None ->
  0 < n_pages_of (buf_size buffer) ->
  0 <= buf_priv_virt buffer < 2 ^ BITS_PER_LONG ->
  dma_walk_ok (kpt s) (buf_priv_virt buffer)
              (Z.to_nat (n_pages_of (buf_size buffer))) = false ->
  ion_system_heap_map_dma buffer s
  = Done (ERR_PTR (- ENOMEM)) (set_oracle tail s).
Proof.
  destruct s as [o h P e t]; cbn [oracle kheap pages_held sg_ents kpt].
  intros -> Ha Hh Hsg He Hn Hv Hwalk.
  rewrite (map_dma_allocated buffer a sg tail h P e t) by done.
  destruct (map_dma_loop_stops (Z.to_nat (n_pages_of (buf_size buffer))) 0
              (buf_priv_virt buffer)
              (replicate (Z.to_nat (n_pages_of (buf_size buffer)))
                         (Scatterlist 0 0 0))
              tail
              (<[a := Block sizeof_sg_table
                        [Some sg; Some (n_pages_of (buf_size buffer));
                         Some (n_pages_of (buf_size buffer))]]> h)
              P e t sg ltac:(rewrite length_replicate; lia) Hwalk)
    as (l' & Hloop).
  change (Z.of_nat 0) with 0 in Hloop.
  replace (ulong (buf_priv_virt buffer + 0 * PAGE_SIZE))
    with (buf_priv_virt buffer) in Hloop
    by (unfold ulong, BITS_PER_LONG in *; rewrite Z.mod_small; lia).
  rewrite (kbind_done _ _ _ _ _ Hloop).
  change (negb (- ENOMEM =? 0)) with true. cbv iota.
  erewrite kbind_done by (by apply sg_free_table_ok).
  erewrite kbind_done by (by apply kfree_ok). reflexivity.
Qed.

Lemma map_dma_entries_witness :
  let s := KState [3222274048; 3223322624]
             {[3221225472 := Block 8 [Some 3238002688; Some 3238002720]]}
             {[3238002688; 3238002720]} ∅
             {[786432 := 3238035456; 786433 := 3238035488]} in
  let buffer := IonBuffer 8192 3221225472 0 0 in
  exists s',
    ion_system_heap_map_dma buffer s = Done 3222274048 s' /\
    sg_entries s' 3222274048
    = Some (dma_entries (kpt s) (buf_priv_virt buffer) 0
                        (Z.to_nat (n_pages_of (buf_size buffer)))) /\
    oracle s' = [] /\ pages_held s' = pages_held s /\ kpt s' = kpt s /\
    kheap s' = <[3222274048 := Block sizeof_sg_table
                        [Some 3223322624; Some (n_pages_of (buf_size buffer));
                         Some (n_pages_of (buf_size buffer))]]> (kheap s) /\
    delete 3223322624 (sg_ents s') = sg_ents s.
Proof.
  intros s buffer.
  apply (map_dma_entries s buffer 3222274048 3223322624 []).
  - reflexivity.
  - reflexivity.
  - vm_compute. reflexivity.
  - reflexivity.
  - vm_compute. reflexivity.
  - reflexivity.
  - vm_compute. split; [discriminate | reflexivity].
  - vm_compute. reflexivity.
Defined.

Lemma map_dma_walk_failure_witness :
  let s := KState [3222274048; 3223322624]
             {[3221225472 := Block 8 [Some 3238002688; Some 3238002720]]}
             {[3238002688; 3238002720]} ∅ {[786432 := 3238035456]} in
  ion_system_heap_map_dma (IonBuffer 8192 3221225472 0 0) s
  = Done (ERR_PTR (- ENOMEM)) (set_oracle [] s).
Proof.
  intros s.
  apply (map_dma_walk_failure s (IonBuffer 8192 3221225472 0 0)
           3222274048 3223322624 []).
  - reflexivity.
  - reflexivity.
  - vm_compute. reflexivity.
  - reflexivity.
  - vm_compute. reflexivity.
  - reflexivity.
  - vm_compute. split; [discriminate | reflexivity].
  - vm_compute. reflexivity.
Defined.

(** X6: a whole life of a page-list buffer.  Whenever [allocate] (of at
    least one page) and then [map_dma] succeed, [unmap_dma] on the
    recorded description and then [free] both return, and the state holds
    again exactly the resources it held before the allocation: the device
    mapping takes nothing from the backing pages and leaves nothing
    behind. *)
Theorem buffer_life_cycle_releases_all
    (s : kstate) (buffer : ion_buffer) (size align flags : Z)
    (b1 : ion_buffer) (s1 : kstate) (table : Z) (s2 : kstate) :
  0 < n_pages_of size -> kheap s !! 0 = None ->
  ion_system_heap_allocate buffer size align flags s = Done (0, b1) s1 ->
  ion_system_heap_map_dma (set_size size b1) s1 = Done table s2 ->
  IS_ERR table = false ->
  exists s3 s4,
    ion_system_heap_unmap_dma (set_sg_table table (set_size size b1)) s2
    = Done tt s3 /\
    ion_system_heap_free (set_sg_table table (set_size size b1)) s3
    = Done tt s4 /\
    same_resources s s4.
Proof.
  intros Hn Hnull Halloc Hmap Herr.
  apply allocate_success in Halloc
    as (a & ps & tail & Ho & Ha & Hh & Hlen & [Hnd Hall] & -> & ->); try done.
  destruct (map_dma_spec (set_size size (set_priv_virt a buffer))
              (KState tail
                 (<[a := Block (n_pages_of size * 4) (map Some ps)]> (kheap s))
                 (list_to_set ps ∪ pages_held s) (sg_ents s) (kpt s)))
    as (r' & s2' & Hrun' & _ & _ & _ & Hok).
  rewrite Hmap in Hrun'. injection Hrun' as <- <-.
  destruct (Hok Herr) as (sgl & l & o' & Hr & Hht & Hsgl & He & ->).
  cbn [kheap sg_ents pages_held kpt] in *.
  unfold ion_system_heap_unmap_dma.
  cbn [set_sg_table buf_sg_table].
  rewrite is_pointer_nonzero by done. cbn [negb].
  erewrite kbind_done by (by apply sg_free_table_ok).
  rewrite kfree_ok by done.
  eexists _, _. split; [reflexivity|].
  unfold ion_system_heap_free.
  cbn [buf_size set_size set_sg_table buf_priv_virt set_priv_virt].
  rewrite <- Hlen, Nat2Z.id.
  erewrite kbind_done.
  2:{ apply (free_loop_ok ps []); [done|].
      intros p Hp. rewrite Forall_forall in Hall. apply (Hall p Hp). }
  rewrite kfree_ok by done.
  split; [reflexivity|]. by repeat split.
Qed.

Lemma buffer_life_cycle_releases_all_witness :
  let s := KState [3221225472; 3238002688; 3238002720; 3222274048; 3223322624]
                  ∅ ∅ ∅ {[786432 := 3238035456; 786433 := 3238035488]} in
  let b1 := IonBuffer 0 3221225472 0 0 in
  exists s3 s4,
    ion_system_heap_unmap_dma (set_sg_table 3222274048 (set_size 8192 b1))
      (KState []
         {[3221225472 := Block 8 [Some 3238002688; Some 3238002720];
           3222274048 := Block 12 [Some 3223322624; Some 2; Some 2]]}
         {[3238002688; 3238002720]}
         {[3223322624 := [Scatterlist 3238035456 4096 0;
                          Scatterlist 3238035488 4096 0]]}
         {[786432 := 3238035456; 786433 := 3238035488]})
    = Done tt s3 /\
    ion_system_heap_free (set_sg_table 3222274048 (set_size 8192 b1)) s3
    = Done tt s4 /\
    same_resources s s4.
Proof.
  intros s b1.
  apply (buffer_life_cycle_releases_all s (IonBuffer 0 0 0 0) 8192 0 0 b1
           (KState [3222274048; 3223322624]
              {[3221225472 := Block 8 [Some 3238002688; Some 3238002720]]}
              {[3238002688; 3238002720]} ∅
              {[786432 := 3238035456; 786433 := 3238035488]})).
  - reflexivity.
  - reflexivity.
  - vm_compute. reflexivity.
  - vm_compute. reflexivity.
  - reflexivity.
Defined.

(** ** The page-list heap: kernel mappings *)

Lemma load_words_pages ps2 : forall ps1 a s bytes,
  kheap s !! a = Some (Block bytes (map Some (ps1 ++ ps2))) ->
  load_words (length ps2) a (Z.of_nat (length ps1)) s = Done ps2 s.
Proof.
  induction ps2 as [|p ps2 IH]; intros ps1 a s bytes Hb; [reflexivity|].
  cbn [length load_words].
  erewrite kbind_done.
  2:{ eapply load_word_lookup; [exact Hb | lia|]. cbn [blk_words].
      rewrite Nat2Z.id, map_app. cbn [map].
      apply list_lookup_middle. by rewrite length_map. }
  replace (Z.of_nat (length ps1) + 1) with (Z.of_nat (length (ps1 ++ [p])))
    by (rewrite length_app; simpl; lia).
  erewrite kbind_done; [reflexivity|].
  eapply IH. rewrite <- app_assoc. exact Hb.
Qed.

Lemma load_words_state k : forall a i s ps s',
  load_words k a i s = Done ps s' -> s' = s /\ length ps = k.
Proof.
  induction k as [|k IH]; intros a i s ps s' Hrun.
  - cbn in Hrun. injection Hrun as <- <-. done.
  - cbn [load_words] in Hrun. unfold kbind in Hrun.
    unfold load_word at 1 in Hrun.
    destruct (i <? 0); [discriminate|].
    destruct (kheap s !! a) as [b|]; [|discriminate].
    destruct (blk_words b !! Z.to_nat i) as [[v|]|]; try discriminate.
    destruct (load_words k a (i + 1) s) as [ps1 s1|] eqn:Hk; [|discriminate].
    apply IH in Hk as [-> <-]. injection Hrun as <- <-. done.
Qed.

Lemma install_pages_outside ps : forall v t k,
  k < v \/ v + Z.of_nat (length ps) <= k ->
  install_pages ps v t !! k = t !! k.
Proof.
  induction ps as [|p ps IH]; intros v t k Hk; [reflexivity|].
  cbn [install_pages length] in *.
  rewrite lookup_insert_ne by lia. apply IH. lia.
Qed.

Lemma install_pages_lookup ps : forall v t k p,
  ps !! k = Some p -> install_pages ps v t !! (v + Z.of_nat k) = Some p.
Proof.
  induction ps as [|q ps IH]; intros v t k p Hk; [done|].
  cbn [install_pages]. destruct k as [|k].
  - injection Hk as ->. rewrite Z.add_0_r. apply lookup_insert_eq.
  - rewrite lookup_insert_ne by lia.
    replace (v + Z.of_nat (S k)) with (v + 1 + Z.of_nat k) by lia.
    by apply IH.
Qed.

Lemma remove_pages_insert_below k : forall w v p (t : gmap Z Z),
  v < w -> remove_pages k w (<[v := p]> t) = <[v := p]> (remove_pages k w t).
Proof.
  induction k as [|k IH]; intros w v p t Hv; [reflexivity|].
  cbn [remove_pages]. rewrite IH by lia.
  rewrite delete_insert_ne by lia. reflexivity.
Qed.

Lemma remove_install_pages ps : forall v t,
  range_unmapped (length ps) v t = true ->
  remove_pages (length ps) v (install_pages ps v t) = t.
Proof.
  induction ps as [|p ps IH]; intros v t Hfree; [reflexivity|].
  cbn [length range_unmapped] in Hfree.
  apply andb_true_iff in Hfree as [Hv Hfree]. apply bool_decide_eq_true in Hv.
  cbn [length remove_pages install_pages].
  rewrite remove_pages_insert_below by lia.
  rewrite IH by done. by apply delete_insert_id.
Qed.

Lemma vpn_offset (a : Z) (k : nat) :
  Z.shiftr (a + Z.of_nat k * PAGE_SIZE) PAGE_SHIFT
  = Z.shiftr a PAGE_SHIFT + Z.of_nat k.
Proof.
  unfold PAGE_SHIFT. rewrite !Z.shiftr_div_pow2, PAGE_SIZE_eq by lia.
  change (2 ^ 12) with 4096. apply Z.div_add. lia.
Qed.

Lemma map_kernel_installs_pages
    (s : kstate) (buffer : ion_buffer) (bytes : Z) (ps : list Z)
    (a : Z) (tail : list Z) :
  kheap s !! buf_priv_virt buffer = Some (Block bytes (map Some ps)) ->
  Z.of_nat (length ps) = n_pages_of (buf_size buffer) ->
  Forall (fun p => p <> 0) ps ->
  oracle s = a :: tail ->
  is_pointer a = true -> a mod PAGE_SIZE = 0 ->
  range_unmapped (length ps) (Z.shiftr a PAGE_SHIFT) (kpt s) = true ->
  exists s',
    ion_system_heap_map_kernel buffer s = Done a s' /\
    s' = KState tail (kheap s) (pages_held s) (sg_ents s)
           (install_pages ps (Z.shiftr a PAGE_SHIFT) (kpt s)) /\
    (forall k p, ps !! k = Some p ->
       vmalloc_to_page (a + Z.of_nat k * PAGE_SIZE) s' = Done p s') /\
    (forall v, v < Z.shiftr a PAGE_SHIFT \/
               Z.shiftr a PAGE_SHIFT + Z.of_nat (length ps) <= v ->
       kpt s' !! v = kpt s !! v).
Proof.
  destruct s as [o h P e t]; cbn [oracle kheap pages_held sg_ents kpt].
  intros Hb Hlen Hnz -> Ha Hal Hfree.
  assert (Hbn := n_pages_of_bounds (buf_size buffer)).
  unfold ion_system_heap_map_kernel, vm_map_ram.
  unfold ulong, BITS_PER_LONG. rewrite Z.mod_small by lia.
  rewrite <- Hlen, Nat2Z.id.
  rewrite (kbind_done _ _ _ _ _
             (load_words_pages ps [] _ (KState (a :: tail) h P e t) bytes Hb)).
  rewrite kbind_next_choice. cbn [hd tl kpt].
  rewrite Ha, Hfree. apply Z.eqb_eq in Hal. rewrite Hal.
  assert (Hall : forallb (fun p => negb (p =? 0)) ps = true).
  { apply forallb_forall. intros p Hp. rewrite Forall_forall in Hnz.
    apply negb_true_iff, Z.eqb_neq, Hnz. by apply list_elem_of_In. }
  rewrite Hall. cbn [andb].
  eexists. split; [reflexivity|]. split; [reflexivity|]. split.
  - intros k p Hk. unfold vmalloc_to_page. cbn [kpt set_kpt].
    rewrite vpn_offset, (install_pages_lookup ps _ _ k p Hk). reflexivity.
  - intros v Hv. cbn [kpt set_kpt]. by apply install_pages_outside.
Qed.

(** X7: on a buffer whose backing list is [ps], with a free, page-aligned
    kernel range on offer at [a], [ion_system_heap_map_kernel] returns [a]
    and maps the pages of the list in list order: the page table walk at
    [a + k * PAGE_SIZE] finds backing page [k].  Heap, pages held and the
    rest of the page table are as before. *)
Theorem map_kernel_maps_list_in_order
    (s : kstate) (buffer : ion_buffer) (bytes : Z) (ps : list Z)
    (a : Z) (tail : list Z) :
  kheap s !! buf_priv_virt buffer = Some (Block bytes (map Some ps)) ->
  Z.of_nat (length ps) = n_pages_of (buf_size buffer) ->
  Forall (fun p => p <> 0) ps ->
  oracle s = a :: tail ->
  is_pointer a = true -> a mod PAGE_SIZE = 0 ->
  range_unmapped (length ps) (Z.shiftr a PAGE_SHIFT) (kpt s) = true ->
  exists s',
    ion_system_heap_map_kernel buffer s = Done a s' /\
    s' = KState tail (kheap s) (pages_held s) (sg_ents s)
           (install_pages ps (Z.shiftr a PAGE_SHIFT) (kpt s)) /\
    (forall k p, ps !! k = Some p ->
       vmalloc_to_page (a + Z.of_nat k * PAGE_SIZE) s' = Done p s') /\
    (forall v, v < Z.shiftr a PAGE_SHIFT \/
               Z.shiftr a PAGE_SHIFT + Z.of_nat (length ps) <= v ->
       kpt s' !! v = kpt s !! v).
Proof. apply map_kernel_installs_pages. Qed.

Lemma map_kernel_maps_list_in_order_witness :
  let s := KState [3758096384]
             {[3221225472 := Block 8 [Some 3238002688; Some 3238002720]]}
             {[3238002688; 3238002720]} ∅ ∅ in
  let buffer := IonBuffer 8192 3221225472 0 0 in
  let ps := [3238002688; 3238002720] in
  exists s',
    ion_system_heap_map_kernel buffer s = Done 3758096384 s' /\
    s' = KState [] (kheap s) (pages_held s) (sg_ents s)
           (install_pages ps (Z.shiftr 3758096384 PAGE_SHIFT) (kpt s)) /\
    (forall k p, ps !! k = Some p ->
       vmalloc_to_page (3758096384 + Z.of_nat k * PAGE_SIZE) s' = Done p s') /\
    (forall v, v < Z.shiftr 3758096384 PAGE_SHIFT \/
               Z.shiftr 3758096384 PAGE_SHIFT + Z.of_nat (length ps) <= v ->
       kpt s' !! v = kpt s !! v).
Proof.
  intros s buffer ps.
  apply (map_kernel_maps_list_in_order s buffer 8 ps 3758096384 []).
  - vm_compute. reflexivity.
  - reflexivity.
  - repeat constructor; discriminate.
  - reflexivity.
  - reflexivity.
  - reflexivity.
  - vm_compute. reflexivity.
Defined.

(** X8: [ion_system_heap_unmap_kernel] undoes [ion_system_heap_map_kernel]:
    on the buffer that records the returned address it removes exactly the
    pages the mapping entered, and the page table is again the one before
    the mapping. *)
Theorem map_unmap_kernel_round_trip
    (s : kstate) (buffer : ion_buffer) (bytes : Z) (ps : list Z)
    (a : Z) (tail : list Z) :
  kheap s !! buf_priv_virt buffer = Some (Block bytes (map Some ps)) ->
  Z.of_nat (length ps) = n_pages_of (buf_size buffer) ->
  Forall (fun p => p <> 0) ps ->
  oracle s = a :: tail ->
  is_pointer a = true -> a mod PAGE_SIZE = 0 ->
  range_unmapped (length ps) (Z.shiftr a PAGE_SHIFT) (kpt s) = true ->
  (let* vaddr := ion_system_heap_map_kernel buffer in
   ion_system_heap_unmap_kernel (set_vaddr vaddr buffer)) s
  = Done tt (set_oracle tail s).
Proof.
  intros Hb Hlen Hnz Ho Ha Hal Hfree.
  destruct (map_kernel_installs_pages s buffer bytes ps a tail)
    as (s' & Hrun & -> & _); try done.
  rewrite (kbind_done _ _ _ _ _ Hrun).
  assert (Hbn := n_pages_of_bounds (buf_size buffer)).
  unfold ion_system_heap_unmap_kernel, vm_unmap_ram.
  cbn [buf_size buf_vaddr set_vaddr kpt set_kpt oracle kheap pages_held sg_ents].
  unfold ulong, BITS_PER_LONG. rewrite Z.mod_small by lia.
  rewrite <- Hlen, Nat2Z.id, remove_install_pages by done.
  destruct s; reflexivity.
Qed.

Lemma map_unmap_kernel_round_trip_witness :
  let s := KState [3758096384]
             {[3221225472 := Block 8 [Some 3238002688; Some 3238002720]]}
             {[3238002688; 3238002720]} ∅ {[7 := 3238035456]} in
  let buffer := IonBuffer 8192 3221225472 0 0 in
  (let* vaddr := ion_system_heap_map_kernel buffer in
   ion_system_heap_unmap_kernel (set_vaddr vaddr buffer)) s
  = Done tt (set_oracle [] s).
Proof.
  intros s buffer.
  apply (map_unmap_kernel_round_trip s buffer 8 [3238002688; 3238002720]
           3758096384 []).
  - vm_compute. reflexivity.
  - reflexivity.
  - repeat constructor; discriminate.
  - reflexivity.
  - reflexivity.
  - reflexivity.
  - vm_compute. reflexivity.
Defined.

(** X9: [ion_system_heap_map_kernel] acquires and releases nothing: however
    it returns, the heap, the pages held and the scatterlists are as
    before, and a NULL return leaves the page table as it was too. *)
Theorem map_kernel_touches_page_table_only
    (s : kstate) (buffer : ion_buffer) (r : Z) (s' : kstate) :
  ion_system_heap_map_kernel buffer s = Done r s' ->
  kheap s' = kheap s /\ pages_held s' = pages_held s /\
  sg_ents s' = sg_ents s /\
  (r = 0 -> kpt s' = kpt s).
Proof.
  assert (Hbn := n_pages_of_bounds (buf_size buffer)).
  unfold ion_system_heap_map_kernel, vm_map_ram.
  unfold ulong, BITS_PER_LONG. rewrite Z.mod_small by lia.
  intros Hrun. unfold kbind at 1 in Hrun.
  destruct (load_words _ _ 0 s) as [ps s1|] eqn:Hload; [|discriminate].
  apply load_words_state in Hload as [-> Hlen].
  destruct s as [o h P e t]. rewrite kbind_next_choice in Hrun.
  cbn [kpt] in Hrun.
  destruct (is_pointer (hd 0 o)) eqn:Hptr; cbn [andb] in Hrun;
    [|injection Hrun as <- <-; repeat split; done].
  destruct (_ && _ && _); injection Hrun as <- <-; [|repeat split; done].
  cbn [kheap pages_held sg_ents kpt set_kpt]. repeat split; try done.
  intros H0. apply is_pointer_nonzero, Z.eqb_neq in Hptr. done.
Qed.

Lemma map_kernel_touches_page_table_only_witness :
  let s := KState [3758096384]
             {[3221225472 := Block 8 [Some 3238002688; Some 3238002720]]}
             {[3238002688; 3238002720]} ∅ {[917504 := 3238035456]} in
  let buffer := IonBuffer 8192 3221225472 0 0 in
  kheap (set_oracle [] s) = kheap s /\
  pages_held (set_oracle [] s) = pages_held s /\
  sg_ents (set_oracle [] s) = sg_ents s /\
  (0 = 0 -> kpt (set_oracle [] s) = kpt s).
Proof.
  intros s buffer.
  apply (map_kernel_touches_page_table_only s buffer 0 (set_oracle [] s)).
  vm_compute. reflexivity.
Defined.

(** ** The page-list heap: process mappings of whole pages *)

Lemma enter_pages_lookup m : forall v p (t : gmap Z Z) k,
  enter_pages m v p t !! k
  = if (v <=? k) && (k <? v + Z.of_nat m) then Some p else t !! k.
Proof.
  induction m as [|m IH]; intros v p t k.
  - cbn [enter_pages]. destruct (Z.leb_spec v k), (Z.ltb_spec k (v + Z.of_nat 0));
      cbn [andb]; try reflexivity. lia.
  - cbn [enter_pages]. rewrite IH.
    destruct (decide (k = v)) as [-> | Hne].
    + destruct (Z.leb_spec (v + 1) v); [lia|]. cbn [andb].
      rewrite lookup_insert_eq.
      destruct (Z.leb_spec v v), (Z.ltb_spec v (v + Z.of_nat (S m)));
        cbn [andb]; try reflexivity; lia.
    + rewrite lookup_insert_ne by done.
      destruct (Z.leb_spec (v + 1) k), (Z.ltb_spec k (v + 1 + Z.of_nat m)),
               (Z.leb_spec v k), (Z.ltb_spec k (v + Z.of_nat (S m)));
        cbn [andb]; try reflexivity; lia.
Qed.

Lemma vpn_next (uaddr : Z) :
  Z.shiftr (uaddr + 4096) PAGE_SHIFT = Z.shiftr uaddr PAGE_SHIFT + 1.
Proof.
  unfold PAGE_SHIFT. rewrite !Z.shiftr_div_pow2 by lia.
  change (2 ^ 12) with 4096.
  replace (uaddr + 4096) with (uaddr + 1 * 4096) by lia.
  apply Z.div_add. lia.
Qed.

Lemma vm_insert_page_free vma uaddr p :
  vm_start vma <= uaddr < vm_end vma ->
  vm_ptes vma !! Z.shiftr uaddr PAGE_SHIFT = None ->
  vm_insert_page vma uaddr p
  = (0, set_vm_ptes (<[Z.shiftr uaddr PAGE_SHIFT := p]> (vm_ptes vma)) vma).
Proof.
  intros Hr Hf. unfold vm_insert_page.
  destruct (Z.ltb_spec uaddr (vm_start vma)); [lia|].
  destruct (Z.leb_spec (vm_end vma) uaddr); [lia|].
  cbn [orb]. rewrite Hf. reflexivity.
Qed.

Lemma vm_insert_page_busy vma uaddr p x :
  vm_start vma <= uaddr < vm_end vma ->
  vm_ptes vma !! Z.shiftr uaddr PAGE_SHIFT = Some x ->
  vm_insert_page vma uaddr p = (- EBUSY, vma).
Proof.
  intros Hr Hf. unfold vm_insert_page.
  destruct (Z.ltb_spec uaddr (vm_start vma)); [lia|].
  destruct (Z.leb_spec (vm_end vma) uaddr); [lia|].
  cbn [orb]. rewrite Hf. reflexivity.
Qed.

Lemma map_user_loop_S fuel vma uaddr usize page_list i :
  map_user_loop (S fuel) vma uaddr usize page_list i
  = (let* page := load_word page_list i in
     let '(ret, vma) := vm_insert_page vma uaddr page in
     if negb (ret =? 0) then kret (Some (Some ret, vma))
     else
       let uaddr := ulong (uaddr + PAGE_SIZE) in
       let usize := ulong (usize - PAGE_SIZE) in
       if usize >? 0
       then map_user_loop fuel vma uaddr usize page_list i
       else kret (Some (None, vma))).
Proof. reflexivity. Qed.

(** [m + 1] whole pages, all free: the loop enters them one by one and
    ends by its test. *)
Lemma map_user_loop_enters m : forall x vma uaddr usize page_list i s p,
  load_word page_list i s = Done p s ->
  usize = (Z.of_nat m + 1) * 4096 ->
  vm_start vma <= uaddr -> uaddr + usize <= vm_end vma ->
  vm_end vma < 2 ^ 32 -> 0 <= uaddr ->
  (forall k, (k <= m)%nat ->
     vm_ptes vma !! (Z.shiftr uaddr PAGE_SHIFT + Z.of_nat k) = None) ->
  map_user_loop (S m + x) vma uaddr usize page_list i s
  = Done (Some (None,
                set_vm_ptes (enter_pages (S m) (Z.shiftr uaddr PAGE_SHIFT) p
                                         (vm_ptes vma)) vma)) s.
Proof.
  induction m as [|m IH];
    intros x vma uaddr usize page_list i s p Hp Hu Hs He Hlt H0 Hfree;
    rewrite Nat.add_succ_l, map_user_loop_S, (kbind_done _ _ _ _ _ Hp);
    (rewrite vm_insert_page_free;
       [|lia|specialize (Hfree 0%nat ltac:(lia));
              by rewrite Z.add_0_r in Hfree]);
    cbn [Z.eqb negb]; cbv zeta; rewrite PAGE_SIZE_eq;
    unfold ulong, BITS_PER_LONG; rewrite !Z.mod_small by lia.
  - subst usize. cbn. reflexivity.
  - destruct (Z.gtb_spec (usize - 4096) 0); [|lia].
    rewrite (IH x _ _ _ _ _ _ p); try done; cbn [vm_start vm_end set_vm_ptes vm_ptes];
      try lia.
    + rewrite vpn_next. reflexivity.
    + intros k Hk. rewrite vpn_next, lookup_insert_ne by lia.
      replace (Z.shiftr uaddr PAGE_SHIFT + 1 + Z.of_nat k)
        with (Z.shiftr uaddr PAGE_SHIFT + Z.of_nat (S k)) by lia.
      apply Hfree. lia.
Qed.

(** [f] free pages and then a page that is already mapped: the loop enters
    the [f] pages and returns [-EBUSY], leaving them entered. *)
Lemma map_user_loop_busy f : forall x vma uaddr usize page_list i s p y,
  load_word page_list i s = Done p s ->
  Z.of_nat f * 4096 < usize < 2 ^ 32 ->
  vm_start vma <= uaddr -> uaddr + (Z.of_nat f + 1) * 4096 <= vm_end vma ->
  vm_end vma < 2 ^ 32 -> 0 <= uaddr ->
  (forall k, (k < f)%nat ->
     vm_ptes vma !! (Z.shiftr uaddr PAGE_SHIFT + Z.of_nat k) = None) ->
  vm_ptes vma !! (Z.shiftr uaddr PAGE_SHIFT + Z.of_nat f) = Some y ->
  map_user_loop (S f + x) vma uaddr usize page_list i s
  = Done (Some (Some (- EBUSY),
                set_vm_ptes (enter_pages f (Z.shiftr uaddr PAGE_SHIFT) p
                                         (vm_ptes vma)) vma)) s.
Proof.
  induction f as [|f IH];
    intros x vma uaddr usize page_list i s p y Hp Hu Hs He Hlt H0 Hfree Hbusy;
    rewrite Nat.add_succ_l, map_user_loop_S, (kbind_done _ _ _ _ _ Hp).
  - rewrite Z.add_0_r in Hbusy.
    rewrite (vm_insert_page_busy _ _ _ y) by (done || lia).
    cbn. destruct vma; reflexivity.
  - rewrite vm_insert_page_free;
      [|lia|specialize (Hfree 0%nat ltac:(lia));
             by rewrite Z.add_0_r in Hfree].
    cbn [Z.eqb negb]. cbv zeta. rewrite PAGE_SIZE_eq.
    unfold ulong, BITS_PER_LONG. rewrite !Z.mod_small by lia.
    destruct (Z.gtb_spec (usize - 4096) 0); [|lia].
    rewrite (IH x _ _ _ _ _ _ p y); try done;
      cbn [vm_start vm_end set_vm_ptes vm_ptes]; try lia.
    + rewrite vpn_next. reflexivity.
    + intros k Hk. rewrite vpn_next, lookup_insert_ne by lia.
      replace (Z.shiftr uaddr PAGE_SHIFT + 1 + Z.of_nat k)
        with (Z.shiftr uaddr PAGE_SHIFT + Z.of_nat (S k)) by lia.
      apply Hfree. lia.
    + rewrite vpn_next, lookup_insert_ne by lia.
      replace (Z.shiftr uaddr PAGE_SHIFT + 1 + Z.of_nat f)
        with (Z.shiftr uaddr PAGE_SHIFT + Z.of_nat (S f)) by lia.
      exact Hbusy.
Qed.

Lemma map_user_check_passes (buffer : ion_buffer) (usize : Z) :
  usize <= n_pages_of (buf_size buffer) * PAGE_SIZE ->
  (usize >? ulong (Z.shiftl (n_pages_of (buf_size buffer)) PAGE_SHIFT)) = false.
Proof.
  intros H. rewrite n_pages_shift.
  destruct (Z.gtb_spec usize (n_pages_of (buf_size buffer) * PAGE_SIZE));
    [lia | reflexivity].
Qed.

(** X10: a range of [q] whole pages, [1 <= q <= n_pages], none of them
    mapped yet: with fuel for [q] iterations or more
    [ion_system_heap_map_user] returns 0, the [q] user pages from the base
    of the range on are entered, each with backing page 0, [VM_RESERVED]
    is set, and no other entry of the area changes. *)
Theorem map_user_whole_pages
    (fuel : nat) (buffer : ion_buffer) (vma : vm_area_struct) (s : kstate)
    (p0 q : Z) :
  load_word (buf_priv_virt buffer) 0 s = Done p0 s ->
  1 <= q <= n_pages_of (buf_size buffer) ->
  0 <= vm_start vma -> vm_end vma = vm_start vma + q * PAGE_SIZE ->
  vm_end vma < 2 ^ 32 ->
  (forall k, 0 <= k < q ->
     vm_ptes vma !! (Z.shiftr (vm_start vma) PAGE_SHIFT + k) = None) ->
  (Z.to_nat q <= fuel)%nat ->
  exists vma',
    ion_system_heap_map_user fuel buffer vma s = Done (Some (0, vma')) s /\
    Z.land (vm_flags vma') VM_RESERVED = VM_RESERVED /\
    (forall k,
       vm_ptes vma' !! k
       = if (Z.shiftr (vm_start vma) PAGE_SHIFT <=? k)
            && (k <? Z.shiftr (vm_start vma) PAGE_SHIFT + q)
         then Some p0 else vm_ptes vma !! k).
Proof.
  intros Hp Hq Hs He Hlt Hfree Hfuel. rewrite PAGE_SIZE_eq in He.
  assert (Hlen : ulong (vm_end vma - vm_start vma) = q * 4096).
  { unfold ulong, BITS_PER_LONG. rewrite Z.mod_small; lia. }
  unfold ion_system_heap_map_user. rewrite Hlen.
  rewrite map_user_check_passes by (rewrite PAGE_SIZE_eq; lia).
  replace fuel with (S (Z.to_nat q - 1) + (fuel - Z.to_nat q))%nat by lia.
  erewrite kbind_done.
  2:{ apply (map_user_loop_enters (Z.to_nat q - 1) _ vma (vm_start vma)
               (q * 4096) _ 0 s p0); try done; try lia.
      intros k Hk. apply Hfree. lia. }
  unfold kret. eexists. split; [reflexivity|].
  cbn [vm_flags set_vm_flags vm_ptes set_vm_ptes]. split.
  - apply Z.bits_inj'. intros n Hn. rewrite Z.land_spec, Z.lor_spec.
    destruct (Z.testbit (vm_flags vma) n), (Z.testbit VM_RESERVED n);
      reflexivity.
  - intros k. rewrite enter_pages_lookup.
    replace (Z.of_nat (S (Z.to_nat q - 1))) with q by lia. reflexivity.
Qed.

Lemma map_user_whole_pages_witness :
  let p0 := 3238002688 in
  let s := KState [] {[3221225472 := Block 8 [Some p0; Some 3238002720]]}
                  {[p0; 3238002720]} ∅ ∅ in
  let vma := VmArea 1073741824 1073750016 0 0 ∅ in
  exists vma',
    ion_system_heap_map_user 5 (IonBuffer 8192 3221225472 0 0) vma s
    = Done (Some (0, vma')) s /\
    Z.land (vm_flags vma') VM_RESERVED = VM_RESERVED /\
    (forall k,
       vm_ptes vma' !! k
       = if (Z.shiftr (vm_start vma) PAGE_SHIFT <=? k)
            && (k <? Z.shiftr (vm_start vma) PAGE_SHIFT + 2)
         then Some p0 else vm_ptes vma !! k).
Proof.
  intros p0 s vma.
  apply (map_user_whole_pages 5 (IonBuffer 8192 3221225472 0 0) vma s p0 2).
  - vm_compute. reflexivity.
  - vm_compute. split; discriminate.
  - vm_compute. discriminate.
  - reflexivity.
  - reflexivity.
  - intros k _. reflexivity.
  - vm_compute. lia.
Defined.

(** X11: an insertion that fails part of the way is not unwound.  When the
    first [f] pages of the range are free and the next one is already
    mapped, [ion_system_heap_map_user] returns [-EBUSY] and the [f] pages
    entered before the failure stay entered. *)
Theorem map_user_failure_leaves_pages
    (fuel : nat) (buffer : ion_buffer) (vma : vm_area_struct) (s : kstate)
    (p0 y q f : Z) :
  load_word (buf_priv_virt buffer) 0 s = Done p0 s ->
  0 <= f < q -> q <= n_pages_of (buf_size buffer) ->
  0 <= vm_start vma -> vm_end vma = vm_start vma + q * PAGE_SIZE ->
  vm_end vma < 2 ^ 32 ->
  (forall k, 0 <= k < f ->
     vm_ptes vma !! (Z.shiftr (vm_start vma) PAGE_SHIFT + k) = None) ->
  vm_ptes vma !! (Z.shiftr (vm_start vma) PAGE_SHIFT + f) = Some y ->
  (Z.to_nat f < fuel)%nat ->
  exists vma',
    ion_system_heap_map_user fuel buffer vma s
    = Done (Some (- EBUSY, vma')) s /\
    (forall k,
       vm_ptes vma' !! k
       = if (Z.shiftr (vm_start vma) PAGE_SHIFT <=? k)
            && (k <? Z.shiftr (vm_start vma) PAGE_SHIFT + f)
         then Some p0 else vm_ptes vma !! k).
Proof.
  intros Hp Hf Hq Hs He Hlt Hfree Hbusy Hfuel. rewrite PAGE_SIZE_eq in He.
  assert (Hlen : ulong (vm_end vma - vm_start vma) = q * 4096).
  { unfold ulong, BITS_PER_LONG. rewrite Z.mod_small; lia. }
  unfold ion_system_heap_map_user. rewrite Hlen.
  rewrite map_user_check_passes by (rewrite PAGE_SIZE_eq; lia).
  replace fuel with (S (Z.to_nat f) + (fuel - Z.to_nat f - 1))%nat by lia.
  erewrite kbind_done.
  2:{ apply (map_user_loop_busy (Z.to_nat f) _ vma (vm_start vma)
               (q * 4096) _ 0 s p0 y); try done; try lia.
      - intros k Hk. apply Hfree. lia.
      - rewrite Z2Nat.id by lia. exact Hbusy. }
  unfold kret. eexists. split; [reflexivity|].
  intros k. cbn [vm_ptes set_vm_ptes]. rewrite enter_pages_lookup.
  rewrite Z2Nat.id by lia. reflexivity.
Qed.

Lemma map_user_failure_leaves_pages_witness :
  let p0 := 3238002688 in
  let s := KState [] {[3221225472 := Block 8 [Some p0; Some 3238002720]]}
                  {[p0; 3238002720]} ∅ ∅ in
  let vma := VmArea 1073741824 1073750016 0 0 {[262145 := 77]} in
  exists vma',
    ion_system_heap_map_user 5 (IonBuffer 8192 3221225472 0 0) vma s
    = Done (Some (- EBUSY, vma')) s /\
    (forall k,
       vm_ptes vma' !! k
       = if (Z.shiftr (vm_start vma) PAGE_SHIFT <=? k)
            && (k <? Z.shiftr (vm_start vma) PAGE_SHIFT + 1)
         then Some p0 else vm_ptes vma !! k).
Proof.
  intros p0 s vma.
  apply (map_user_failure_leaves_pages 5 (IonBuffer 8192 3221225472 0 0)
           vma s p0 77 2 1).
  - vm_compute. reflexivity.
  - lia.
  - vm_compute. discriminate.
  - vm_compute. discriminate.
  - reflexivity.
  - reflexivity.
  - intros k Hk. assert (k = 0) as -> by lia. reflexivity.
  - reflexivity.
  - vm_compute. lia.
Defined.

(** ** The contiguous heap *)

(** X12: when the block cannot be obtained,
    [ion_system_contig_heap_allocate] returns [-ENOMEM] and holds nothing,
    but -- unlike the page-list heap -- it has already overwritten
    [buffer->priv_virt], with NULL; [ion_system_contig_heap_free] of that
    buffer does nothing. *)
Theorem contig_allocate_failure
    (s : kstate) (buffer : ion_buffer) (len align flags : Z) :
  len <> 0 -> kmalloc_refused (kheap s) (oracle s) ->
  ion_system_contig_heap_allocate buffer len align flags s
  = Done (- ENOMEM, set_priv_virt 0 buffer) (set_oracle (tl (oracle s)) s) /\
  ion_system_contig_heap_free (set_priv_virt 0 buffer)
    (set_oracle (tl (oracle s)) s)
  = Done tt (set_oracle (tl (oracle s)) s).
Proof.
  destruct s as [o h P e t]; cbn [oracle kheap]. intros Hlen Href.
  split; [|reflexivity].
  unfold ion_system_contig_heap_allocate, kzalloc.
  rewrite (kbind_done _ _ _ _ _ (kmalloc_fail true len o h P e t Hlen Href)).
  reflexivity.
Qed.

Lemma contig_allocate_failure_witness :
  ion_system_contig_heap_allocate (IonBuffer 0 99 0 0) 8192 0 0
    (KState [0; 3221225472] ∅ ∅ ∅ ∅)
  = Done (- ENOMEM, set_priv_virt 0 (IonBuffer 0 99 0 0))
         (set_oracle [3221225472] (KState [0; 3221225472] ∅ ∅ ∅ ∅)) /\
  ion_system_contig_heap_free (set_priv_virt 0 (IonBuffer 0 99 0 0))
    (set_oracle [3221225472] (KState [0; 3221225472] ∅ ∅ ∅ ∅))
  = Done tt (set_oracle [3221225472] (KState [0; 3221225472] ∅ ∅ ∅ ∅)).
Proof.
  apply (contig_allocate_failure (KState [0; 3221225472] ∅ ∅ ∅ ∅)
           (IonBuffer 0 99 0 0) 8192 0 0).
  - discriminate.
  - left. reflexivity.
Defined.

(** X13: with a block on offer [ion_system_contig_heap_allocate] returns 0
    and records in [buffer->priv_virt] a new block of [len] bytes, every
    word of it zero; [ion_system_contig_heap_free] of that buffer releases
    the block, and the heap is again the one before the allocation. *)
Theorem contig_allocate_free_round_trip
    (s : kstate) (buffer : ion_buffer) (len align flags : Z)
    (a : Z) (tail : list Z) :
  len <> 0 -> oracle s = a :: tail ->
  is_pointer a = true -> kheap s !! a = None ->
  exists s1,
    ion_system_contig_heap_allocate buffer len align flags s
    = Done (0, set_priv_virt a buffer) s1 /\
    (exists blk, kheap s1 !! a = Some blk /\ blk_bytes blk = len /\
                 Forall (fun w => w = Some 0) (blk_words blk)) /\
    ion_system_contig_heap_free (set_priv_virt a buffer) s1
    = Done tt (set_oracle tail s).
Proof.
  destruct s as [o h P e t]; cbn [oracle kheap]. intros Hlen -> Ha Hh.
  unfold ion_system_contig_heap_allocate, kzalloc.
  rewrite (kbind_done _ _ _ _ _ (kmalloc_ok true len a tail h P e t Hlen Ha Hh)).
  rewrite is_pointer_nonzero by done.
  eexists. split; [reflexivity|]. split.
  - exists (kmalloc_block true len). cbn [kheap].
    rewrite lookup_insert_eq. split; [done|]. split; [done|].
    unfold kmalloc_block. cbn [blk_words]. apply Forall_replicate. reflexivity.
  - unfold ion_system_contig_heap_free. cbn [buf_priv_virt set_priv_virt].
    by rewrite kfree_ok.
Qed.

Lemma contig_allocate_free_round_trip_witness :
  let s := KState [3221225472; 5] ∅ ∅ ∅ ∅ in
  exists s1,
    ion_system_contig_heap_allocate (IonBuffer 0 0 0 0) 4097 0 0 s
    = Done (0, set_priv_virt 3221225472 (IonBuffer 0 0 0 0)) s1 /\
    (exists blk, kheap s1 !! 3221225472 = Some blk /\ blk_bytes blk = 4097 /\
                 Forall (fun w => w = Some 0) (blk_words blk)) /\
    ion_system_contig_heap_free (set_priv_virt 3221225472 (IonBuffer 0 0 0 0)) s1
    = Done tt (set_oracle [5] s).
Proof.
  intros s.
  apply (contig_allocate_free_round_trip s (IonBuffer 0 0 0 0) 4097 0 0
           3221225472 [5]).
  - discriminate.
  - reflexivity.
  - reflexivity.
  - vm_compute. reflexivity.
Defined.

Section ContigProofs.
Variable virt_to_page : Z -> Z.

Lemma contig_map_dma_run (buffer : ion_buffer) a sg tail h P e t :
  is_pointer a = true -> h !! a = None ->
  is_pointer sg = true -> e !! sg = None ->
  ion_system_contig_heap_map_dma virt_to_page buffer
    (KState (a :: sg :: tail) h P e t)
  = Done a
      (KState tail
         (<[a := Block sizeof_sg_table [Some sg; Some 1; Some 1]]> h) P
         (<[sg := [Scatterlist (virt_to_page (buf_priv_virt buffer))
                               (buf_size buffer) 0]]> e) t).
Proof.
  intros Ha Hh Hsg He.
  unfold ion_system_contig_heap_map_dma, kzalloc.
  rewrite (kbind_done _ _ _ _ _
             (kmalloc_ok true sizeof_sg_table a _ h P e t ltac:(done) Ha Hh)).
  rewrite is_pointer_nonzero by done. unfold kmalloc_block.
  change (replicate _ (if true then Some 0 else None))
    with [Some 0; Some 0; Some 0].
  destruct (sg_alloc_table_spec a 1 (sg :: tail) h P e t
              (Some 0) (Some 0) (Some 0)) as
    [(ret & _ & _ & [[Hz _] | (_ & _ & [Hr | Hr])])
    | (sgl & o'' & [= <- <-] & _ & _ & _ & Hrun)].
  - discriminate.
  - congruence.
  - rewrite He in Hr. by destruct Hr.
  - rewrite (kbind_done _ _ _ _ _ Hrun). cbn [Z.eqb negb].
    rewrite (kbind_done _ _ _ _ _
               (load_word_ok a 0 sg tail h P _ t sizeof_sg_table
                  [] [Some 1; Some 1] eq_refl)).
    change 0 with (Z.of_nat 0) at 1.
    rewrite (kbind_done _ _ _ _ _
               (sg_set_page_ok sg 0 _ _ 0
                  (replicate (Z.to_nat 1) (Scatterlist 0 0 0)) tail _ P e t
                  ltac:(rewrite length_replicate; lia))).
    reflexivity.
Qed.

(** X14: when the description and its entry table are obtained,
    [ion_system_contig_heap_map_dma] returns a description of exactly one
    entry: the page of the block's base address, the whole
    [buffer->size] as its length, offset 0. *)
Theorem contig_map_dma_single_entry
    (s : kstate) (buffer : ion_buffer) (a sg : Z) (tail : list Z) :
  oracle s = a :: sg :: tail ->
  is_pointer a = true -> kheap s !! a = None ->
  is_pointer sg = true -> sg_ents s !! sg = None ->
  exists s',
    ion_system_contig_heap_map_dma virt_to_page buffer s = Done a s' /\
    IS_ERR a = false /\
    sg_entries s' a
    = Some [Scatterlist (virt_to_page (buf_priv_virt buffer))
                        (buf_size buffer) 0] /\
    kheap s' !! a = Some (Block sizeof_sg_table [Some sg; Some 1; Some 1]).
Proof.
  destruct s as [o h P e t]; cbn [oracle kheap sg_ents].
  intros -> Ha Hh Hsg He.
  rewrite contig_map_dma_run by done.
  eexists. split; [reflexivity|]. split; [by apply is_pointer_not_err|].
  unfold sg_entries. cbn [kheap sg_ents]. rewrite !lookup_insert_eq. done.
Qed.

(** X15: on the contiguous heap too [unmap_dma] undoes [map_dma]: the
    entry table and the description are released and the state is the one
    before the mapping, the two consumed choices apart. *)
Theorem contig_map_unmap_dma_round_trip
    (s : kstate) (buffer : ion_buffer) (a sg : Z) (tail : list Z) :
  oracle s = a :: sg :: tail ->
  is_pointer a = true -> kheap s !! a = None ->
  is_pointer sg = true -> sg_ents s !! sg = None ->
  (let* table := ops_map_dma (kmalloc_ops virt_to_page) buffer in
   ops_unmap_dma (kmalloc_ops virt_to_page) (set_sg_table table buffer)) s
  = Done tt (set_oracle tail s).
Proof.
  destruct s as [o h P e t]; cbn [oracle kheap sg_ents].
  intros -> Ha Hh Hsg He. cbn [ops_map_dma ops_unmap_dma kmalloc_ops].
  rewrite (kbind_done _ _ _ _ _
             (contig_map_dma_run buffer a sg tail h P e t Ha Hh Hsg He)).
  unfold ion_system_heap_unmap_dma. cbn [set_sg_table buf_sg_table].
  rewrite is_pointer_nonzero by done. cbn [negb].
  erewrite kbind_done by (by apply sg_free_table_ok).
  by rewrite kfree_ok.
Qed.

End ContigProofs.

Lemma contig_map_dma_single_entry_witness :
  let s := KState [3222274048; 3223322624]
             {[3221225472 := kmalloc_block true 4097]} ∅ ∅ ∅ in
  let buffer := IonBuffer 4097 3221225472 0 0 in
  exists s',
    ion_system_contig_heap_map_dma (fun a => a) buffer s
    = Done 3222274048 s' /\
    IS_ERR 3222274048 = false /\
    sg_entries s' 3222274048 = Some [Scatterlist 3221225472 4097 0] /\
    kheap s' !! 3222274048
    = Some (Block sizeof_sg_table [Some 3223322624; Some 1; Some 1]).
Proof.
  intros s buffer.
  apply (contig_map_dma_single_entry (fun a => a) s buffer
           3222274048 3223322624 []).
  - reflexivity.
  - reflexivity.
  - vm_compute. reflexivity.
  - reflexivity.
  - vm_compute. reflexivity.
Defined.

Lemma contig_map_unmap_dma_round_trip_witness :
  let s := KState [3222274048; 3223322624]
             {[3221225472 := kmalloc_block true 4097]} ∅ ∅ ∅ in
  let buffer := IonBuffer 4097 3221225472 0 0 in
  (let* table := ops_map_dma (kmalloc_ops (fun a => a)) buffer in
   ops_unmap_dma (kmalloc_ops (fun a => a)) (set_sg_table table buffer)) s
  = Done tt (set_oracle [] s).
Proof.
  intros s buffer.
  apply (contig_map_unmap_dma_round_trip (fun a => a) s buffer
           3222274048 3223322624 []).
  - reflexivity.
  - reflexivity.
  - vm_compute. reflexivity.
  - reflexivity.
  - vm_compute. reflexivity.
Defined.

(** ** The heap constructors *)

Lemma store_word_lookup a i v s b :
  kheap s !! a = Some b -> 0 <= i ->
  (Z.to_nat i < length (blk_words b))%nat ->
  store_word a i v s
  = Done tt (set_kheap
               (<[a := Block (blk_bytes b)
                             (<[Z.to_nat i := Some v]> (blk_words b))]>
                  (kheap s)) s).
Proof.
  intros Hb Hi Hlen. unfold store_word.
  destruct (Z.ltb_spec i 0); [lia|].
  rewrite Hb, bool_decide_eq_true_2 by done. reflexivity.
Qed.

Section HeapProofs.

Variable sizeof_ion_heap : Z.
Variable heap_type_idx heap_ops_idx : Z.
Variable addr_vmalloc_ops addr_kmalloc_ops : Z.
Variable ION_HEAP_TYPE_SYSTEM ION_HEAP_TYPE_SYSTEM_CONTIG : Z.

(** The fields [type] and [ops] are two different words inside the
    structure. *)
Hypothesis type_in_struct : 0 <= heap_type_idx < sizeof_ion_heap / sizeof_ptr.
Hypothesis ops_in_struct : 0 <= heap_ops_idx < sizeof_ion_heap / sizeof_ptr.
Hypothesis type_not_ops : heap_type_idx <> heap_ops_idx.

Lemma sizeof_ion_heap_nonzero : sizeof_ion_heap <> 0.
Proof.
  intros H. pose proof type_in_struct as Ht. rewrite H in Ht.
  change (0 / sizeof_ptr) with 0 in Ht. lia.
Qed.

(** The descriptor both constructors build, with its table and tag. *)
Lemma heap_create_run (ops ty a : Z) (tail : list Z) h P e t :
  is_pointer a = true -> h !! a = None ->
  (let* heap := kzalloc sizeof_ion_heap in
   if heap =? 0 then kret (ERR_PTR (- ENOMEM)) else
   store_word heap heap_ops_idx ops ;;
   store_word heap heap_type_idx ty ;;
   kret heap) (KState (a :: tail) h P e t)
  = Done a
      (KState tail
         (<[a := Block sizeof_ion_heap
                   (<[Z.to_nat heap_type_idx := Some ty]>
                      (<[Z.to_nat heap_ops_idx := Some ops]>
                         (replicate (Z.to_nat (sizeof_ion_heap / sizeof_ptr))
                                    (Some 0))))]> h)
         P e t).
Proof.
  intros Ha Hh. unfold kzalloc.
  rewrite (kbind_done _ _ _ _ _
             (kmalloc_ok true sizeof_ion_heap a tail h P e t
                sizeof_ion_heap_nonzero Ha Hh)).
  rewrite is_pointer_nonzero by done.
  erewrite kbind_done.
  2:{ eapply store_word_lookup; [apply lookup_insert_eq | lia|].
      unfold kmalloc_block. cbn [blk_words]. rewrite length_replicate. lia. }
  erewrite kbind_done.
  2:{ eapply store_word_lookup; [apply lookup_insert_eq | lia|].
      unfold kmalloc_block. cbn [blk_words].
      rewrite length_insert, length_replicate. lia. }
  unfold kret, set_kheap, kmalloc_block.
  cbn [kheap oracle pages_held sg_ents kpt blk_bytes blk_words].
  rewrite !insert_insert_eq. reflexivity.
Qed.

Lemma heap_fields (ops ty a : Z) (tail : list Z) h P e t :
  let s' := KState tail
         (<[a := Block sizeof_ion_heap
                   (<[Z.to_nat heap_type_idx := Some ty]>
                      (<[Z.to_nat heap_ops_idx := Some ops]>
                         (replicate (Z.to_nat (sizeof_ion_heap / sizeof_ptr))
                                    (Some 0))))]> h)
         P e t in
  heap_field s' a heap_ops_idx = Some ops /\
  heap_field s' a heap_type_idx = Some ty /\
  (forall i, 0 <= i < sizeof_ion_heap / sizeof_ptr ->
     i <> heap_ops_idx -> i <> heap_type_idx -> heap_field s' a i = Some 0).
Proof.
  intros s'. unfold heap_field, s'. cbn [kheap].
  rewrite lookup_insert_eq. cbn [blk_words]. repeat split.
  - rewrite list_lookup_insert_ne by lia.
    rewrite list_lookup_insert_eq by (rewrite length_replicate; lia).
    reflexivity.
  - rewrite list_lookup_insert_eq
      by (rewrite length_insert, length_replicate; lia).
    reflexivity.
  - intros i Hi Hio Hit.
    rewrite !list_lookup_insert_ne by lia.
    rewrite lookup_replicate_2 by lia. reflexivity.
Qed.

(** X16: with a block on offer each constructor returns a new descriptor,
    not an error pointer, whose [ops] is the address of the heap's own
    operation table and whose [type] is the heap's own tag, every other
    word being zero; the matching [destroy] releases it, and the heap is
    again the one before the constructor ran. *)
Theorem heap_create_destroy
    (s : kstate) (a : Z) (tail : list Z) :
  oracle s = a :: tail -> is_pointer a = true -> kheap s !! a = None ->
  (exists s',
     ion_system_heap_create sizeof_ion_heap heap_type_idx heap_ops_idx
       addr_vmalloc_ops ION_HEAP_TYPE_SYSTEM s = Done a s' /\
     IS_ERR a = false /\
     heap_field s' a heap_ops_idx = Some addr_vmalloc_ops /\
     heap_field s' a heap_type_idx = Some ION_HEAP_TYPE_SYSTEM /\
     (forall i, 0 <= i < sizeof_ion_heap / sizeof_ptr ->
        i <> heap_ops_idx -> i <> heap_type_idx ->
        heap_field s' a i = Some 0) /\
     ion_system_heap_destroy a s' = Done tt (set_oracle tail s))
  /\
  (exists s',
     ion_system_contig_heap_create sizeof_ion_heap heap_type_idx heap_ops_idx
       addr_kmalloc_ops ION_HEAP_TYPE_SYSTEM_CONTIG s = Done a s' /\
     IS_ERR a = false /\
     heap_field s' a heap_ops_idx = Some addr_kmalloc_ops /\
     heap_field s' a heap_type_idx = Some ION_HEAP_TYPE_SYSTEM_CONTIG /\
     (forall i, 0 <= i < sizeof_ion_heap / sizeof_ptr ->
        i <> heap_ops_idx -> i <> heap_type_idx ->
        heap_field s' a i = Some 0) /\
     ion_system_contig_heap_destroy a s' = Done tt (set_oracle tail s)).
Proof.
  destruct s as [o h P e t]; cbn [oracle kheap]. intros -> Ha Hh.
  split.
  - unfold ion_system_heap_create, ion_system_heap_destroy.
    rewrite heap_create_run by done.
    destruct (heap_fields addr_vmalloc_ops ION_HEAP_TYPE_SYSTEM a tail h P e t)
      as (Hops & Hty & Hrest).
    eexists. split; [reflexivity|].
    split; [by apply is_pointer_not_err|].
    split; [exact Hops|]. split; [exact Hty|]. split; [exact Hrest|].
    by rewrite kfree_ok.
  - unfold ion_system_contig_heap_create, ion_system_contig_heap_destroy.
    rewrite heap_create_run by done.
    destruct (heap_fields addr_kmalloc_ops ION_HEAP_TYPE_SYSTEM_CONTIG
                a tail h P e t) as (Hops & Hty & Hrest).
    eexists. split; [reflexivity|].
    split; [by apply is_pointer_not_err|].
    split; [exact Hops|]. split; [exact Hty|]. split; [exact Hrest|].
    by rewrite kfree_ok.
Qed.

(** X17: when the descriptor cannot be obtained each constructor returns
    [ERR_PTR(-ENOMEM)], an error pointer, and leaves the state as it was,
    the consumed choice apart. *)
Theorem heap_create_failure (s : kstate) :
  kmalloc_refused (kheap s) (oracle s) ->
  ion_system_heap_create sizeof_ion_heap heap_type_idx heap_ops_idx
    addr_vmalloc_ops ION_HEAP_TYPE_SYSTEM s
  = Done (ERR_PTR (- ENOMEM)) (set_oracle (tl (oracle s)) s) /\
  ion_system_contig_heap_create sizeof_ion_heap heap_type_idx heap_ops_idx
    addr_kmalloc_ops ION_HEAP_TYPE_SYSTEM_CONTIG s
  = Done (ERR_PTR (- ENOMEM)) (set_oracle (tl (oracle s)) s) /\
  IS_ERR (ERR_PTR (- ENOMEM)) = true.
Proof.
  destruct s as [o h P e t]; cbn [oracle kheap]. intros Href.
  unfold ion_system_heap_create, ion_system_contig_heap_create, kzalloc.
  rewrite !(kbind_done _ _ _ _ _
              (kmalloc_fail true sizeof_ion_heap o h P e t
                 sizeof_ion_heap_nonzero Href)).
  repeat split.
Qed.

End HeapProofs.

Lemma heap_create_destroy_witness :
  let s := KState [3225419776; 9] ∅ ∅ ∅ ∅ in
  (exists s',
     ion_system_heap_create 32 4 5 3226468352 0 s = Done 3225419776 s' /\
     IS_ERR 3225419776 = false /\
     heap_field s' 3225419776 5 = Some 3226468352 /\
     heap_field s' 3225419776 4 = Some 0 /\
     (forall i, 0 <= i < 32 / sizeof_ptr -> i <> 5 -> i <> 4 ->
        heap_field s' 3225419776 i = Some 0) /\
     ion_system_heap_destroy 3225419776 s' = Done tt (set_oracle [9] s))
  /\
  (exists s',
     ion_system_contig_heap_create 32 4 5 3226468380 1 s
     = Done 3225419776 s' /\
     IS_ERR 3225419776 = false /\
     heap_field s' 3225419776 5 = Some 3226468380 /\
     heap_field s' 3225419776 4 = Some 1 /\
     (forall i, 0 <= i < 32 / sizeof_ptr -> i <> 5 -> i <> 4 ->
        heap_field s' 3225419776 i = Some 0) /\
     ion_system_contig_heap_destroy 3225419776 s' = Done tt (set_oracle [9] s)).
Proof.
  intros s.
  apply (heap_create_destroy 32 4 5 3226468352 3226468380 0 1).
  - vm_compute. split; [discriminate | reflexivity].
  - vm_compute. split; [discriminate | reflexivity].
  - discriminate.
  - reflexivity.
  - reflexivity.
  - vm_compute. reflexivity.
Defined.

Lemma heap_create_failure_witness :
  let s := KState [0; 3225419776] ∅ ∅ ∅ ∅ in
  ion_system_heap_create 32 4 5 3226468352 0 s
  = Done (ERR_PTR (- ENOMEM)) (set_oracle [3225419776] s) /\
  ion_system_contig_heap_create 32 4 5 3226468380 1 s
  = Done (ERR_PTR (- ENOMEM)) (set_oracle [3225419776] s) /\
  IS_ERR (ERR_PTR (- ENOMEM)) = true.
Proof.
  intros s.
  apply (heap_create_failure 32 4 5 3226468352 3226468380 0 1).
  - vm_compute. split; [discriminate | reflexivity].
  - left. reflexivity.
Defined.

(** ** The page-list heap: every way [allocate] can end *)

Lemma allocate_run_failure
    (s : kstate) (buffer : ion_buffer) (size align flags : Z)
    (a : Z) (ps tail : list Z) :
  oracle s = a :: ps ++ tail ->
  is_pointer a = true -> kheap s !! a = None ->
  pages_fresh (pages_held s) ps ->
  page_refused (list_to_set ps ∪ pages_held s) tail ->
  0 <= Z.of_nat (length ps) < n_pages_of size ->
  ion_system_heap_allocate buffer size align flags s
  = Done (- ENOMEM, buffer) (set_oracle (tl tail) s).
Proof.
  destruct s as [o h P e t]; simpl.
  intros -> Ha Hh Hfresh Href Hi.
  destruct (slot_array_block size) as [Hnz Hblk]; [lia|].
  unfold ion_system_heap_allocate.
  unfold kbind at 1. unfold kmalloc. rewrite kmalloc_ok, Hblk by done.
  set (n := n_pages_of size) in *.
  assert (Hk : exists m, Z.to_nat n = (length ps + S m)%nat).
  { exists (Z.to_nat n - length ps - 1)%nat. lia. }
  destruct Hk as [m ->].
  unfold kbind at 1.
  rewrite (allocate_loop_run ps [] (S m)) by done.
  cbn [app length Nat.add map allocate_loop].
  unfold kbind at 1. rewrite alloc_page_refused by done.
  cbn [replicate].
  unfold kbind at 1.
  rewrite store_word_ok by (rewrite length_map; reflexivity).
  unfold kbind at 1.
  rewrite load_word_ok by (rewrite length_map; reflexivity).
  cbn [Z.eqb kret].
  replace (Z.to_nat (Z.of_nat (length ps) - 1 + 1)) with (length ps) by lia.
  unfold kbind at 1. destruct Hfresh as [Hnd Hall].
  rewrite allocate_unwind_ok.
  - unfold kbind. rewrite kfree_ok by done. reflexivity.
  - done.
  - intros p Hp. rewrite Forall_forall in Hall. apply (Hall p Hp).
Qed.

(** The choices the page allocator will accept next: the longest run of
    new pages at the head of the script, up to [n] of them. *)
Lemma fresh_prefix (P : gset Z) (n : nat) : forall (o : list Z),
  exists ps tail,
    o = ps ++ tail /\ pages_fresh P ps /\
    (length ps = n \/
     (length ps < n)%nat /\ page_refused (list_to_set ps ∪ P) tail).
Proof.
  induction n as [|n IH]; intros o.
  - exists [], o. split; [done|]. split; [|by left].
    split; [apply NoDup_nil_2 | apply Forall_nil_2].
  - destruct (IH o) as (ps & tail & -> & [Hnd Hall] & [Hlen | [Hlen Href]]).
    + destruct tail as [|f tail].
      * exists ps, []. split; [done|]. split; [done|]. right.
        split; [lia | exact I].
      * destruct (is_pointer f) eqn:Hf.
        -- destruct (decide (f ∈ (list_to_set ps ∪ P : gset Z))) as [Hin | Hout].
           ++ exists ps, (f :: tail). split; [done|]. split; [done|]. right.
              split; [lia | by right].
           ++ exists (ps ++ [f]), tail. rewrite <- app_assoc.
              split; [done|]. split.
              ** split.
                 --- apply NoDup_app. split; [done|]. split.
                     +++ intros x Hx Hxf. apply Hout. set_solver.
                     +++ apply NoDup_singleton.
                 --- apply Forall_app. split; [done|].
                     apply Forall_singleton. split; [done | set_solver].
              ** left. rewrite length_app. cbn. lia.
        -- exists ps, (f :: tail). split; [done|]. split; [done|]. right.
           split; [lia | by left].
    + exists ps, tail. split; [done|]. split; [done|]. right.
      split; [lia | done].
Qed.

(** X18: [ion_system_heap_allocate] has two returns and leaks on neither.
    Whenever it returns, the result is 0 or [-ENOMEM]; and when it is
    [-ENOMEM] the buffer is the one passed in and the state holds exactly
    the resources held before the call, wherever in the sequence of page
    acquisitions the failure came. *)
Theorem allocate_never_leaks
    (s : kstate) (buffer : ion_buffer) (size align flags : Z)
    (r : Z) (b' : ion_buffer) (s' : kstate) :
  kheap s !! 0 = None ->
  ion_system_heap_allocate buffer size align flags s = Done (r, b') s' ->
  (r = 0 \/ r = - ENOMEM) /\
  (r <> 0 -> b' = buffer /\ same_resources s s').
Proof.
  intros Hnull Hrun.
  assert (Hb := n_pages_of_bounds size).
  destruct (Z.eq_dec (n_pages_of size) 0) as [Hz | Hnz].
  { unfold ion_system_heap_allocate in Hrun. rewrite Hz in Hrun.
    cbn in Hrun. injection Hrun as <- _ _. split; [by left | done]. }
  assert (Hn : 0 < n_pages_of size) by lia.
  destruct s as [o h P e t]. cbn [kheap] in Hnull.
  destruct (slot_array_block size Hn) as [Hsz _].
  destruct (kmalloc_gen_spec false (ulong (n_pages_of size * sizeof_ptr))
              o h P e t Hsz) as [[_ Href] | (a & o' & -> & Ha & Hh & _)].
  { rewrite (allocate_faults_on_null (KState o h P e t)) in Hrun by done.
    discriminate. }
  destruct (fresh_prefix P (Z.to_nat (n_pages_of size)) o')
    as (ps & tail & -> & Hfresh & [Hlen | [Hlen Href]]).
  - rewrite (allocate_run_success (KState (a :: ps ++ tail) h P e t) buffer
               size align flags a ps tail) in Hrun; try done; [|lia].
    injection Hrun as <- _ _. split; [by left | done].
  - rewrite (allocate_run_failure (KState (a :: ps ++ tail) h P e t) buffer
               size align flags a ps tail) in Hrun; try done; [|lia].
    injection Hrun as <- <- <-. split; [by right|].
    intros _. split; [done|]. by repeat split.
Qed.

Lemma allocate_never_leaks_witness :
  let s := KState [3221225472; 3238002688; 0] ∅ ∅ ∅ ∅ in
  (- ENOMEM = 0 \/ - ENOMEM = - ENOMEM) /\
  (- ENOMEM <> 0 ->
   IonBuffer 0 0 0 0 = IonBuffer 0 0 0 0 /\ same_resources s (set_oracle [] s)).
Proof.
  intros s.
  apply (allocate_never_leaks s (IonBuffer 0 0 0 0) 8192 0 0
           (- ENOMEM) (IonBuffer 0 0 0 0) (set_oracle [] s)).
  - reflexivity.
  - vm_compute. reflexivity.
Defined.
